(** * dynamicSchema: the dynamic validator, the predicate evaluator,
      the record store and the data migration, embedded from the Python source.

    Layout (one module per source file):
    - [Py]             the Python values and exceptions the program manipulates;
    - [Pydantic]       what [pydantic.create_model], a call of the model class
                       and [Model.dict()] do (pydantic 1.x, the API the source uses:
                       [validator], [orm_mode], [.dict()]);
    - [SchemasDynamic] src/app/schemas_dynamic.py;
    - [Models], [Crud] src/app/models.py, src/app/crud.py;
    - [DynamicDataRouter]   src/app/routers/dynamic_data.py;
    - [ErrorHandlers], [DynamicSchemasRouter]
                            src/app/utils/error_handlers.py,
                            src/app/routers/dynamic_schemas.py;
    - [SchemaFieldsRouter]  src/app/routers/dynamic_schema_fields.py.

    Modelling boundary.
    - A Python [str] is a Rocq [string] holding its UTF-8 bytes.  [int(s)]
      and [s.lower()] are modelled on ASCII text: non-ASCII decimal digits,
      non-ASCII white space and non-ASCII case mappings are not.
    - A Python [float] is an IEEE binary64 value ([spec_float]).  The textual
      conversions [str(x)], [float(s)] and pydantic's date-time parser are
      taken as parameters ([Py.Conversions]); every theorem holds for all of
      them.
    - Field names are assumed to be names pydantic accepts for a field (no
      leading underscore, no [BaseModel] attribute name).
    - [created_at] / [updated_at] columns are left out of the rows.
    - The session comes from src/app/database.py; whether it flushes before
      a query ([autoflush]) is a parameter where the answer depends on it.
    - Log lines are not modelled. *)

From Stdlib Require Import ZArith List String Ascii Bool Lia DecimalString.
From Corelib Require Import Floats.SpecFloat.
Import ListNotations.
Local Open Scope string_scope.
Set Warnings "-register-all".

(* ================================================================== *)
(** * Python values, exceptions, dictionaries                          *)
(* ================================================================== *)

Module Py.

(** [datetime.datetime]: the fields of the object. *)
Record datetime := mk_datetime {
  year : Z; month : Z; day : Z; hour : Z; minute : Z; second : Z;
  microsecond : Z; utcoffset : option Z }.

(** The values a JSON body decodes to, plus [datetime] objects, which a
    validated document can carry. *)
Inductive value :=
| VNone
| VBool (b : bool)
| VInt (n : Z)
| VFloat (f : spec_float)
| VStr (s : string)
| VDatetime (d : datetime)
| VList (l : list value)
| VDict (d : list (string * value)).

(** A [dict] with [str] keys, in insertion order. *)
Definition dict := list (string * value).

(** Exceptions. [ValidationError] is pydantic's (a subclass of [ValueError]);
    it carries one entry per failed location. *)
Record error_wrapper := mk_error {
  loc : list string; msg : string; type_ : string }.

Inductive exn :=
| ValueError (message : string)
| ValidationError (model : string) (errors : list error_wrapper)
| TypeError (message : string)
| AttributeError (message : string)
| NameError (name : string)
| KeyError (key : string)
| RuntimeError (message : string)
| OverflowError (message : string).

Inductive result (A : Type) :=
| Ok (a : A)
| Raise (e : exn).
Arguments Ok {A} a.
Arguments Raise {A} e.

Definition bind {A B} (m : result A) (k : A -> result B) : result B :=
  match m with
  | Ok a => k a
  | Raise e => Raise e
  end.

(** [isinstance(e, ValueError)] – what an [except ValueError] clause catches. *)
Definition is_ValueError (e : exn) : bool :=
  match e with
  | ValueError _ | ValidationError _ _ => true
  | _ => false
  end.

(** ** Dictionaries with [str] keys *)

Fixpoint dict_get (k : string) (d : dict) : option value :=
  match d with
  | [] => None
  | (k', v) :: d' => if String.eqb k k' then Some v else dict_get k d'
  end.

Definition dict_contains (k : string) (d : dict) : bool :=
  match dict_get k d with Some _ => true | None => false end.

(** [d[k] = v]: an existing key keeps its position. *)
Fixpoint dict_set (k : string) (v : value) (d : dict) : dict :=
  match d with
  | [] => [(k, v)]
  | (k', v') :: d' =>
      if String.eqb k k' then (k', v) :: d' else (k', v') :: dict_set k v d'
  end.

Definition dict_keys (d : dict) : list string := map fst d.

(** ** Truth value of a JSON value ([if x], [not x]) *)

Definition float_is_zero (f : spec_float) : bool :=
  match f with S754_zero _ => true | _ => false end.

Definition truthy (v : value) : bool :=
  match v with
  | VNone => false
  | VBool b => b
  | VInt n => negb (Z.eqb n 0)
  | VFloat f => negb (float_is_zero f)
  | VStr s => negb (String.eqb s "")
  | VDatetime _ => true
  | VList l => match l with [] => false | _ => true end
  | VDict d => match d with [] => false | _ => true end
  end.

(** ** Text *)

Definition is_continuation_byte (c : ascii) : bool :=
  let n := nat_of_ascii c in (128 <=? n)%nat && (n <? 192)%nat.

(** [len(s)]: the number of code points. *)
Definition py_len (s : string) : nat :=
  List.length (filter (fun c => negb (is_continuation_byte c)) (list_ascii_of_string s)).

(** Iterating a [str]: one string per code point. *)
Fixpoint chars_aux (cur : list ascii) (l : list ascii) : list string :=
  match l with
  | [] => match cur with [] => [] | _ => [string_of_list_ascii (rev cur)] end
  | c :: r =>
      if is_continuation_byte c then chars_aux (c :: cur) r
      else match cur with
           | [] => chars_aux [c] r
           | _ => string_of_list_ascii (rev cur) :: chars_aux [c] r
           end
  end.

Definition py_chars (s : string) : list string :=
  chars_aux [] (list_ascii_of_string s).

Definition lower_ascii (c : ascii) : ascii :=
  let n := nat_of_ascii c in
  if (65 <=? n)%nat && (n <=? 90)%nat then ascii_of_nat (n + 32) else c.

(** [s.lower()] on ASCII letters. *)
Definition py_lower (s : string) : string :=
  string_of_list_ascii (map lower_ascii (list_ascii_of_string s)).

(** [needle in hay] for two strings. *)
Fixpoint str_contains (needle hay : string) : bool :=
  String.prefix needle hay ||
  match hay with
  | EmptyString => false
  | String _ hay' => str_contains needle hay'
  end.

(** [s.replace(' ', '')]. *)
Definition remove_spaces (s : string) : string :=
  string_of_list_ascii
    (filter (fun c => negb (Ascii.eqb c " ")) (list_ascii_of_string s)).

(** [str(n)] for an [int]. *)
Definition py_str_of_int (n : Z) : string :=
  NilZero.string_of_int (Z.to_int n).

Definition py_str_of_nat (n : nat) : string :=
  NilZero.string_of_uint (Nat.to_uint n).

(** [int(s)] in base 10: white space stripped, an optional sign, digits with
    single underscores between them. *)
Definition is_space (c : ascii) : bool :=
  let n := nat_of_ascii c in
  ((9 <=? n)%nat && (n <=? 13)%nat) || ((28 <=? n)%nat && (n <=? 32)%nat).

Definition digit_of (c : ascii) : option Z :=
  let n := nat_of_ascii c in
  if (48 <=? n)%nat && (n <=? 57)%nat then Some (Z.of_nat (n - 48)) else None.

Fixpoint lstrip (l : list ascii) : list ascii :=
  match l with
  | c :: r => if is_space c then lstrip r else l
  | [] => []
  end.

Definition strip (l : list ascii) : list ascii := rev (lstrip (rev (lstrip l))).

Fixpoint parse_digits (acc : Z) (after_digit : bool) (l : list ascii) : option Z :=
  match l with
  | [] => if after_digit then Some acc else None
  | c :: r =>
      match digit_of c with
      | Some d => parse_digits (10 * acc + d) true r
      | None =>
          if Ascii.eqb c "_" && after_digit then parse_digits acc false r else None
      end
  end.

Definition py_int_of_str (s : string) : option Z :=
  match strip (list_ascii_of_string s) with
  | c :: r =>
      if Ascii.eqb c "+" then parse_digits 0 false r
      else if Ascii.eqb c "-" then option_map Z.opp (parse_digits 0 false r)
      else parse_digits 0 false (c :: r)
  | [] => None
  end.

(** ** Floats *)

(** [float(n)] for an [int]: round to nearest even; [OverflowError] beyond
    the binary64 range. *)
Definition float_of_int (n : Z) : result spec_float :=
  match binary_normalize 53 1024 n 0 false with
  | S754_infinity _ => Raise (OverflowError "int too large to convert to float")
  | f => Ok f
  end.

(** [int(x)] for a float: truncation; [None] for an infinity or a NaN. *)
Definition int_of_float (f : spec_float) : option Z :=
  match f with
  | S754_zero _ => Some 0%Z
  | S754_finite s m e =>
      let a := if (0 <=? e)%Z then (Zpos m * 2 ^ e)%Z else (Zpos m / 2 ^ (- e))%Z in
      Some (if s then (- a)%Z else a)
  | _ => None
  end.

(** The integer a float is equal to ([x == n]), if any. *)
Definition float_as_int (f : spec_float) : option Z :=
  match f with
  | S754_zero _ => Some 0%Z
  | S754_finite s m e =>
      if (0 <=? e)%Z then Some (if s then (- (Zpos m * 2 ^ e))%Z else (Zpos m * 2 ^ e)%Z)
      else if (Zpos m mod 2 ^ (- e) =? 0)%Z
           then Some (if s then (- (Zpos m / 2 ^ (- e)))%Z else (Zpos m / 2 ^ (- e))%Z)
           else None
  | _ => None
  end.

Definition float_is_nan (f : spec_float) : bool :=
  match f with S754_nan => true | _ => false end.

(** ** Dictionaries with arbitrary hashable keys

    [migrate_existing_data] can store a key that is not a [str]; [dict(v)]
    on a list of pairs can as well.  Keys compare as Python compares them:
    [1 == 1.0 == True]; a NaN equals nothing. *)

Inductive hkey :=
| HNone
| HNum (n : Z)
| HFloat (f : spec_float)
| HStr (s : string)
| HDatetime (d : datetime).

Definition hash_key (v : value) : result hkey :=
  match v with
  | VNone => Ok HNone
  | VBool b => Ok (HNum (if b then 1 else 0)%Z)
  | VInt n => Ok (HNum n)
  | VFloat f => match float_as_int f with Some n => Ok (HNum n) | None => Ok (HFloat f) end
  | VStr s => Ok (HStr s)
  | VDatetime d => Ok (HDatetime d)
  | VList _ => Raise (TypeError "unhashable type: 'list'")
  | VDict _ => Raise (TypeError "unhashable type: 'dict'")
  end.

Definition option_Z_eqb (a b : option Z) : bool :=
  match a, b with
  | Some x, Some y => Z.eqb x y
  | None, None => true
  | _, _ => false
  end.

Definition datetime_eqb (a b : datetime) : bool :=
  Z.eqb (year a) (year b) && Z.eqb (month a) (month b) && Z.eqb (day a) (day b)
  && Z.eqb (hour a) (hour b) && Z.eqb (minute a) (minute b)
  && Z.eqb (second a) (second b) && Z.eqb (microsecond a) (microsecond b)
  && option_Z_eqb (utcoffset a) (utcoffset b).

Definition hkey_eqb (a b : hkey) : bool :=
  match a, b with
  | HNone, HNone => true
  | HNum x, HNum y => Z.eqb x y
  | HFloat x, HFloat y =>
      negb (float_is_nan x) && negb (float_is_nan y) && SFeqb x y
  | HStr x, HStr y => String.eqb x y
  | HDatetime x, HDatetime y => datetime_eqb x y
  | _, _ => false
  end.

(** A general dictionary keeps the key object first inserted. *)
Definition gdict := list (hkey * value * value).

Fixpoint gdict_contains (k : hkey) (d : gdict) : bool :=
  match d with
  | [] => false
  | (k', _, _) :: d' => hkey_eqb k k' || gdict_contains k d'
  end.

Fixpoint gdict_get (k : hkey) (d : gdict) : option value :=
  match d with
  | [] => None
  | (k', _, v) :: d' => if hkey_eqb k k' then Some v else gdict_get k d'
  end.

Fixpoint gdict_set (k : hkey) (kv : value) (v : value) (d : gdict) : gdict :=
  match d with
  | [] => [(k, kv, v)]
  | (k', kv', v') :: d' =>
      if hkey_eqb k k' then (k', kv', v) :: d' else (k', kv', v') :: gdict_set k kv v d'
  end.

Fixpoint gdict_del (k : hkey) (d : gdict) : gdict :=
  match d with
  | [] => []
  | (k', kv', v') :: d' =>
      if hkey_eqb k k' then d' else (k', kv', v') :: gdict_del k d'
  end.

Definition gdict_of_dict (d : dict) : gdict :=
  map (fun kv => (HStr (fst kv), VStr (fst kv), snd kv)) d.

(** Passing a dictionary as keyword arguments: every key has to be a [str]. *)
Fixpoint kwargs_of_gdict (d : gdict) : result dict :=
  match d with
  | [] => Ok []
  | (HStr s, _, v) :: d' => bind (kwargs_of_gdict d') (fun r => Ok ((s, v) :: r))
  | _ :: _ => Raise (TypeError "keywords must be strings")
  end.

(** ** Conversions taken as parameters

    What CPython and pydantic compute from the text of a float or of a date
    and time.  [None] stands for the [ValueError] the conversion raises. *)
Record Conversions := mk_conversions {
  float_repr : spec_float -> string;                 (* str(x) *)
  float_of_str : string -> option spec_float;        (* float(s) *)
  datetime_of_str : string -> option datetime;       (* the ISO 8601 pattern *)
  datetime_of_int : Z -> option datetime;            (* from_unix_seconds(n) *)
  datetime_of_float : spec_float -> option datetime  (* from_unix_seconds(x) *)
}.

End Py.

(* ================================================================== *)
(** * pydantic: model creation, validation, [.dict()]                  *)
(* ================================================================== *)

Module Pydantic.
Import Py.

(** The annotations the source builds. *)
Inductive pytype :=
| TStr                (* str *)
| TFloat              (* float *)
| TInt                (* int *)
| TBool               (* bool *)
| TDateMethod         (* datetime.date with datetime the class: a method, not a type *)
| TDatetime           (* datetime *)
| TList               (* typing.List *)
| TDictStrAny         (* Dict[str, Any] *)
| TAny.               (* Any *)

Inductive annotation :=
| Plain (t : pytype)
| ListOf (t : pytype).     (* List[t] *)

(** [Field(default=...)]: the ellipsis marks a required field. *)
Inductive default_value :=
| Ellipsis
| Default (v : value).

(** One entry of [field_definitions]: [(T or Optional[T], Field(default=d))]. *)
Record field_definition := mk_field_definition {
  fd_optional : bool;
  fd_annotation : annotation;
  fd_default : default_value }.

Record ModelField := mk_model_field {
  mf_name : string;
  mf_annotation : annotation;
  mf_required : bool;
  mf_allow_none : bool;
  mf_default : value }.

Record Model := mk_model {
  model_name : string;
  model_fields : list ModelField }.

(** ** [create_model] *)

Definition has_validators (t : pytype) : bool :=
  match t with TDateMethod => false | _ => true end.

Definition annotation_type (a : annotation) : pytype :=
  match a with Plain t => t | ListOf t => t end.

(** [ModelField.infer]: a field is required when its default is the ellipsis;
    [None] is allowed under [Optional] and when the default is [None]. *)
Definition infer_field (name : string) (fd : field_definition) : result ModelField :=
  if has_validators (annotation_type (fd_annotation fd)) then
    Ok {| mf_name := name;
          mf_annotation := fd_annotation fd;
          mf_required := match fd_default fd with Ellipsis => true | Default _ => false end;
          mf_allow_none :=
            fd_optional fd
            || match fd_default fd with Default VNone => true | _ => false end;
          mf_default := match fd_default fd with Ellipsis => VNone | Default v => v end |}
  else Raise (RuntimeError "error checking inheritance of <method 'date' of 'datetime.datetime' objects>").

Fixpoint infer_fields (defs : list (string * field_definition)) : result (list ModelField) :=
  match defs with
  | [] => Ok []
  | (name, fd) :: rest =>
      bind (infer_field name fd) (fun f =>
      bind (infer_fields rest) (fun fs => Ok (f :: fs)))
  end.

Definition create_model (name : string) (defs : list (string * field_definition))
  : result Model :=
  bind (infer_fields defs) (fun fs => Ok {| model_name := name; model_fields := fs |}).

(** ** Validators *)

Inductive outcome :=
| Valid (v : value)
| Invalid (errs : list error_wrapper)
| Crash (e : exn).       (* an exception pydantic does not turn into an error *)

Definition fail (m t : string) : outcome := Invalid [mk_error [] m t].

Definition MissingError := mk_error [] "field required" "value_error.missing".
Definition NoneIsNotAllowedError :=
  mk_error [] "none is not an allowed value" "type_error.none.not_allowed".
Definition StrError := fail "str type expected" "type_error.str".
Definition IntegerError := fail "value is not a valid integer" "type_error.integer".
Definition FloatError := fail "value is not a valid float" "type_error.float".
Definition BoolError := fail "value could not be parsed to a boolean" "type_error.bool".
Definition ListError := fail "value is not a valid list" "type_error.list".
Definition DictError := fail "value is not a valid dict" "type_error.dict".
Definition DateTimeError := fail "invalid datetime format" "value_error.datetime".
Definition DateTimeTypeError :=
  fail "invalid type; expected datetime, string, bytes, int or float" "type_error".

(** An error found below [name] is located under [name]. *)
Definition under (name : string) (e : error_wrapper) : error_wrapper :=
  mk_error (name :: loc e) (msg e) (type_ e).

Definition max_str_int : nat := 4300.

Definition BOOL_TRUE : list string := ["1"; "on"; "t"; "true"; "y"; "yes"].
Definition BOOL_FALSE : list string := ["0"; "off"; "f"; "false"; "n"; "no"].

Definition in_strings (s : string) (l : list string) : bool :=
  existsb (String.eqb s) l.

(** [dict(v)] for a value that is not a [dict]: every element has to be a
    pair with a hashable first component. *)
Definition pair_of (e : value) : option (value * value) :=
  match e with
  | VList [a; b] => Some (a, b)
  | VStr s => match py_chars s with [a; b] => Some (VStr a, VStr b) | _ => None end
  | VDict [(a, _); (b, _)] => Some (VStr a, VStr b)
  | _ => None
  end.

Fixpoint dict_of_pairs (l : list value) (acc : gdict) : option gdict :=
  match l with
  | [] => Some acc
  | e :: r =>
      match pair_of e with
      | Some (k, v) =>
          match hash_key k with
          | Ok h => dict_of_pairs r (gdict_set h k v acc)
          | Raise _ => None
          end
      | None => None
      end
  end.

Definition dict_validator (v : value) : option gdict :=
  match v with
  | VDict d => Some (gdict_of_dict d)
  | VList l => dict_of_pairs l []
  | VStr s => if String.eqb s "" then Some [] else None
  | _ => None
  end.

Section Validators.
Variable cv : Conversions.

Definition str_validator (v : value) : outcome :=
  match v with
  | VStr s => Valid (VStr s)
  | VBool b => Valid (VStr (if b then "True" else "False"))
  | VInt n => Valid (VStr (py_str_of_int n))
  | VFloat f => Valid (VStr (float_repr cv f))
  | _ => StrError
  end.

Definition int_validator (v : value) : outcome :=
  match v with
  | VInt n => Valid (VInt n)
  | VBool b => Valid (VInt (if b then 1 else 0)%Z)
  | VStr s =>
      if (max_str_int <? py_len s)%nat then IntegerError
      else match py_int_of_str s with
           | Some n => Valid (VInt n)
           | None => IntegerError
           end
  | VFloat f =>
      match int_of_float f with
      | Some n => Valid (VInt n)
      | None => IntegerError
      end
  | _ => IntegerError
  end.

(** [float(v)] leaves an [OverflowError] uncaught. *)
Definition float_validator (v : value) : outcome :=
  match v with
  | VFloat f => Valid (VFloat f)
  | VInt n =>
      match float_of_int n with Ok f => Valid (VFloat f) | Raise e => Crash e end
  | VBool b =>
      match float_of_int (if b then 1 else 0)%Z with
      | Ok f => Valid (VFloat f)
      | Raise e => Crash e
      end
  | VStr s =>
      match float_of_str cv s with
      | Some f => Valid (VFloat f)
      | None => FloatError
      end
  | _ => FloatError
  end.

Definition bool_validator (v : value) : outcome :=
  match v with
  | VBool b => Valid (VBool b)
  | VInt n =>
      if Z.eqb n 1 then Valid (VBool true)
      else if Z.eqb n 0 then Valid (VBool false) else BoolError
  | VFloat f =>
      match float_as_int f with
      | Some n =>
          if Z.eqb n 1 then Valid (VBool true)
          else if Z.eqb n 0 then Valid (VBool false) else BoolError
      | None => BoolError
      end
  | VStr s =>
      if in_strings (py_lower s) BOOL_TRUE then Valid (VBool true)
      else if in_strings (py_lower s) BOOL_FALSE then Valid (VBool false)
      else BoolError
  | _ => BoolError
  end.

Definition of_datetime (d : option datetime) : outcome :=
  match d with Some x => Valid (VDatetime x) | None => DateTimeError end.

Definition parse_datetime (v : value) : outcome :=
  match v with
  | VDatetime d => Valid (VDatetime d)
  | VInt n => of_datetime (datetime_of_int cv n)
  | VBool b => of_datetime (datetime_of_int cv (if b then 1 else 0)%Z)
  | VFloat f => of_datetime (datetime_of_float cv f)
  | VStr s =>
      match float_of_str cv s with
      | Some f => of_datetime (datetime_of_float cv f)
      | None => of_datetime (datetime_of_str cv s)
      end
  | _ => DateTimeTypeError
  end.

(** A key of a [Dict[str, Any]] goes through the [str] field. *)
Definition validate_key (k : value) : outcome :=
  match k with
  | VNone => Invalid [NoneIsNotAllowedError]
  | _ => str_validator k
  end.

(** [for k, v_ in v_iter.items(): ... result[key_result] = value_result]. *)
Fixpoint validate_mapping (items : gdict) (result : dict) (errors : list error_wrapper)
  : dict * list error_wrapper :=
  match items with
  | [] => (result, errors)
  | (_, k, v) :: rest =>
      match validate_key k with
      | Valid (VStr ks) => validate_mapping rest (dict_set ks v result) errors
      | Invalid es =>
          validate_mapping rest result (errors ++ map (under "__key__") es)%list
      | _ => validate_mapping rest result errors
      end
  end.

(** A value that is not [None], against one of the types. *)
Definition validate_singleton (t : pytype) (v : value) : outcome :=
  match t with
  | TStr => str_validator v
  | TFloat => float_validator v
  | TInt => int_validator v
  | TBool => bool_validator v
  | TDatetime => parse_datetime v
  | TAny => Valid v
  | TList => match v with VList l => Valid (VList l) | _ => ListError end
  | TDictStrAny =>
      match dict_validator v with
      | Some items =>
          match validate_mapping items [] [] with
          | (d, []) => Valid (VDict d)
          | (_, es) => Invalid es
          end
      | None => DictError
      end
  | TDateMethod => Crash (RuntimeError "no validator found")
  end.

(** An element of a [List[t]]: [None] passes only for [Any]. *)
Definition validate_item (t : pytype) (v : value) : outcome :=
  match v with
  | VNone =>
      match t with TAny => Valid VNone | _ => Invalid [NoneIsNotAllowedError] end
  | _ => validate_singleton t v
  end.

Fixpoint validate_sequence (t : pytype) (i : nat) (l : list value)
  : result (list value * list error_wrapper) :=
  match l with
  | [] => Ok ([], [])
  | v :: rest =>
      match validate_item t v with
      | Crash e => Raise e
      | Valid v' =>
          bind (validate_sequence t (S i) rest) (fun r => Ok (v' :: fst r, snd r))
      | Invalid es =>
          bind (validate_sequence t (S i) rest) (fun r =>
            Ok (fst r, (map (under (py_str_of_nat i)) es ++ snd r)%list))
      end
  end.

Definition validate_annotation (a : annotation) (v : value) : outcome :=
  match a with
  | Plain t => validate_singleton t v
  | ListOf t =>
      match v with
      | VList l =>
          match validate_sequence t 0 l with
          | Raise e => Crash e
          | Ok (vs, []) => Valid (VList vs)
          | Ok (_, es) => Invalid es
          end
      | _ => ListError
      end
  end.

(** [ModelField.validate]. *)
Definition field_validate (f : ModelField) (v : value) : outcome :=
  match v with
  | VNone =>
      if mf_allow_none f then Valid VNone else Invalid [NoneIsNotAllowedError]
  | _ => validate_annotation (mf_annotation f) v
  end.

(** [validate_model]: the fields in order; a missing required field and a
    failed validation are collected, a missing optional field takes its
    default unvalidated, keys of [input_data] that name no field are not
    looked at. *)
Fixpoint validate_model (fs : list ModelField) (input_data : dict)
  : result (dict * list error_wrapper) :=
  match fs with
  | [] => Ok ([], [])
  | f :: rest =>
      match dict_get (mf_name f) input_data with
      | None =>
          if mf_required f then
            bind (validate_model rest input_data) (fun r =>
              Ok (fst r, under (mf_name f) MissingError :: snd r))
          else
            bind (validate_model rest input_data) (fun r =>
              Ok ((mf_name f, mf_default f) :: fst r, snd r))
      | Some v =>
          match field_validate f v with
          | Crash e => Raise e
          | Invalid es =>
              bind (validate_model rest input_data) (fun r =>
                Ok (fst r, (map (under (mf_name f)) es ++ snd r)%list))
          | Valid v' =>
              bind (validate_model rest input_data) (fun r =>
                Ok ((mf_name f, v') :: fst r, snd r))
          end
      end
  end.

(** Calling the model class on the keyword arguments [data]. *)
Definition model_init (m : Model) (data : dict) : result dict :=
  bind (validate_model (model_fields m) data) (fun r =>
    match snd r with
    | [] => Ok (fst r)
    | errs => Raise (ValidationError (model_name m) errs)
    end).

(** [.dict()]: the fields and their values, in field order. *)
Definition model_dict (values : dict) : dict := values.

End Validators.

(** [str(e)] for a [ValidationError]. *)
Definition nl : string := String (ascii_of_nat 10) "".

Definition display_error (e : error_wrapper) : string :=
  String.concat " -> " (loc e) ++ nl ++ "  " ++ msg e ++ " (type=" ++ type_ e ++ ")".

Definition str_ValidationError (model : string) (errors : list error_wrapper) : string :=
  py_str_of_nat (List.length errors) ++ " validation error"
  ++ (if Nat.eqb (List.length errors) 1 then "" else "s")
  ++ " for " ++ model ++ nl ++ String.concat nl (map display_error errors).

End Pydantic.

(* ================================================================== *)
(** * src/app/schemas_dynamic.py                                       *)
(* ================================================================== *)

Module SchemasDynamic.
Import Py Pydantic.

(** [class SchemaDefinition(BaseModel)]: [fields] maps a field name to the
    JSON object that describes it. *)
Record SchemaDefinition := mk_schema {
  name : string;
  description : option string;
  fields : list (string * dict) }.

Definition valid_types : list string :=
  ["string"; "number"; "integer"; "boolean"; "array"; "object"; "date"; "datetime"].

(** [v == s] and [v in l] for a JSON value and strings. *)
Definition value_is (v : value) (s : string) : bool :=
  match v with VStr x => String.eqb x s | _ => false end.

Definition value_in (v : value) (l : list string) : bool :=
  existsb (value_is v) l.

(** [@validator('fields')].  The messages keep the field name and leave the
    interpolated type and type list out. *)
Fixpoint validate_field_definitions (fs : list (string * dict)) : result unit :=
  match fs with
  | [] => Ok tt
  | (field_name, field_def) :: rest =>
      match dict_get "type" field_def with
      | None =>
          Raise (ValueError ("Field '" ++ field_name ++ "' must have a 'type' property"))
      | Some field_type =>
          if negb (value_in field_type valid_types) then
            Raise (ValueError ("Field '" ++ field_name ++ "' has invalid type"))
          else if value_is field_type "array" && negb (dict_contains "items" field_def) then
            Raise (ValueError ("Array field '" ++ field_name ++ "' must have an 'items' property"))
          else if value_is field_type "object" && negb (dict_contains "properties" field_def) then
            Raise (ValueError ("Object field '" ++ field_name ++ "' must have a 'properties' property"))
          else validate_field_definitions rest
      end
  end.

(** A valid [SchemaDefinition]: the validator passes. *)
Definition valid_schema (s : SchemaDefinition) : bool :=
  match validate_field_definitions (fields s) with Ok _ => true | Raise _ => false end.

(** Constructing a [SchemaDefinition] from stored JSON: pydantic reports the validator's [ValueError]
    as a [ValidationError]. *)
Definition SchemaDefinition_init (raw : SchemaDefinition) : result SchemaDefinition :=
  match validate_field_definitions (fields raw) with
  | Ok _ => Ok raw
  | Raise (ValueError m) =>
      Raise (ValidationError "SchemaDefinition" [mk_error ["fields"] m "value_error"])
  | Raise e => Raise e
  end.

(** [DynamicDataValidator.get_pydantic_type]: [type_mapping.get(field_type, Any)].
    The entry for ['date'] is [datetime.date] looked up on the class
    [datetime.datetime] (line 3 imports the class under the module's name),
    that is the method [datetime.datetime.date]. *)
Definition type_mapping : list (string * pytype) :=
  [("string", TStr); ("number", TFloat); ("integer", TInt); ("boolean", TBool);
   ("date", TDateMethod); ("datetime", TDatetime); ("array", TList);
   ("object", TDictStrAny)].

Definition get_pydantic_type (field_type : value) : result pytype :=
  match field_type with
  | VStr s =>
      match find (fun kv => String.eqb s (fst kv)) type_mapping with
      | Some (_, t) => Ok t
      | None => Ok TAny
      end
  | VList _ => Raise (TypeError "unhashable type: 'list'")
  | VDict _ => Raise (TypeError "unhashable type: 'dict'")
  | _ => Ok TAny
  end.

(** The body of the loop of [create_model_from_schema] for one field:
    [None] when no branch of the [if]/[elif] chain is taken. *)
Definition field_definition_of (field_def : dict) : result (option field_definition) :=
  match dict_get "type" field_def with
  | None => Raise (KeyError "type")
  | Some field_type =>
      let is_required :=
        match dict_get "required" field_def with Some r => truthy r | None => false end in
      let default :=
        match dict_get "default" field_def with
        | Some d => Default d
        | None => if is_required then Ellipsis else Default VNone
        end in
      if value_in field_type ["string"; "number"; "integer"; "boolean"; "date"; "datetime"]
      then
        bind (get_pydantic_type field_type) (fun pydantic_type =>
          Ok (Some (mk_field_definition (negb is_required) (Plain pydantic_type) default)))
      else if value_is field_type "array" then
        match dict_get "items" field_def with
        | None => Raise (KeyError "items")
        | Some (VDict items) =>
            let items_type :=
              match dict_get "type" items with Some t => t | None => VStr "string" end in
            bind (get_pydantic_type items_type) (fun item_type =>
              Ok (Some (mk_field_definition (negb is_required) (ListOf item_type) default)))
        | Some _ => Raise (AttributeError "object has no attribute 'get'")
        end
      else if value_is field_type "object" then
        Ok (Some (mk_field_definition (negb is_required) (Plain TDictStrAny) default))
      else Ok None
  end.

Fixpoint field_definitions_of (fs : list (string * dict))
  : result (list (string * field_definition)) :=
  match fs with
  | [] => Ok []
  | (field_name, field_def) :: rest =>
      bind (field_definition_of field_def) (fun o =>
      bind (field_definitions_of rest) (fun defs =>
        match o with
        | Some fd => Ok ((field_name, fd) :: defs)
        | None => Ok defs
        end))
  end.

(** [DynamicDataValidator.create_model_from_schema]. *)
Definition create_model_from_schema (schema_def : SchemaDefinition) : result Model :=
  bind (field_definitions_of (fields schema_def)) (fun field_definitions =>
    create_model ("Dynamic" ++ remove_spaces (name schema_def) ++ "Model")
                 field_definitions).

(** [DynamicDataValidator.validate_data]: the model is built outside the
    [try]; only a [ValidationError] is turned into the [ValueError]. *)
Definition validate_data (cv : Conversions) (schema_def : SchemaDefinition) (data : dict)
  : result dict :=
  bind (create_model_from_schema schema_def) (fun model_class =>
    match model_init cv model_class data with
    | Ok validated_data => Ok (model_dict validated_data)
    | Raise (ValidationError m errs) =>
        Raise (ValueError ("Data validation failed: " ++ str_ValidationError m errs))
    | Raise e => Raise e
    end).

(** [class DynamicSchemaCreate(DynamicSchemaBase)]: the body of a request
    that creates a schema, as FastAPI hands it over. *)
Module DynamicSchemaCreate.
Record t := mk {
  name : string;
  description : option string;
  schema_definition : SchemaDefinition }.
End DynamicSchemaCreate.

End SchemasDynamic.

(* ================================================================== *)
(** * src/app/models.py and the session                                *)
(* ================================================================== *)

Module Models.
Import Py.

(** [class DynamicSchema(Base)]. *)
Module DynamicSchema.
Record row := mk {
  id : Z;
  name : string;
  description : option string;
  schema_definition : SchemasDynamic.SchemaDefinition }.
End DynamicSchema.

(** [class DynamicData(Base)]; [is_deleted] has the column default [False]. *)
Module DynamicData.
Record row := mk {
  id : Z;
  schema_id : Z;
  data : dict;
  is_deleted : bool }.
End DynamicData.

(** [hasattr(models.DynamicData, 'is_deleted')]: the class declares the column. *)
Definition DynamicData_has_is_deleted : bool := true.

(** The two tables a [Session] reads and writes.  [db.commit()] is taken to
    succeed. *)
Record Session := mk_session {
  dynamic_schemas : list DynamicSchema.row;
  dynamic_data : list DynamicData.row }.

End Models.

(* ================================================================== *)
(** * src/app/crud.py                                                  *)
(* ================================================================== *)

Module Crud.
Import Py Models.

Definition default_skip : nat := 0.
Definition default_limit : nat := 100.

(** [query.first()]. *)
Definition first {A} (rows : list A) : option A := hd_error rows.

(** [query.offset(skip).limit(limit).all()]. *)
Definition offset_limit {A} (skip limit : nat) (rows : list A) : list A :=
  firstn limit (skipn skip rows).

Definition get_dynamic_schema (db : Session) (schema_id : Z) : option DynamicSchema.row :=
  first (filter (fun s => Z.eqb (DynamicSchema.id s) schema_id) (dynamic_schemas db)).

Definition get_dynamic_data (db : Session) (data_id : Z) (include_deleted : bool)
  : option DynamicData.row :=
  let query := filter (fun r => Z.eqb (DynamicData.id r) data_id) (dynamic_data db) in
  let query :=
    if negb include_deleted then
      if DynamicData_has_is_deleted
      then filter (fun r => Bool.eqb (DynamicData.is_deleted r) false) query
      else query
    else query in
  first query.

Definition get_dynamic_data_by_schema (db : Session) (schema_id : Z)
    (skip limit : nat) (include_deleted : bool) : list DynamicData.row :=
  let query := filter (fun r => Z.eqb (DynamicData.schema_id r) schema_id) (dynamic_data db) in
  let query :=
    if negb include_deleted then
      if DynamicData_has_is_deleted
      then filter (fun r => Bool.eqb (DynamicData.is_deleted r) false) query
      else query
    else query in
  offset_limit skip limit query.

(** Writing an attribute of the object [query.first()] returned: the first
    row with that id. *)
Fixpoint update_row (data_id : Z) (f : DynamicData.row -> DynamicData.row)
    (rows : list DynamicData.row) : list DynamicData.row :=
  match rows with
  | [] => []
  | r :: rest =>
      if Z.eqb (DynamicData.id r) data_id then f r :: rest
      else r :: update_row data_id f rest
  end.

(** [db.delete(obj)]. *)
Fixpoint delete_row (data_id : Z) (rows : list DynamicData.row) : list DynamicData.row :=
  match rows with
  | [] => []
  | r :: rest =>
      if Z.eqb (DynamicData.id r) data_id then rest else r :: delete_row data_id rest
  end.

Definition set_is_deleted (b : bool) (r : DynamicData.row) : DynamicData.row :=
  DynamicData.mk (DynamicData.id r) (DynamicData.schema_id r) (DynamicData.data r) b.

Definition set_data (d : dict) (r : DynamicData.row) : DynamicData.row :=
  DynamicData.mk (DynamicData.id r) (DynamicData.schema_id r) d (DynamicData.is_deleted r).

Definition with_dynamic_data (db : Session) (rows : list DynamicData.row) : Session :=
  mk_session (dynamic_schemas db) rows.

Definition soft_delete_dynamic_data (db : Session) (data_id : Z)
  : Session * option DynamicData.row :=
  match get_dynamic_data db data_id true with
  | Some db_data =>
      if DynamicData_has_is_deleted then
        (with_dynamic_data db (update_row data_id (set_is_deleted true) (dynamic_data db)),
         Some (set_is_deleted true db_data))
      else
        (with_dynamic_data db (delete_row data_id (dynamic_data db)), Some db_data)
  | None => (db, None)
  end.

Definition restore_dynamic_data (db : Session) (data_id : Z)
  : Session * option DynamicData.row :=
  match get_dynamic_data db data_id true with
  | Some db_data =>
      if DynamicData_has_is_deleted && DynamicData.is_deleted db_data then
        (with_dynamic_data db (update_row data_id (set_is_deleted false) (dynamic_data db)),
         Some (set_is_deleted false db_data))
      else (db, Some db_data)
  | None => (db, None)
  end.

(** The primary key the database gives a new row. *)
Definition next_id (rows : list DynamicData.row) : Z :=
  (1 + fold_right Z.max 0 (map DynamicData.id rows))%Z.

(** [schemas_dynamic.DynamicDataCreate]. *)
Record DynamicDataCreate := mk_create { schema_id : Z; data : dict }.

Definition create_dynamic_data (cv : Conversions) (db : Session)
    (data_create : DynamicDataCreate) : Session * result DynamicData.row :=
  match get_dynamic_schema db (schema_id data_create) with
  | None =>
      (db, Raise (ValueError ("Schema with id " ++ py_str_of_int (schema_id data_create)
                              ++ " not found")))
  | Some schema =>
      match SchemasDynamic.SchemaDefinition_init (DynamicSchema.schema_definition schema) with
      | Raise e => (db, Raise e)
      | Ok schema_def =>
          match SchemasDynamic.validate_data cv schema_def (data data_create) with
          | Raise e => (db, Raise e)
          | Ok validated_data =>
              let db_data :=
                DynamicData.mk (next_id (dynamic_data db)) (schema_id data_create)
                               validated_data false in
              (with_dynamic_data db (dynamic_data db ++ [db_data])%list, Ok db_data)
          end
      end
  end.

(** [get_dynamic_schemas]. *)
Definition get_dynamic_schemas (db : Session) (skip limit : nat) : list DynamicSchema.row :=
  offset_limit skip limit (dynamic_schemas db).

(** The primary key the database gives a new schema. *)
Definition next_schema_id (rows : list DynamicSchema.row) : Z :=
  (1 + fold_right Z.max 0 (map DynamicSchema.id rows))%Z.

(** [create_dynamic_schema]: the definition is stored as [.dict()] gives it. *)
Definition create_dynamic_schema (db : Session)
    (schema : SchemasDynamic.DynamicSchemaCreate.t) : Session * DynamicSchema.row :=
  let db_schema :=
    DynamicSchema.mk (next_schema_id (dynamic_schemas db))
                     (SchemasDynamic.DynamicSchemaCreate.name schema)
                     (SchemasDynamic.DynamicSchemaCreate.description schema)
                     (SchemasDynamic.DynamicSchemaCreate.schema_definition schema) in
  (mk_session (dynamic_schemas db ++ [db_schema])%list (dynamic_data db), db_schema).

End Crud.

(* ================================================================== *)
(** * Python operators on JSON values; FastAPI responses               *)
(* ================================================================== *)

Module PyOps.
Import Py.

(** [k in c] for a string [k]. *)
Definition py_in (k : string) (c : value) : result bool :=
  match c with
  | VDict d => Ok (dict_contains k d)
  | VStr s => Ok (str_contains k s)
  | VList l => Ok (existsb (fun v => SchemasDynamic.value_is v k) l)
  | _ => Raise (TypeError "argument is not iterable")
  end.

(** [c[k]] for a string [k]. *)
Definition py_getitem (c : value) (k : string) : result value :=
  match c with
  | VDict d =>
      match dict_get k d with Some v => Ok v | None => Raise (KeyError k) end
  | VStr _ => Raise (TypeError "string indices must be integers")
  | VList _ => Raise (TypeError "list indices must be integers or slices, not str")
  | _ => Raise (TypeError "object is not subscriptable")
  end.

(** [for x in v]. *)
Definition py_iter (v : value) : result (list value) :=
  match v with
  | VList l => Ok l
  | VStr s => Ok (map VStr (py_chars s))
  | VDict d => Ok (map (fun kv => VStr (fst kv)) d)
  | _ => Raise (TypeError "object is not iterable")
  end.

(** [v.items()]. *)
Definition py_items (v : value) : result dict :=
  match v with
  | VDict d => Ok d
  | _ => Raise (AttributeError "object has no attribute 'items'")
  end.

(** [str(e)]. *)
Definition str_exn (e : exn) : string :=
  match e with
  | ValueError m => m
  | ValidationError model errs => Pydantic.str_ValidationError model errs
  | TypeError m => m
  | AttributeError m => m
  | NameError n => "name '" ++ n ++ "' is not defined"
  | KeyError k => "'" ++ k ++ "'"
  | RuntimeError m => m
  | OverflowError m => m
  end.

(** A loop whose body can raise. *)
Fixpoint for_each {A S : Type} (body : S -> A -> result S) (l : list A) (s : S)
  : result S :=
  match l with
  | [] => Ok s
  | x :: rest => bind (body s x) (fun s' => for_each body rest s')
  end.

(** [d.update(new)]: the entries of [new] in order, each as [d[k] = v]. *)
Definition dict_update (d new : dict) : dict :=
  fold_left (fun acc kv => dict_set (fst kv) (snd kv) acc) new d.

End PyOps.

Module Http.
Import Py.

(** What a path operation hands back to FastAPI: a body, an [HTTPException]
    it raised, or another exception it let escape. *)
Inductive response (A : Type) :=
| Returned (body : A)
| HTTPException (status_code : Z) (detail : string)
| Unhandled (e : exn).
Arguments Returned {A} body.
Arguments HTTPException {A} status_code detail.
Arguments Unhandled {A} e.

(** The status the client sees (the exception handlers of src/app/main.py). *)
Definition status_code_of {A} (r : response A) : Z :=
  match r with
  | Returned _ => 200
  | HTTPException s _ => s
  | Unhandled (ValidationError _ _) => 422
  | Unhandled _ => 500
  end.

End Http.

(* ================================================================== *)
(** * src/app/routers/dynamic_data.py                                  *)
(* ================================================================== *)

Module DynamicDataRouter.
Import Py PyOps Http Models.

Inductive validation_report :=
| ReportValid (validated_data : dict)
| ReportInvalid (error : string).

(** [POST /dynamic-data/validate]. *)
Definition validate_json_data (cv : Conversions) (db : Session) (schema_id : Z)
    (data : dict) : response validation_report :=
  match Crud.get_dynamic_schema db schema_id with
  | None =>
      HTTPException 404 ("Schema with id " ++ py_str_of_int schema_id ++ " not found")
  | Some schema =>
      match
        bind (SchemasDynamic.SchemaDefinition_init (DynamicSchema.schema_definition schema))
             (fun schema_def => SchemasDynamic.validate_data cv schema_def data)
      with
      | Ok validated_data => Returned (ReportValid validated_data)
      | Raise e =>
          if is_ValueError e then Returned (ReportInvalid (str_exn e)) else Unhandled e
      end
  end.

(** [POST /dynamic-data/]. *)
Definition create_dynamic_data_generic (cv : Conversions) (db : Session)
    (data_create : Crud.DynamicDataCreate) : Session * response DynamicData.row :=
  match Crud.create_dynamic_data cv db data_create with
  | (db', Ok row) => (db', Returned row)
  | (db', Raise e) =>
      if is_ValueError e then (db', HTTPException 400 (str_exn e))
      else (db', Unhandled e)
  end.

(** [GET /dynamic-data/{data_id}]. *)
Definition get_dynamic_data (db : Session) (data_id : Z) : response DynamicData.row :=
  match Crud.get_dynamic_data db data_id false with
  | None => HTTPException 404 "Data not found"
  | Some data => Returned data
  end.

(** [GET /dynamic-data/?schema_id=...]. *)
Definition get_all_dynamic_data (db : Session) (schema_id : option Z) (skip limit : nat)
  : list DynamicData.row :=
  match schema_id with
  | Some sid =>
      if negb (Z.eqb sid 0) then Crud.get_dynamic_data_by_schema db sid skip limit false
      else Crud.offset_limit skip limit (dynamic_data db)
  | None => Crud.offset_limit skip limit (dynamic_data db)
  end.

(** [DELETE /dynamic-data/{data_id}]. *)
Definition delete_dynamic_data (db : Session) (data_id : Z) (force : bool)
  : Session * response string :=
  match Crud.get_dynamic_data db data_id false with
  | None => (db, HTTPException 404 "Data not found")
  | Some db_data =>
      if force then
        (Crud.with_dynamic_data db (Crud.delete_row data_id (dynamic_data db)),
         Returned ("Data with id " ++ py_str_of_int data_id ++ " permanently deleted"))
      else
        (Crud.with_dynamic_data db
           (Crud.update_row data_id (Crud.set_is_deleted true) (dynamic_data db)),
         Returned ("Data with id " ++ py_str_of_int data_id ++ " soft deleted"))
  end.

(** [POST /dynamic-data/{data_id}/restore]. *)
Definition restore_dynamic_data (db : Session) (data_id : Z)
  : Session * response DynamicData.row :=
  match Crud.restore_dynamic_data db data_id with
  | (db', None) => (db', HTTPException 404 "Data not found or not deleted")
  | (db', Some db_data) => (db', Returned db_data)
  end.

(** ** Queries

    A query object is the table it reads and the conditions [filter] has
    added; nothing is evaluated before [.all()]. *)

Inductive sqltype := Integer | Float | Boolean | String_.

Inductive sqlop := Eq | Ne | Gt | Ge | Lt | Le | Contains | Startswith | Endswith.

Inductive clause :=
| SchemaIdEq (schema_id : Z)
| JsonCompare (field_path : value) (t : sqltype) (op : sqlop) (operand : value)
| Or_ (conditions : list clause).

Record Query := mk_query {
  q_rows : list DynamicData.row;
  q_where : list clause }.

(** [db.query(models.DynamicData)]. *)
Definition query_DynamicData (db : Session) : Query := mk_query (dynamic_data db) [].

(** [query.filter(c)]. *)
Definition filter_ (q : Query) (c : clause) : Query :=
  mk_query (q_rows q) (q_where q ++ [c])%list.

(** The cast chosen from the type of [value]: [isinstance(value, int)] is
    tested first and holds for a [bool], so the [Boolean] branch is never
    taken. *)
Definition cast_for (v : value) : sqltype :=
  match v with
  | VInt _ | VBool _ => Integer
  | VFloat _ => Float
  | _ => String_
  end.

Definition operators : list (string * sqlop) :=
  [("eq", Eq); ("ne", Ne); ("gt", Gt); ("gte", Ge); ("lt", Lt); ("lte", Le);
   ("contains", Contains); ("startswith", Startswith); ("endswith", Endswith)].

(** The branch of the [if]/[elif] chain on [operator], if any. *)
Definition operator_branch (operator : value) : option sqlop :=
  match operator with
  | VStr s => option_map snd (find (fun kv => String.eqb s (fst kv)) operators)
  | _ => None
  end.

(** [all(k in criteria for k in ks)]. *)
Fixpoint all_in (ks : list string) (criteria : value) : result bool :=
  match ks with
  | [] => Ok true
  | k :: rest =>
      bind (py_in k criteria) (fun b => if b then all_in rest criteria else Ok false)
  end.

Fixpoint depth (v : value) : nat :=
  match v with
  | VList l => S (fold_right (fun x n => Nat.max (depth x) n) 0%nat l)
  | VDict d => S (fold_right (fun kv n => Nat.max (depth (snd kv)) n) 0%nat d)
  | _ => 0%nat
  end.

(** [apply_search_criteria], with the recursion depth as fuel.  In the
    [or] branch the loop body starts with [db.query(...)]: [db] is neither
    a parameter nor a local of the function nor a name of the module, so
    the first iteration raises [NameError]. *)
Fixpoint apply_search_criteria_rec (fuel : nat) (query : Query) (criteria : value)
  : result Query :=
  match fuel with
  | O => Raise (RuntimeError "maximum recursion depth exceeded")
  | S fuel' =>
      bind (py_in "and" criteria) (fun has_and =>
      if has_and then
        bind (py_getitem criteria "and") (fun subs =>
        bind (py_iter subs) (fun l =>
          for_each (fun q sub_criteria => apply_search_criteria_rec fuel' q sub_criteria)
                   l query))
      else
      bind (py_in "or" criteria) (fun has_or =>
      if has_or then
        bind (py_getitem criteria "or") (fun subs =>
        bind (py_iter subs) (fun l =>
          match l with
          | [] => Ok (filter_ query (Or_ []))
          | _ :: _ => Raise (NameError "db")
          end))
      else
      bind (all_in ["field_path"; "operator"; "value"] criteria) (fun is_leaf =>
      if is_leaf then
        bind (py_getitem criteria "field_path") (fun field_path =>
        bind (py_getitem criteria "operator") (fun operator =>
        bind (py_getitem criteria "value") (fun value =>
          match operator_branch operator with
          | Some op => Ok (filter_ query (JsonCompare field_path (cast_for value) op value))
          | None => Ok query
          end)))
      else Ok query)))
  end.

Definition apply_search_criteria (query : Query) (criteria : value) : result Query :=
  apply_search_criteria_rec (S (depth criteria)) query criteria.

(** ** Running a query

    How the database compares a JSON member with a value is a parameter. *)
Section Engine.
Variable json_compare : value -> sqltype -> sqlop -> value -> dict -> bool.

Fixpoint holds (c : clause) (r : DynamicData.row) : bool :=
  match c with
  | SchemaIdEq sid => Z.eqb (DynamicData.schema_id r) sid
  | JsonCompare field_path t op operand =>
      json_compare field_path t op operand (DynamicData.data r)
  | Or_ conditions =>
      match conditions with
      | [] => true
      | _ => (fix any (l : list clause) : bool :=
                match l with
                | [] => false
                | c' :: l' => holds c' r || any l'
                end) conditions
      end
  end.

(** [query.all()]. *)
Definition all_ (q : Query) : list DynamicData.row :=
  filter (fun r => forallb (fun c => holds c r) (q_where q)) (q_rows q).

(** [POST /dynamic-data/search]. *)
Definition search_dynamic_data (db : Session) (search_criteria : value)
    (schema_id : option Z) (skip limit : nat) : response (list DynamicData.row) :=
  let query := query_DynamicData db in
  let query :=
    match schema_id with
    | Some sid => if negb (Z.eqb sid 0) then filter_ query (SchemaIdEq sid) else query
    | None => query
    end in
  match apply_search_criteria query search_criteria with
  | Ok query => Returned (Crud.offset_limit skip limit (all_ query))
  | Raise e => Unhandled e
  end.
End Engine.

(** ** Updates *)

(** The body of [try] in [PATCH /dynamic-data/{data_id}/partial], up to the
    validated data: the stored document, overwritten with the fields of the
    request, is validated as a whole. *)
Definition merged_and_validated (cv : Conversions) (schema : DynamicSchema.row)
    (db_data : DynamicData.row) (data : dict) : result dict :=
  bind (SchemasDynamic.SchemaDefinition_init (DynamicSchema.schema_definition schema))
       (fun schema_def =>
          let merged_data := dict_update (DynamicData.data db_data) data in
          SchemasDynamic.validate_data cv schema_def merged_data).

(** Storing the validated data: [db_data.data = validated_data; db.commit();
    db.refresh(db_data); return db_data], or the [HTTPException] an
    [except ValueError] clause raises. *)
Definition store_validated (db : Session) (data_id : Z) (db_data : DynamicData.row)
    (validated : result dict) : Session * response DynamicData.row :=
  match validated with
  | Ok validated_data =>
      (Crud.with_dynamic_data db
         (Crud.update_row data_id (Crud.set_data validated_data) (dynamic_data db)),
       Returned (Crud.set_data validated_data db_data))
  | Raise e =>
      if is_ValueError e then (db, HTTPException 400 (str_exn e)) else (db, Unhandled e)
  end.

(** [PATCH /dynamic-data/{data_id}/partial]. *)
Definition partial_update_dynamic_data (cv : Conversions) (db : Session) (data_id : Z)
    (data : dict) : Session * response DynamicData.row :=
  match Crud.get_dynamic_data db data_id false with
  | None => (db, HTTPException 404 "Data not found")
  | Some db_data =>
      match Crud.get_dynamic_schema db (DynamicData.schema_id db_data) with
      | None => (db, HTTPException 404 "Schema not found")
      | Some schema =>
          store_validated db data_id db_data (merged_and_validated cv schema db_data data)
      end
  end.

(** [for field_name, field_def in schema_def.fields.items(): if
    field_def.get('required', False) and field_name not in data: raise
    ValueError(...)]. *)
Fixpoint check_required_fields (fs : list (string * dict)) (data : dict) : result unit :=
  match fs with
  | [] => Ok tt
  | (field_name, field_def) :: rest =>
      if match dict_get "required" field_def with Some r => truthy r | None => false end
         && negb (dict_contains field_name data)
      then Raise (ValueError ("Required field '" ++ field_name ++ "' is missing"))
      else check_required_fields rest data
  end.

(** The body of [try] in [PUT /dynamic-data/{data_id}], up to the validated
    data. *)
Definition checked_and_validated (cv : Conversions) (schema : DynamicSchema.row)
    (data : dict) : result dict :=
  bind (SchemasDynamic.SchemaDefinition_init (DynamicSchema.schema_definition schema))
       (fun schema_def =>
  bind (check_required_fields (SchemasDynamic.fields schema_def) data) (fun _ =>
          SchemasDynamic.validate_data cv schema_def data)).

(** [PUT /dynamic-data/{data_id}]. *)
Definition update_dynamic_data (cv : Conversions) (db : Session) (data_id : Z)
    (data : dict) : Session * response DynamicData.row :=
  match Crud.get_dynamic_data db data_id false with
  | None => (db, HTTPException 404 "Data not found")
  | Some db_data =>
      match Crud.get_dynamic_schema db (DynamicData.schema_id db_data) with
      | None => (db, HTTPException 404 "Schema not found")
      | Some schema =>
          store_validated db data_id db_data (checked_and_validated cv schema data)
      end
  end.


(** ** Bulk delete *)

(** The body of the answer of [POST /dynamic-data/bulk-delete]. *)
Record bulk_delete_report := mk_bulk_delete_report {
  success : bool;
  deleted_count : nat;
  not_found : list Z;
  delete_type : string }.

(** The loop over [ids].  Whether the query of an iteration sees what the
    iterations before it changed is the session's [autoflush] setting, which
    src/app/database.py fixes and this development takes as a parameter:
    with [autoflush] the pending changes are written before each query,
    without it the query reads the table as the request found it. *)
Fixpoint bulk_delete_loop (autoflush force : bool) (committed : Session) (ids : list Z)
    (db : Session) (deleted_count : nat) (not_found : list Z)
  : Session * nat * list Z :=
  match ids with
  | [] => (db, deleted_count, not_found)
  | data_id :: rest =>
      match Crud.get_dynamic_data (if autoflush then db else committed) data_id false with
      | None =>
          bulk_delete_loop autoflush force committed rest db deleted_count
                           (not_found ++ [data_id])%list
      | Some db_data =>
          let db :=
            if force
            then Crud.with_dynamic_data db (Crud.delete_row data_id (dynamic_data db))
            else Crud.with_dynamic_data db
                   (Crud.update_row data_id (Crud.set_is_deleted true) (dynamic_data db)) in
          bulk_delete_loop autoflush force committed rest db (S deleted_count) not_found
      end
  end.

(** [POST /dynamic-data/bulk-delete]. *)
Definition bulk_delete_dynamic_data (autoflush : bool) (db : Session) (ids : list Z)
    (force : bool) : Session * response bulk_delete_report :=
  match ids with
  | [] => (db, HTTPException 400 "No IDs provided")
  | _ :: _ =>
      let '(db', deleted_count, not_found) :=
        bulk_delete_loop autoflush force db ids db 0 [] in
      (db', Returned (mk_bulk_delete_report true deleted_count not_found
                        (if force then "permanent" else "soft")))
  end.

(** [get_deleted_data], the function behind [GET /dynamic-data/deleted]. *)
Definition get_deleted_data (db : Session) (schema_id : option Z) (skip limit : nat)
  : list DynamicData.row :=
  if DynamicData_has_is_deleted then
    let query := filter (fun r => Bool.eqb (DynamicData.is_deleted r) true) (dynamic_data db) in
    let query :=
      match schema_id with
      | Some sid =>
          if negb (Z.eqb sid 0)
          then filter (fun r => Z.eqb (DynamicData.schema_id r) sid) query
          else query
      | None => query
      end in
    Crud.offset_limit skip limit query
  else [].

End DynamicDataRouter.

(* ================================================================== *)
(** * src/app/utils/error_handlers.py, src/app/routers/dynamic_schemas.py *)
(* ================================================================== *)

Module ErrorHandlers.
Import Py.

(** [class APIError(Exception)]. *)
Record APIError := mk_api_error {
  status_code : Z;
  detail : string;
  code : option string;
  data : option dict }.

(** [NotFoundError(resource_type, resource_id)] for an integer id. *)
Definition NotFoundError (resource_type : string) (resource_id : Z) : APIError :=
  mk_api_error 404
    (resource_type ++ " with id " ++ py_str_of_int resource_id ++ " not found")
    (Some "not_found") None.

End ErrorHandlers.

Module DynamicSchemasRouter.
Import Py PyOps Models ErrorHandlers.

(** What a path operation of this router hands back: what [Http.response]
    describes, or an [APIError], which [api_error_handler] of src/app/main.py
    answers with the status the error carries.  The log lines the path
    operations write are not modelled. *)
Inductive reply (A : Type) :=
| Answer (r : Http.response A)
| RaisedAPIError (e : APIError).
Arguments Answer {A} r.
Arguments RaisedAPIError {A} e.

Definition status_of {A} (r : reply A) : Z :=
  match r with
  | Answer r => Http.status_code_of r
  | RaisedAPIError e => status_code e
  end.

(** [POST /dynamic-schemas/]. *)
Definition create_schema (db : Session) (schema : SchemasDynamic.DynamicSchemaCreate.t)
  : Session * reply DynamicSchema.row :=
  let '(db', db_schema) := Crud.create_dynamic_schema db schema in
  (db', Answer (Http.Returned db_schema)).

(** [GET /dynamic-schemas/]. *)
Definition read_schemas (db : Session) (skip limit : nat) : reply (list DynamicSchema.row) :=
  Answer (Http.Returned (Crud.get_dynamic_schemas db skip limit)).

(** [GET /dynamic-schemas/{schema_id}]. *)
Definition read_schema (db : Session) (schema_id : Z) : reply DynamicSchema.row :=
  match Crud.get_dynamic_schema db schema_id with
  | None => RaisedAPIError (NotFoundError "Schema" schema_id)
  | Some db_schema => Answer (Http.Returned db_schema)
  end.

(** [PUT /dynamic-schemas/{schema_id}].  The path operation calls
    [crud.update_dynamic_schema]; src/app/crud.py defines no function of
    that name, so looking the attribute up on the module raises
    [AttributeError], which [except Exception] logs and raises again. *)
Definition update_schema (db : Session) (schema_id : Z)
    (schema : SchemasDynamic.DynamicSchemaCreate.t) : Session * reply DynamicSchema.row :=
  match Crud.get_dynamic_schema db schema_id with
  | None => (db, RaisedAPIError (NotFoundError "Schema" schema_id))
  | Some db_schema =>
      (db, Answer (Http.Unhandled
                     (AttributeError
                        "module 'app.crud' has no attribute 'update_dynamic_schema'")))
  end.

(** [DELETE /dynamic-schemas/{schema_id}]: [crud.delete_dynamic_schema] is
    not defined either. *)
Definition delete_schema (db : Session) (schema_id : Z) : Session * reply dict :=
  match Crud.get_dynamic_schema db schema_id with
  | None => (db, RaisedAPIError (NotFoundError "Schema" schema_id))
  | Some db_schema =>
      (db, Answer (Http.Unhandled
                     (AttributeError
                        "module 'app.crud' has no attribute 'delete_dynamic_schema'")))
  end.

(** [GET /dynamic-schemas/{schema_id}/validate]: every exception of the
    constructor is reported. *)
Definition validate_schema (db : Session) (schema_id : Z) : reply dict :=
  match Crud.get_dynamic_schema db schema_id with
  | None => RaisedAPIError (NotFoundError "Schema" schema_id)
  | Some db_schema =>
      match SchemasDynamic.SchemaDefinition_init (DynamicSchema.schema_definition db_schema) with
      | Ok _ => Answer (Http.Returned [("valid", VBool true)])
      | Raise e =>
          Answer (Http.Returned [("valid", VBool false); ("errors", VStr (str_exn e))])
      end
  end.

(** [POST /dynamic-schemas/{schema_id}/data]. *)
Definition create_data (cv : Conversions) (db : Session) (schema_id : Z) (data : dict)
  : Session * Http.response DynamicData.row :=
  let data_create := Crud.mk_create schema_id data in
  match Crud.create_dynamic_data cv db data_create with
  | (db', Ok row) => (db', Http.Returned row)
  | (db', Raise e) =>
      if is_ValueError e then (db', Http.HTTPException 400 (str_exn e))
      else (db', Http.Unhandled e)
  end.

(** [GET /dynamic-schemas/{schema_id}/data]. *)
Definition read_data_by_schema (db : Session) (schema_id : Z) (skip limit : nat)
  : list DynamicData.row :=
  Crud.get_dynamic_data_by_schema db schema_id skip limit false.

End DynamicSchemasRouter.

(* ================================================================== *)
(** * src/app/routers/dynamic_schema_fields.py: [migrate_existing_data] *)
(* ================================================================== *)

Module SchemaFieldsRouter.
Import Py PyOps Http Models.

(** The [results] dictionary. *)
Record migration_results := mk_results {
  total : nat;
  migrated : nat;
  failed : nat;
  errors : list (Z * string) }.      (* {"id": ..., "error": ...} *)

(** [migration_config.get(key, default)]. *)
Definition config_get (migration_config : dict) (key : string) (default : value) : value :=
  match dict_get key migration_config with Some v => v | None => default end.

(** One step of [for old_field, new_field in field_mappings.items()]. *)
Definition apply_mapping (migrated_data : gdict) (entry : string * value) : result gdict :=
  let '(old_field, new_field) := entry in
  match gdict_get (HStr old_field) migrated_data with
  | Some v =>
      bind (hash_key new_field) (fun h =>
        let migrated_data := gdict_set h new_field v migrated_data in
        if negb (SchemasDynamic.value_is new_field old_field)
        then Ok (gdict_del (HStr old_field) migrated_data)
        else Ok migrated_data)
  | None => Ok migrated_data
  end.

(** One step of [for field, value in default_values.items()]. *)
Definition apply_default (migrated_data : gdict) (entry : string * value) : result gdict :=
  let '(field, v) := entry in
  if negb (gdict_contains (HStr field) migrated_data)
  then Ok (gdict_set (HStr field) (VStr field) v migrated_data)
  else Ok migrated_data.

(** One step of [for field in remove_fields]. *)
Definition apply_remove (migrated_data : gdict) (field : value) : result gdict :=
  bind (hash_key field) (fun h =>
    if gdict_contains h migrated_data then Ok (gdict_del h migrated_data)
    else Ok migrated_data).

(** The body of the [try] block for one item, up to the validated data. *)
Definition migrate_item (cv : Conversions) (field_mappings default_values remove_fields : value)
    (schema_def : SchemasDynamic.SchemaDefinition) (item_data : dict) : result dict :=
  let migrated_data := gdict_of_dict item_data in
  bind (py_items field_mappings) (fun mappings =>
  bind (for_each apply_mapping mappings migrated_data) (fun migrated_data =>
  bind (py_items default_values) (fun defaults =>
  bind (for_each apply_default defaults migrated_data) (fun migrated_data =>
  bind (py_iter remove_fields) (fun removals =>
  bind (for_each apply_remove removals migrated_data) (fun migrated_data =>
  bind (kwargs_of_gdict migrated_data) (fun data =>
    SchemasDynamic.validate_data cv schema_def data))))))).

(** [for item in data_items: try: ... except Exception as e: ...]. *)
Fixpoint migrate_loop (cv : Conversions) (field_mappings default_values remove_fields : value)
    (schema_def : SchemasDynamic.SchemaDefinition) (data_items : list DynamicData.row)
    (rows : list DynamicData.row) (results : migration_results)
  : list DynamicData.row * migration_results :=
  match data_items with
  | [] => (rows, results)
  | item :: rest =>
      match migrate_item cv field_mappings default_values remove_fields schema_def
                         (DynamicData.data item) with
      | Ok validated_data =>
          migrate_loop cv field_mappings default_values remove_fields schema_def rest
            (Crud.update_row (DynamicData.id item) (Crud.set_data validated_data) rows)
            (mk_results (total results) (S (migrated results)) (failed results)
                        (errors results))
      | Raise e =>
          migrate_loop cv field_mappings default_values remove_fields schema_def rest
            rows
            (mk_results (total results) (migrated results) (S (failed results))
                        (errors results ++ [(DynamicData.id item, str_exn e)])%list)
      end
  end.

(** [POST /schema-fields/{schema_id}/migrate-data]. *)
Definition migrate_existing_data (cv : Conversions) (db : Session) (schema_id : Z)
    (migration_config : dict) : Session * response migration_results :=
  match Crud.get_dynamic_schema db schema_id with
  | None => (db, HTTPException 404 "Schema not found")
  | Some schema =>
      let data_items :=
        Crud.get_dynamic_data_by_schema db schema_id Crud.default_skip Crud.default_limit
                                        true in
      let field_mappings := config_get migration_config "field_mappings" (VDict []) in
      let default_values := config_get migration_config "default_values" (VDict []) in
      let remove_fields := config_get migration_config "remove_fields" (VList []) in
      match SchemasDynamic.SchemaDefinition_init (DynamicSchema.schema_definition schema) with
      | Raise e => (db, Unhandled e)
      | Ok schema_def =>
          let results := mk_results (List.length data_items) 0 0 [] in
          let '(rows, results) :=
            migrate_loop cv field_mappings default_values remove_fields schema_def
                         data_items (dynamic_data db) results in
          (Crud.with_dynamic_data db rows, Returned results)
      end
  end.

End SchemaFieldsRouter.

(* ================================================================== *)
(** * Notions the properties are stated with                           *)
(* ================================================================== *)

Module Notions.
Import Py Pydantic SchemasDynamic.

(** [field_def.get('required', False)], as the truth value the source tests. *)
Definition is_required (field_def : dict) : bool :=
  match dict_get "required" field_def with Some r => truthy r | None => false end.

(** The default a field declares, if it declares one. *)
Definition declared_default (field_def : dict) : option value :=
  dict_get "default" field_def.

(** The value [validate_data] puts in for a field the document leaves out. *)
Definition filled_in (field_def : dict) : value :=
  match declared_default field_def with Some d => d | None => VNone end.

(** The field of the generated model that stands for a declared field. *)
Definition model_field_of (field_name : string) (field_def : dict) : result ModelField :=
  bind (field_definition_of field_def) (fun o =>
    match o with
    | Some fd => infer_field field_name fd
    | None => Raise (KeyError field_name)
    end).



Definition is_some {A} (o : option A) : bool :=
  match o with Some _ => true | None => false end.


(** The [type] of the items of an array field (['string'] when left out). *)
Definition items_type (field_def : dict) : value :=
  match dict_get "items" field_def with
  | Some (VDict items) =>
      match dict_get "type" items with Some t => t | None => VStr "string" end
  | _ => VStr "string"
  end.


(** The fields of the model built from a schema stand for the declared
    fields. *)
Definition models_field (nf : string * dict) (m : ModelField) : Prop :=
  model_field_of (fst nf) (snd nf) = Ok m.

(** What [validate_model] stores for a field: the validated value of the
    supplied one, or the default of a field that is not required. *)
Definition accepts (cv : Conversions) (D : dict) (m : ModelField) (kv : string * value)
  : Prop :=
  fst kv = mf_name m
  /\ match dict_get (mf_name m) D with
     | Some raw => field_validate cv m raw = Valid (snd kv)
     | None => mf_required m = false /\ snd kv = mf_default m
     end.

(** The entry a record adds to the error list of a migration, decided by the
    record alone. *)
Definition error_entry (cv : Conversions)
    (field_mappings default_values remove_fields : value)
    (schema_def : SchemaDefinition) (item : Models.DynamicData.row) : list (Z * string) :=
  match SchemaFieldsRouter.migrate_item cv field_mappings default_values remove_fields
          schema_def (Models.DynamicData.data item) with
  | Ok _ => []
  | Raise e => [(Models.DynamicData.id item, PyOps.str_exn e)]
  end.

(** A query with further conditions. *)
Definition extend (q : DynamicDataRouter.Query) (ws : list DynamicDataRouter.clause)
  : DynamicDataRouter.Query :=
  DynamicDataRouter.mk_query (DynamicDataRouter.q_rows q)
                             (DynamicDataRouter.q_where q ++ ws)%list.

(** The nine operators of a leaf predicate. *)
Definition recognised_operators : list string :=
  ["eq"; "ne"; "gt"; "gte"; "lt"; "lte"; "contains"; "startswith"; "endswith"].

(** Modelled from the spec: a well-formed composite is an object with an
    [and] or an [or] key that holds a list. *)
Definition well_formed_composite (node : value) : bool :=
  match node with
  | VDict d =>
      match dict_get "and" d, dict_get "or" d with
      | Some (VList _), _ => true
      | None, Some (VList _) => true
      | _, _ => false
      end
  | _ => false
  end.

(** Modelled from the spec: a leaf that carries the three keys. *)
Definition complete_leaf (node : value) : bool :=
  match node with
  | VDict d =>
      dict_contains "field_path" d && dict_contains "operator" d && dict_contains "value" d
  | _ => false
  end.

(** What [validate_field_definitions] asks of the description of one field. *)
Definition well_described (field_def : dict) : bool :=
  match dict_get "type" field_def with
  | None => false
  | Some t =>
      value_in t valid_types
      && (negb (value_is t "array") || dict_contains "items" field_def)
      && (negb (value_is t "object") || dict_contains "properties" field_def)
  end.



(** What a step of the bulk delete does to the store when the record is
    found. *)
Definition bulk_delete_step (force : bool) (data_id : Z) (db : Models.Session)
  : Models.Session :=
  if force
  then Crud.with_dynamic_data db (Crud.delete_row data_id (Models.dynamic_data db))
  else Crud.with_dynamic_data db
         (Crud.update_row data_id (Crud.set_is_deleted true) (Models.dynamic_data db)).

(** The query criteria lead to, from the conditions they add or the
    exception they raise. *)
Definition applied (q : DynamicDataRouter.Query)
    (r : result (list DynamicDataRouter.clause)) : result DynamicDataRouter.Query :=
  match r with
  | Ok ws => Ok (extend q ws)
  | Raise e => Raise e
  end.

(** A store whose records carry other deletion flags. *)
Definition with_flags (flag : Models.DynamicData.row -> bool) (db : Models.Session)
  : Models.Session :=
  Crud.with_dynamic_data db
    (map (fun r => Crud.set_is_deleted (flag r) r) (Models.dynamic_data db)).

(** [del d[k]] on a dictionary with [str] keys. *)
Fixpoint dict_remove (k : string) (d : dict) : dict :=
  match d with
  | [] => []
  | (k', v) :: d' => if String.eqb k k' then d' else (k', v) :: dict_remove k d'
  end.

(** A JSON object. *)
Definition is_object (v : value) : bool :=
  match v with VDict _ => true | _ => false end.

End Notions.

(* ================================================================== *)
(** * Schemas, documents and stores used in the examples               *)
(* ================================================================== *)

Module Examples.
Import Py SchemasDynamic Models.

(** Conversions that know no float or date-time text; no example below
    contains any. *)
Definition no_text : Conversions :=
  mk_conversions (fun _ => "") (fun _ => None) (fun _ => None) (fun _ => None)
                 (fun _ => None).

(** The schema of the test suite (src/tests/conftest.py). *)
Definition user_schema : SchemaDefinition :=
  mk_schema "user" (Some "test schema")
    [("name", [("type", VStr "string"); ("required", VBool true)]);
     ("age", [("type", VStr "integer"); ("required", VBool true)]);
     ("email", [("type", VStr "string"); ("required", VBool false)])].

Definition hong : dict := [("name", VStr "Hong"); ("age", VInt 30)].




(** An integer field whose declared default is a string. *)
Definition defaulted_schema : SchemaDefinition :=
  mk_schema "count" None [("count", [("type", VStr "integer"); ("default", VStr "abc")])].

(** An integer field whose declared default is an integer. *)
Definition counted_schema : SchemaDefinition :=
  mk_schema "count" None [("count", [("type", VStr "integer"); ("default", VInt 0)])].

Definition user_row : DynamicSchema.row := DynamicSchema.mk 1 "user" None user_schema.

Definition store : Session :=
  mk_session [user_row]
    [DynamicData.mk 1 1 [("name", VStr "Hong"); ("age", VInt 30); ("email", VNone)] false;
     DynamicData.mk 2 1 [("name", VStr "Kim"); ("email", VNone)] true;
     DynamicData.mk 3 7 [] false].

Definition empty_store : Session := mk_session [] [].

(** A database that compares the integer member [data[field_path]] with an
    integer operand; anything else matches nothing. *)
Definition integer_engine (field_path : value) (t : DynamicDataRouter.sqltype)
    (op : DynamicDataRouter.sqlop) (operand : value) (data : dict) : bool :=
  match field_path, operand with
  | VStr k, VInt n =>
      match dict_get k data with
      | Some (VInt m) =>
          match op with
          | DynamicDataRouter.Eq => Z.eqb m n
          | DynamicDataRouter.Ne => negb (Z.eqb m n)
          | DynamicDataRouter.Gt => Z.ltb n m
          | DynamicDataRouter.Ge => Z.leb n m
          | DynamicDataRouter.Lt => Z.ltb m n
          | DynamicDataRouter.Le => Z.leb m n
          | _ => false
          end
      | _ => false
      end
  | _, _ => false
  end.


(** An array field whose [items] is the name of a type, not an object. *)
Definition tags_schema : SchemaDefinition :=
  mk_schema "tags" None [("tags", [("type", VStr "array"); ("items", VStr "string")])].

(** A required field that declares a default, and a store with one record
    of that schema. *)
Definition status_schema : SchemaDefinition :=
  mk_schema "ticket" None
    [("status", [("type", VStr "string"); ("required", VBool true);
                 ("default", VStr "new")]);
     ("note", [("type", VStr "string")])].

Definition ticket_store : Session :=
  mk_session [DynamicSchema.mk 1 "ticket" None status_schema]
    [DynamicData.mk 1 1 [("status", VStr "open"); ("note", VStr "call back")] false].

(** The request that creates the schema of the test suite. *)
Definition user_schema_create : DynamicSchemaCreate.t :=
  DynamicSchemaCreate.mk "user" (Some "test schema") user_schema.



End Examples.

(* ================================================================== *)
(** * Tactics                                                          *)
(* ================================================================== *)

Import Py Pydantic SchemasDynamic Notions.

Arguments value_in : simpl never.
Arguments value_is : simpl never.

Ltac inv H := inversion H; subst; clear H.

(** Case analysis on the result a [bind] scrutinises. *)
Ltac bind_cases H :=
  match type of H with
  | bind ?m _ = _ => let E := fresh "E" in destruct m eqn:E; simpl in H; try discriminate
  end.

(** Case analysis on the scrutinee of a [match] or [if] inside [H]. *)
Ltac break_in H :=
  match type of H with
  | context [match ?x with _ => _ end] => destruct x eqn:?; simpl in H
  | context [if ?x then _ else _] => destruct x eqn:?; simpl in H
  end.

(** Unfold the model field of a declared field whose type is known. *)
Ltac model_field_of_type Hm Ht :=
  unfold model_field_of, field_definition_of in Hm; rewrite Ht in Hm;
  unfold value_in, value_is in Hm; simpl in Hm;
  unfold infer_field in Hm; simpl in Hm.

(* ================================================================== *)
(** * Properties                                                       *)
(* ================================================================== *)


(** ** Dictionaries *)

Lemma dict_get_In (k : string) (d : dict) (v : value) :
  dict_get k d = Some v -> In (k, v) d.
Proof.
  induction d as [|[k' v'] d IH]; simpl; [discriminate|].
  destruct (String.eqb_spec k k') as [->|Hne]; intros H.
  - inv H. now left.
  - right. now apply IH.
Qed.

Lemma dict_get_None (k : string) (d : dict) :
  dict_get k d = None <-> ~ In k (dict_keys d).
Proof.
  induction d as [|[k' v'] d IH]; simpl.
  - tauto.
  - destruct (String.eqb_spec k k') as [->|Hne].
    + split; [discriminate|]. intros H. exfalso. apply H. now left.
    + rewrite IH. split; [intros H [E|HI]; [congruence|tauto] | tauto].
Qed.

Lemma dict_get_NoDup (k : string) (d : dict) (v : value) :
  NoDup (dict_keys d) -> In (k, v) d -> dict_get k d = Some v.
Proof.
  induction d as [|[k' v'] d IH]; simpl; [tauto|].
  intros Hnd [E|HI].
  - inv E. now rewrite String.eqb_refl.
  - inv Hnd. destruct (String.eqb_spec k k') as [->|Hne].
    + exfalso. apply H1. change k' with (fst (k', v)). now apply in_map.
    + now apply IH.
Qed.

Lemma dict_contains_true (k : string) (d : dict) :
  dict_contains k d = true <-> exists v, dict_get k d = Some v.
Proof.
  unfold dict_contains. destruct (dict_get k d); split; eauto; try discriminate.
  intros [v H]; discriminate.
Qed.


(** [d[k] = v] on a dictionary without [k] appends the entry. *)
Lemma dict_set_fresh (k : string) (v : value) (d : dict) :
  ~ In k (dict_keys d) -> dict_set k v d = (d ++ [(k, v)])%list.
Proof.
  induction d as [|[k' v'] d IH]; simpl; [reflexivity|].
  intros H. destruct (String.eqb_spec k k') as [->|Hne]; [tauto|].
  f_equal. apply IH. tauto.
Qed.

(** ** The generated model *)


Lemma validate_field_definitions_cons
    (field_name : string) (field_def : dict) (rest : list (string * dict)) (u : unit) :
  validate_field_definitions ((field_name, field_def) :: rest) = Ok u ->
  (exists t, dict_get "type" field_def = Some t /\ value_in t valid_types = true)
  /\ validate_field_definitions rest = Ok u.
Proof.
  intros H. cbn [validate_field_definitions] in H.
  destruct (dict_get "type" field_def) as [t|]; [|discriminate].
  destruct (value_in t valid_types) eqn:Ht; cbn [negb] in H; [|discriminate].
  destruct (value_is t "array" && negb (dict_contains "items" field_def));
    [discriminate|].
  destruct (value_is t "object" && negb (dict_contains "properties" field_def));
    [discriminate|].
  split; [exists t; auto | exact H].
Qed.

Lemma value_in_valid_types (t : value) :
  value_in t valid_types = true ->
  value_in t ["string"; "number"; "integer"; "boolean"; "date"; "datetime"] = true
  \/ value_is t "array" = true \/ value_is t "object" = true.
Proof.
  unfold value_in, value_is. destruct t; simpl; intros H; try discriminate H.
  revert H.
  repeat match goal with
         | |- context [String.eqb ?a ?b] => destruct (String.eqb a b); simpl; auto
         end.
Qed.

(** What the loop body of [create_model_from_schema] records for a field. *)
Lemma field_definition_of_Some (field_def : dict) (fd : field_definition) :
  field_definition_of field_def = Ok (Some fd) ->
  fd_optional fd = negb (is_required field_def)
  /\ fd_default fd =
       match declared_default field_def with
       | Some d => Default d
       | None => if is_required field_def then Ellipsis else Default VNone
       end.
Proof.
  unfold field_definition_of, is_required, declared_default. intros H.
  destruct (dict_get "type" field_def) as [t|]; simpl in H; [|discriminate].
  destruct (value_in t _).
  - bind_cases H. inv H. simpl. auto.
  - destruct (value_is t "array").
    + destruct (dict_get "items" field_def) as [[]|]; simpl in H; try discriminate.
      bind_cases H. inv H. simpl. auto.
    + destruct (value_is t "object"); simpl in H; [|discriminate].
      inv H. simpl. auto.
Qed.

Lemma field_definition_of_valid (field_def : dict) (t : value) :
  dict_get "type" field_def = Some t -> value_in t valid_types = true ->
  field_definition_of field_def <> Ok None.
Proof.
  intros Ht Hv. unfold field_definition_of. rewrite Ht. intros HN.
  destruct (value_in t ["string"; "number"; "integer"; "boolean"; "date"; "datetime"]) eqn:Hs.
  - destruct (get_pydantic_type t); simpl in HN; discriminate.
  - destruct (value_in_valid_types t Hv) as [H|[H|H]]; [congruence| |].
    + rewrite H in HN.
      destruct (dict_get "items" field_def) as [[]|]; simpl in HN; try discriminate.
      destruct (get_pydantic_type _); simpl in HN; discriminate.
    + rewrite H in HN. destruct (value_is t "array"); simpl in HN; [|discriminate].
      destruct (dict_get "items" field_def) as [[]|]; simpl in HN; try discriminate.
      destruct (get_pydantic_type _); simpl in HN; discriminate.
Qed.

Lemma model_field_of_facts (field_name : string) (field_def : dict) (m : ModelField) :
  model_field_of field_name field_def = Ok m ->
  mf_name m = field_name
  /\ mf_required m = is_required field_def && negb (is_some (declared_default field_def))
  /\ mf_default m = filled_in field_def
  /\ mf_allow_none m =
       negb (is_required field_def)
       || match declared_default field_def with Some VNone => true | _ => false end.
Proof.
  unfold model_field_of. intros H. bind_cases H.
  destruct a as [fd|]; simpl in H; [|discriminate].
  destruct (field_definition_of_Some _ _ E) as [Ho Hd].
  unfold infer_field in H. destruct (has_validators _); simpl in H; [|discriminate].
  inv H. simpl. rewrite Ho, Hd. unfold filled_in.
  destruct (declared_default field_def) as [d|]; simpl.
  - rewrite andb_false_r. repeat split; auto.
  - destruct (is_required field_def); simpl; auto.
Qed.

(** The fields of the model built from a valid schema are the declared
    fields, one for one and in order. *)
Lemma infer_fields_Forall2 (fs : list (string * dict)) :
  forall (u : unit) (defs : list (string * field_definition)) (ms : list ModelField),
  validate_field_definitions fs = Ok u ->
  field_definitions_of fs = Ok defs ->
  infer_fields defs = Ok ms ->
  Forall2 models_field fs ms.
Proof.
  induction fs as [|[n fd] fs IH]; intros u defs ms Hv Hd Hi.
  - simpl in Hd. inv Hd. simpl in Hi. inv Hi. constructor.
  - destruct (validate_field_definitions_cons _ _ _ _ Hv) as [[t [Ht Hin]] Hv'].
    simpl in Hd. bind_cases Hd. bind_cases Hd.
    destruct a as [fd'|]; [|exfalso; eapply field_definition_of_valid; eauto].
    inv Hd. simpl in Hi. bind_cases Hi. bind_cases Hi. inv Hi.
    constructor; [|eapply IH; eauto].
    unfold models_field, model_field_of. simpl. rewrite E. simpl. exact E1.
Qed.

Lemma create_model_from_schema_fields (s : SchemaDefinition) (m : Model) :
  valid_schema s = true ->
  create_model_from_schema s = Ok m ->
  Forall2 models_field (fields s) (model_fields m).
Proof.
  unfold valid_schema, create_model_from_schema, create_model. intros Hs H.
  destruct (validate_field_definitions (fields s)) as [u|] eqn:Hv; simpl in Hs; [|discriminate]. bind_cases H. bind_cases H. inv H. simpl.
  eapply infer_fields_Forall2; eauto.
Qed.

Lemma models_field_names (fs : list (string * dict)) (ms : list ModelField) :
  Forall2 models_field fs ms -> map mf_name ms = map fst fs.
Proof.
  induction 1 as [|nf m fs ms H _ IH]; simpl; [reflexivity|].
  f_equal; [|exact IH]. now destruct (model_field_of_facts _ _ _ H).
Qed.

(** ** Validation of a document against a model *)

Section ModelFacts.
Context (cv : Conversions).

(** A failed validation reports at least one error. *)
Lemma validate_singleton_Invalid (t : pytype) (v : value) (es : list error_wrapper) :
  validate_singleton cv t v = Invalid es -> es <> [].
Proof.
  intros H.
  destruct t; simpl in H;
    unfold str_validator, float_validator, int_validator, bool_validator,
           parse_datetime, of_datetime, StrError, FloatError, IntegerError, BoolError,
           ListError, DictError, DateTimeError, DateTimeTypeError, fail in H;
    repeat break_in H; try discriminate; inv H; discriminate.
Qed.

Lemma field_validate_Invalid (m : ModelField) (v : value) (es : list error_wrapper) :
  field_validate cv m v = Invalid es -> es <> [].
Proof.
  intros H.
  assert (Hc : v = VNone
               \/ field_validate cv m v = validate_annotation cv (mf_annotation m) v)
    by (destruct v; auto).
  destruct Hc as [->|Hc].
  - simpl in H. destruct (mf_allow_none m); [discriminate|]. inv H. discriminate.
  - rewrite Hc in H. unfold validate_annotation in H.
    destruct (mf_annotation m) as [t|t].
    + eapply validate_singleton_Invalid; exact H.
    + unfold ListError, fail in H. repeat break_in H; try discriminate;
        inv H; discriminate.
Qed.

Lemma validate_model_Ok (ms : list ModelField) (D : dict) :
  forall values : dict,
  validate_model cv ms D = Ok (values, []) <-> Forall2 (accepts cv D) ms values.
Proof.
  induction ms as [|m ms IH]; intros values; simpl.
  - split; intros H; [inv H; constructor | inv H; reflexivity].
  - split.
    + intros H. destruct (dict_get (mf_name m) D) as [raw|] eqn:Hg.
      * destruct (field_validate cv m raw) as [v'|es|e] eqn:Hf; simpl in H;
          [| |discriminate].
        -- bind_cases H. destruct a as [vs errs]. inv H. simpl.
           constructor; [|now apply IH].
           split; [reflexivity|]. simpl. now rewrite Hg.
        -- bind_cases H. inv H. apply app_eq_nil in H2. destruct H2 as [H2 _].
           apply map_eq_nil in H2. now apply field_validate_Invalid in Hf.
      * destruct (mf_required m) eqn:Hr; bind_cases H.
        destruct a as [vs errs]. inv H. simpl.
        constructor; [|now apply IH].
        split; [reflexivity|]. simpl. rewrite Hg. auto.
    + intros H. inv H. destruct y as [k v]. destruct H2 as [Hk Hv]. simpl in Hk, Hv.
      apply IH in H4. rewrite H4. simpl.
      destruct (dict_get (mf_name m) D) as [raw|].
      * rewrite Hv. simpl. now subst k.
      * destruct Hv as [Hr Hd]. rewrite Hr. simpl. now subst.
Qed.

(** The stored fields are the model's fields, in order. *)
Lemma accepts_keys (D : dict) (ms : list ModelField) (values : dict) :
  Forall2 (accepts cv D) ms values -> dict_keys values = map mf_name ms.
Proof.
  induction 1 as [|m kv ms values [H _] _ IH]; simpl; [reflexivity|].
  now rewrite H, IH.
Qed.

End ModelFacts.

(** [validate_data] returns a document exactly when the model is built and
    every field is accepted. *)
Lemma validate_data_Ok (cv : Conversions) (s : SchemaDefinition) (D V : dict) :
  validate_data cv s D = Ok V <->
  exists m, create_model_from_schema s = Ok m
            /\ validate_model cv (model_fields m) D = Ok (V, []).
Proof.
  unfold validate_data, model_init, model_dict. split.
  - intros H. bind_cases H. exists a. split; [reflexivity|].
    destruct (validate_model cv (model_fields a) D) as [[vs errs]|e] eqn:Hm; simpl in H.
    + destruct errs; simpl in H; [now inv H | discriminate].
    + destruct e; discriminate.
  - intros [m [Hc Hm]]. rewrite Hc. simpl. rewrite Hm. reflexivity.
Qed.

(** ** The validated document, field by field *)






(** ** Correctly typed documents are accepted *)



Section TypedDocuments.
Context (cv : Conversions).








End TypedDocuments.




(** ** A missing required field *)






(** ** Text supplied for an integer field *)






(** ** Validating a validated document again *)

Lemma dict_set_keys (k : string) (v : value) (d : dict) :
  dict_keys (dict_set k v d)
  = if in_dec string_dec k (dict_keys d) then dict_keys d
    else (dict_keys d ++ [k])%list.
Proof.
  induction d as [|[k' v'] d IH]; simpl; [reflexivity|].
  destruct (String.eqb_spec k k') as [->|Hne]; simpl.
  - destruct (string_dec k' k'); [reflexivity|congruence].
  - rewrite IH. destruct (string_dec k' k) as [E|Hk]; [congruence|].
    destruct (in_dec string_dec k (dict_keys d)); reflexivity.
Qed.

Lemma dict_set_NoDup (k : string) (v : value) (d : dict) :
  NoDup (dict_keys d) -> NoDup (dict_keys (dict_set k v d)).
Proof.
  intros H. rewrite dict_set_keys.
  destruct (in_dec string_dec k (dict_keys d)) as [Hi|Hn]; [exact H|].
  apply NoDup_app; [exact H | repeat constructor; simpl; tauto |].
  intros x Hx [<-|[]]. contradiction.
Qed.

Section Idempotence.
Context (cv : Conversions).

Lemma validate_mapping_NoDup (items : gdict) :
  forall (acc : dict) (errs : list error_wrapper),
  NoDup (dict_keys acc) -> NoDup (dict_keys (fst (validate_mapping cv items acc errs))).
Proof.
  induction items as [|[[h k] v] items IH]; intros acc errs Hnd; simpl; [exact Hnd|].
  destruct (validate_key cv k) as [[]| |]; auto using dict_set_NoDup.
Qed.

(** A dictionary is rebuilt entry by entry, in order. *)
Lemma validate_mapping_rebuild (d : dict) :
  forall (acc : dict) (errs : list error_wrapper),
  NoDup (dict_keys (acc ++ d)%list) ->
  validate_mapping cv (gdict_of_dict d) acc errs = ((acc ++ d)%list, errs).
Proof.
  induction d as [|[k v] d IH]; intros acc errs Hnd; simpl.
  - now rewrite app_nil_r.
  - rewrite dict_set_fresh.
    + rewrite IH; rewrite <- app_assoc; [reflexivity | exact Hnd].
    + unfold dict_keys in *. rewrite map_app in Hnd. simpl in Hnd.
      apply NoDup_remove_2 in Hnd. intros Hi. apply Hnd. apply in_or_app. now left.
Qed.

Lemma validate_singleton_idem (t : pytype) (v v' : value) :
  validate_singleton cv t v = Valid v' -> validate_singleton cv t v' = Valid v'.
Proof.
  intros H. destruct t; simpl in H.
  - unfold str_validator, StrError, fail in H. repeat break_in H; inv H; reflexivity.
  - unfold float_validator, FloatError, fail in H. repeat break_in H; inv H; reflexivity.
  - unfold int_validator, IntegerError, fail in H. repeat break_in H; inv H; reflexivity.
  - unfold bool_validator, BoolError, fail in H. repeat break_in H; inv H; reflexivity.
  - discriminate.
  - unfold parse_datetime, of_datetime, DateTimeError, DateTimeTypeError, fail in H.
    repeat break_in H; inv H; reflexivity.
  - unfold ListError, fail in H. repeat break_in H; inv H; reflexivity.
  - unfold DictError, fail in H.
    destruct (dict_validator v) as [items|]; [|discriminate].
    destruct (validate_mapping cv items [] []) as [d' es] eqn:Hm.
    destruct es; [|discriminate]. inv H. simpl.
    pose proof (validate_mapping_NoDup items [] [] (NoDup_nil _)) as Hnd.
    rewrite Hm in Hnd. simpl in Hnd.
    rewrite (validate_mapping_rebuild d' [] []); [reflexivity | exact Hnd].
  - inv H. reflexivity.
Qed.

Lemma validate_item_idem (t : pytype) (v v' : value) :
  validate_item cv t v = Valid v' -> validate_item cv t v' = Valid v'.
Proof.
  intros H.
  assert (Hc : (v = VNone /\ v' = VNone /\ t = TAny)
               \/ validate_singleton cv t v = Valid v').
  { destruct v; auto. simpl in H. destruct t; inv H. auto. }
  destruct Hc as [[Hv [Hv' Ht]]|Hc]; [subst; reflexivity|].
  pose proof (validate_singleton_idem _ _ _ Hc) as Hi.
  destruct v'; auto. destruct t; simpl in Hi |- *; try discriminate; auto.
Qed.

Lemma validate_item_Invalid (t : pytype) (v : value) (es : list error_wrapper) :
  validate_item cv t v = Invalid es -> es <> [].
Proof.
  intros H. destruct v; try (eapply validate_singleton_Invalid; exact H).
  simpl in H. destruct t; inv H; discriminate.
Qed.

Lemma validate_sequence_idem (t : pytype) (l : list value) :
  forall (i : nat) (vs : list value),
  validate_sequence cv t i l = Ok (vs, []) ->
  forall j, validate_sequence cv t j vs = Ok (vs, []).
Proof.
  induction l as [|v l IH]; intros i vs H j; simpl in H.
  - inv H. reflexivity.
  - destruct (validate_item cv t v) as [v'|es|e] eqn:Hv; simpl in H; [| |discriminate].
    + bind_cases H. destruct a as [vs' errs]. inv H. simpl.
      rewrite (validate_item_idem _ _ _ Hv). rewrite (IH _ _ E (S j)). reflexivity.
    + bind_cases H. inv H. apply app_eq_nil in H2. destruct H2 as [H2 _].
      apply map_eq_nil in H2. now apply validate_item_Invalid in Hv.
Qed.

(** A validated value validates to itself. *)
Lemma field_validate_idem (m : ModelField) (v v' : value) :
  field_validate cv m v = Valid v' -> field_validate cv m v' = Valid v'.
Proof.
  intros H.
  assert (Hc : (v = VNone /\ v' = VNone /\ mf_allow_none m = true)
               \/ validate_annotation cv (mf_annotation m) v = Valid v').
  { destruct v; auto. simpl in H. destruct (mf_allow_none m); inv H. auto. }
  destruct Hc as [[Hv [Hv' Ha]]|Hc]; [subst; simpl; now rewrite Ha|].
  assert (Hi : validate_annotation cv (mf_annotation m) v' = Valid v'
               /\ v' <> VNone \/ v' = VNone /\ mf_annotation m = Plain TAny).
  { unfold validate_annotation in *. destruct (mf_annotation m) as [t|t].
    - pose proof (validate_singleton_idem _ _ _ Hc) as Hi.
      destruct v'; try (left; split; [exact Hi|discriminate]).
      right. split; [reflexivity|].
      destruct t; simpl in Hi; try discriminate; auto.
    - left. destruct v; try (unfold ListError, fail in Hc; discriminate).
      destruct (validate_sequence cv t 0 l) as [[vs es]|] eqn:Hs; [|discriminate].
      destruct es; [|discriminate]. inv Hc.
      rewrite (validate_sequence_idem _ _ _ _ Hs 0%nat). split; [reflexivity|discriminate]. }
  destruct Hi as [[Hi Hn]|[Hv' Hany]]; [|subst v'].
  - destruct v'; try exact Hi. congruence.
  - (* [None] out of a field typed [Any]: no such field is generated with
       [None] disallowed *)
    destruct v; try (simpl in H; rewrite Hany in H; simpl in H; inv H).
    simpl in H |- *. exact H.
Qed.

End Idempotence.

Lemma Forall2_In_r {A B} (R : A -> B -> Prop) (l : list A) (l' : list B) (b : B) :
  Forall2 R l l' -> In b l' -> exists a, In a l /\ R a b.
Proof.
  induction 1 as [|x y l l' HR _ IH]; simpl; [tauto|].
  intros [->|HI]; [exists x; auto|].
  destruct (IH HI) as [a [Ha HRa]]. exists a. auto.
Qed.

Lemma Forall2_strengthen {A B} (R1 R2 : A -> B -> Prop) (l : list A) (l' : list B) :
  Forall2 R1 l l' ->
  (forall a b, In a l -> In b l' -> R1 a b -> R2 a b) ->
  Forall2 R2 l l'.
Proof.
  induction 1 as [|x y l l' HR _ IH]; intros Himp; constructor.
  - apply Himp; simpl; auto.
  - apply IH. intros a b Ha Hb. apply Himp; simpl; auto.
Qed.

(** C6 (amended). Let [validate_data s D] succeed with [V], and let every
    declared default that this run filled in (the field is absent from [D])
    be a value the field's own validation returns unchanged.  Then
    [validate_data s V] succeeds and returns [V]. *)
Theorem revalidation_returns_the_document
    (cv : Conversions) (s : SchemaDefinition) (D V : dict) :
  valid_schema s = true ->
  NoDup (map fst (fields s)) ->
  validate_data cv s D = Ok V ->
  (forall field_name field_def d m,
     In (field_name, field_def) (fields s) ->
     dict_get field_name D = None ->
     declared_default field_def = Some d ->
     model_field_of field_name field_def = Ok m ->
     field_validate cv m d = Valid d) ->
  validate_data cv s V = Ok V.
Proof.
  intros Hvalid Hnd Hok Hdefaults.
  apply validate_data_Ok in Hok. destruct Hok as [model [Hc Hm]].
  pose proof (create_model_from_schema_fields _ _ Hvalid Hc) as Hfs.
  apply validate_model_Ok in Hm.
  pose proof (accepts_keys _ _ _ _ Hm) as Hkeys.
  rewrite (models_field_names _ _ Hfs) in Hkeys.
  apply validate_data_Ok. exists model. split; [exact Hc|].
  apply validate_model_Ok.
  eapply Forall2_strengthen; [exact Hm|].
  intros mf [k v] Hmf_in Hkv [Hk Hacc]. simpl in Hk, Hacc. subst k.
  split; [reflexivity|]. simpl.
  rewrite (dict_get_NoDup _ _ v); [|now rewrite Hkeys | exact Hkv].
  destruct (dict_get (mf_name mf) D) as [raw|] eqn:Hg.
  - eapply field_validate_idem; eauto.
  - destruct Hacc as [Hreq ->].
    destruct (Forall2_In_r _ _ _ _ Hfs Hmf_in) as [[n fd] [Hin Hmf]].
    unfold models_field in Hmf. simpl in Hmf.
    destruct (model_field_of_facts _ _ _ Hmf) as [Hname [Hr [Hd Ha]]].
    rewrite Hd. unfold filled_in.
    destruct (declared_default fd) as [d|] eqn:Hdd.
    + eapply Hdefaults; eauto. now rewrite <- Hname.
    + rewrite Hreq in Hr. simpl in Hr. rewrite andb_true_r in Hr.
      simpl. rewrite Ha, <- Hr. reflexivity.
Qed.

(** A schema whose integer field declares the default 0, and the empty
    document. *)
Lemma revalidation_returns_the_document_witness :
  let V := [("count", VInt 0)] in
  valid_schema Examples.counted_schema = true
  /\ NoDup (map fst (fields Examples.counted_schema))
  /\ validate_data Examples.no_text Examples.counted_schema [] = Ok V
  /\ (forall field_name field_def d m,
        In (field_name, field_def) (fields Examples.counted_schema) ->
        dict_get field_name [] = None ->
        declared_default field_def = Some d ->
        model_field_of field_name field_def = Ok m ->
        field_validate Examples.no_text m d = Valid d)
  /\ validate_data Examples.no_text Examples.counted_schema V = Ok V.
Proof.
  intros V.
  assert (h1 : valid_schema Examples.counted_schema = true) by reflexivity.
  assert (h2 : NoDup (map fst (fields Examples.counted_schema)))
    by (repeat constructor; simpl; intuition discriminate).
  assert (h3 : validate_data Examples.no_text Examples.counted_schema [] = Ok V)
    by reflexivity.
  assert (h4 : forall field_name field_def d m,
             In (field_name, field_def) (fields Examples.counted_schema) ->
             dict_get field_name [] = None ->
             declared_default field_def = Some d ->
             model_field_of field_name field_def = Ok m ->
             field_validate Examples.no_text m d = Valid d).
  { intros n fd d m Hin _ Hd Hm. simpl in Hin. destruct Hin as [E|[]]. inv E.
    inv Hd. inv Hm. reflexivity. }
  repeat (split; [assumption|]).
  exact (revalidation_returns_the_document _ _ _ _ h1 h2 h3 h4).
Defined.

(** C6, as stated, fails: the schema declares the default ["abc"] for an
    integer field; the empty document validates to a document that carries
    that default, and validating this document again raises. *)
Lemma revalidation_of_filled_default_fails :
  let V := [("count", VStr "abc")] in
  valid_schema Examples.defaulted_schema = true
  /\ validate_data Examples.no_text Examples.defaulted_schema [] = Ok V
  /\ exists message,
       validate_data Examples.no_text Examples.defaulted_schema V
       = Raise (ValueError message).
Proof.
  intros V. split; [reflexivity|]. split; [reflexivity|]. eexists. reflexivity.
Qed.

(** ** Soft delete and restore *)

Import Models.

(** The primary key selects one row. *)
Lemma filter_by_id (rows : list DynamicData.row) (r : DynamicData.row) :
  NoDup (map DynamicData.id rows) -> In r rows ->
  filter (fun x => Z.eqb (DynamicData.id x) (DynamicData.id r)) rows = [r].
Proof.
  induction rows as [|x rows IH]; simpl; [tauto|].
  intros Hnd Hin. inv Hnd. destruct Hin as [->|Hin].
  - rewrite Z.eqb_refl. f_equal.
    destruct (filter _ rows) as [|y l] eqn:Hf; [reflexivity|].
    assert (Hy : In y (filter (fun x => Z.eqb (DynamicData.id x) (DynamicData.id r)) rows))
      by (rewrite Hf; now left).
    apply filter_In in Hy. destruct Hy as [Hy E]. apply Z.eqb_eq in E.
    exfalso. apply H1. rewrite <- E. now apply in_map.
  - destruct (Z.eqb_spec (DynamicData.id x) (DynamicData.id r)) as [E|_].
    + exfalso. apply H1. rewrite E. now apply in_map.
    + now apply IH.
Qed.

Lemma first_by_id (rows : list DynamicData.row) (r : DynamicData.row) :
  NoDup (map DynamicData.id rows) -> In r rows ->
  Crud.first (filter (fun x => Z.eqb (DynamicData.id x) (DynamicData.id r)) rows) = Some r.
Proof. intros Hnd Hin. now rewrite filter_by_id. Qed.

Lemma map_fixed {A} (f : A -> A) (l : list A) :
  (forall x, In x l -> f x = x) -> map f l = l.
Proof.
  induction l as [|a l IH]; simpl; intros H; [reflexivity|].
  rewrite H by auto. f_equal. apply IH. auto.
Qed.

Lemma update_row_map (i : Z) (f : DynamicData.row -> DynamicData.row)
    (rows : list DynamicData.row) :
  NoDup (map DynamicData.id rows) ->
  Crud.update_row i f rows
  = map (fun x => if Z.eqb (DynamicData.id x) i then f x else x) rows.
Proof.
  induction rows as [|x rows IH]; simpl; [reflexivity|].
  intros Hnd. inv Hnd. destruct (Z.eqb_spec (DynamicData.id x) i) as [E|_].
  - f_equal. symmetry. apply map_fixed.
    intros y Hy. destruct (Z.eqb_spec (DynamicData.id y) i) as [E'|_]; [|reflexivity].
    exfalso. apply H1. rewrite E, <- E'. now apply in_map.
  - f_equal. now apply IH.
Qed.

Lemma update_row_ids (i : Z) (b : bool) (rows : list DynamicData.row) :
  map DynamicData.id (Crud.update_row i (Crud.set_is_deleted b) rows)
  = map DynamicData.id rows.
Proof.
  induction rows as [|x rows IH]; simpl; [reflexivity|].
  destruct (Z.eqb (DynamicData.id x) i); simpl; [reflexivity|now rewrite IH].
Qed.

Lemma update_row_In (i : Z) (f : DynamicData.row -> DynamicData.row)
    (rows : list DynamicData.row) (r : DynamicData.row) :
  In r rows -> DynamicData.id r = i -> NoDup (map DynamicData.id rows) ->
  In (f r) (Crud.update_row i f rows).
Proof.
  intros Hin Hi Hnd. rewrite update_row_map by exact Hnd.
  apply in_map_iff. exists r. split; [|exact Hin].
  subst i. now rewrite Z.eqb_refl.
Qed.

(** Restoring what was deleted gives the table back, up to the flag of the
    one row. *)
Lemma restore_after_delete_rows (i : Z) (rows : list DynamicData.row) :
  NoDup (map DynamicData.id rows) ->
  Crud.update_row i (Crud.set_is_deleted false)
    (Crud.update_row i (Crud.set_is_deleted true) rows)
  = Crud.update_row i (Crud.set_is_deleted false) rows.
Proof.
  intros Hnd. rewrite (update_row_map i _ (Crud.update_row _ _ _));
    [|now rewrite update_row_ids].
  rewrite !update_row_map by exact Hnd. rewrite map_map. apply map_ext.
  intros x. destruct (Z.eqb (DynamicData.id x) i) eqn:E; simpl; now rewrite E.
Qed.

Lemma update_row_unchanged (rows : list DynamicData.row) (r : DynamicData.row) :
  NoDup (map DynamicData.id rows) -> In r rows -> DynamicData.is_deleted r = false ->
  Crud.update_row (DynamicData.id r) (Crud.set_is_deleted false) rows = rows.
Proof.
  intros Hnd Hin Hd. rewrite update_row_map by exact Hnd.
  apply map_fixed. intros x Hx.
  destruct (Z.eqb_spec (DynamicData.id x) (DynamicData.id r)) as [E|_]; [|reflexivity].
  assert (x = r).
  { pose proof (first_by_id rows r Hnd Hin) as H1.
    pose proof (first_by_id rows x Hnd Hx) as H2. rewrite E in H2. congruence. }
  subst x. destruct r. simpl in *. now subst.
Qed.

Lemma In_firstn {A} (n : nat) (l : list A) (x : A) : In x (firstn n l) -> In x l.
Proof.
  revert l. induction n as [|n IH]; intros [|a l]; simpl; try tauto.
  intros [->|H]; auto.
Qed.

Lemma In_skipn {A} (n : nat) (l : list A) (x : A) : In x (skipn n l) -> In x l.
Proof.
  revert l. induction n as [|n IH]; intros [|a l]; simpl; try tauto. auto.
Qed.

Lemma offset_limit_In {A} (skip limit : nat) (l : list A) (x : A) :
  In x (Crud.offset_limit skip limit l) -> In x l.
Proof.
  unfold Crud.offset_limit. intros H. apply In_firstn in H. now apply In_skipn in H.
Qed.

(** C8. Soft-deleting a stored record and then restoring it hands back a
    record with the same [data], [id] and [schema_id], not deleted.  While
    the record is soft-deleted, the default point lookup does not find it
    and no page of the default per-schema listing contains it; before the
    deletion (when the record was not deleted) and after the restoration
    the lookup returns it and the listing, read in full, contains it. *)
Theorem soft_delete_then_restore (db : Session) (r : DynamicData.row) :
  NoDup (map DynamicData.id (dynamic_data db)) ->
  In r (dynamic_data db) ->
  let db1 := fst (Crud.soft_delete_dynamic_data db (DynamicData.id r)) in
  let db2 := fst (Crud.restore_dynamic_data db1 (DynamicData.id r)) in
  (exists r', snd (Crud.restore_dynamic_data db1 (DynamicData.id r)) = Some r'
              /\ DynamicData.data r' = DynamicData.data r
              /\ DynamicData.id r' = DynamicData.id r
              /\ DynamicData.schema_id r' = DynamicData.schema_id r
              /\ DynamicData.is_deleted r' = false
              /\ Crud.get_dynamic_data db2 (DynamicData.id r) false = Some r'
              /\ forall limit, (List.length (dynamic_data db) <= limit)%nat ->
                   In r' (Crud.get_dynamic_data_by_schema db2 (DynamicData.schema_id r)
                                                          0 limit false))
  /\ (Crud.get_dynamic_data db1 (DynamicData.id r) false = None
      /\ forall skip limit x,
           In x (Crud.get_dynamic_data_by_schema db1 (DynamicData.schema_id r)
                                                 skip limit false) ->
           DynamicData.id x <> DynamicData.id r)
  /\ (DynamicData.is_deleted r = false ->
      db2 = db
      /\ Crud.get_dynamic_data db (DynamicData.id r) false = Some r
      /\ forall limit, (List.length (dynamic_data db) <= limit)%nat ->
           In r (Crud.get_dynamic_data_by_schema db (DynamicData.schema_id r)
                                                 0 limit false)).
Proof.
  intros Hnd Hin db1 db2.
  assert (Hget : Crud.get_dynamic_data db (DynamicData.id r) true = Some r).
  { unfold Crud.get_dynamic_data. simpl. now apply first_by_id. }
  assert (Hdb1 : db1 = Crud.with_dynamic_data db
                   (Crud.update_row (DynamicData.id r) (Crud.set_is_deleted true)
                                    (dynamic_data db))).
  { unfold db1, Crud.soft_delete_dynamic_data. rewrite Hget. reflexivity. }
  set (rows1 := Crud.update_row (DynamicData.id r) (Crud.set_is_deleted true)
                                (dynamic_data db)) in *.
  assert (Hnd1 : NoDup (map DynamicData.id rows1))
    by (unfold rows1; now rewrite update_row_ids).
  assert (Hin1 : In (Crud.set_is_deleted true r) rows1)
    by (unfold rows1; now apply update_row_In).
  assert (Hget1 : Crud.get_dynamic_data db1 (DynamicData.id r) true
                  = Some (Crud.set_is_deleted true r)).
  { rewrite Hdb1. unfold Crud.get_dynamic_data. simpl.
    exact (first_by_id rows1 (Crud.set_is_deleted true r) Hnd1 Hin1). }
  assert (Hres : Crud.restore_dynamic_data db1 (DynamicData.id r)
                 = (Crud.with_dynamic_data db
                      (Crud.update_row (DynamicData.id r) (Crud.set_is_deleted false)
                                       (dynamic_data db)),
                    Some (Crud.set_is_deleted false r))).
  { unfold Crud.restore_dynamic_data. rewrite Hget1. simpl.
    rewrite Hdb1. simpl. unfold rows1. rewrite restore_after_delete_rows by exact Hnd.
    reflexivity. }
  set (rows2 := Crud.update_row (DynamicData.id r) (Crud.set_is_deleted false)
                                (dynamic_data db)) in *.
  assert (Hdb2 : db2 = Crud.with_dynamic_data db rows2) by (unfold db2; now rewrite Hres).
  assert (Hnd2 : NoDup (map DynamicData.id rows2))
    by (unfold rows2; now rewrite update_row_ids).
  assert (Hin2 : In (Crud.set_is_deleted false r) rows2)
    by (unfold rows2; now apply update_row_In).
  (* a row that is not deleted is found and listed *)
  assert (Hvisible : forall rows x,
            NoDup (map DynamicData.id rows) -> In x rows ->
            DynamicData.is_deleted x = false ->
            Crud.get_dynamic_data (Crud.with_dynamic_data db rows) (DynamicData.id x) false
            = Some x
            /\ forall limit, (List.length rows <= limit)%nat ->
                 In x (Crud.get_dynamic_data_by_schema (Crud.with_dynamic_data db rows)
                         (DynamicData.schema_id x) 0 limit false)).
  { intros rows x Hndr Hx Hd. split.
    - unfold Crud.get_dynamic_data. simpl.
      rewrite (filter_by_id rows x Hndr Hx). simpl. rewrite Hd. reflexivity.
    - intros limit Hl. unfold Crud.get_dynamic_data_by_schema, Crud.offset_limit. simpl.
      rewrite firstn_all2.
      + apply filter_In. split; [|now rewrite Hd].
        apply filter_In. split; [exact Hx|apply Z.eqb_refl].
      + etransitivity; [apply filter_length_le|].
        etransitivity; [apply filter_length_le|exact Hl]. }
  split; [|split].
  - exists (Crud.set_is_deleted false r). rewrite Hres. simpl.
    repeat (split; [reflexivity|]).
    rewrite Hdb2.
    destruct (Hvisible rows2 (Crud.set_is_deleted false r) Hnd2 Hin2 eq_refl) as [H1 H2].
    split; [exact H1|]. intros limit Hl. apply H2.
    unfold rows2. rewrite <- (length_map DynamicData.id), update_row_ids, length_map.
    exact Hl.
  - split.
    + rewrite Hdb1. unfold Crud.get_dynamic_data. simpl.
      pose proof (filter_by_id rows1 _ Hnd1 Hin1) as Hf. simpl in Hf.
      rewrite Hf. reflexivity.
    + intros skip limit x Hx Hid. rewrite Hdb1 in Hx.
      apply offset_limit_In in Hx. simpl in Hx.
      apply filter_In in Hx. destruct Hx as [Hx Hdel].
      apply filter_In in Hx. destruct Hx as [Hx _].
      assert (x = Crud.set_is_deleted true r).
      { pose proof (first_by_id rows1 x Hnd1 Hx) as H1. rewrite Hid in H1.
        pose proof (first_by_id rows1 _ Hnd1 Hin1) as H2. simpl in H2. congruence. }
      subst x. discriminate.
  - intros Hd.
    assert (Hrows : rows2 = dynamic_data db)
      by (unfold rows2; now apply update_row_unchanged).
    assert (Hdb : Crud.with_dynamic_data db (dynamic_data db) = db) by (now destruct db).
    split; [rewrite Hdb2, Hrows; exact Hdb|].
    destruct (Hvisible (dynamic_data db) r Hnd Hin Hd) as [H1 H2].
    rewrite Hdb in H1, H2. split; [exact H1|exact H2].
Qed.

(** The first row of the example store. *)
Lemma soft_delete_then_restore_witness :
  let r := DynamicData.mk 1 1 [("name", VStr "Hong"); ("age", VInt 30); ("email", VNone)]
                          false in
  let db1 := fst (Crud.soft_delete_dynamic_data Examples.store 1) in
  NoDup (map DynamicData.id (dynamic_data Examples.store))
  /\ In r (dynamic_data Examples.store)
  /\ Crud.get_dynamic_data db1 1 false = None
  /\ fst (Crud.restore_dynamic_data db1 1) = Examples.store
  /\ Crud.get_dynamic_data Examples.store 1 false = Some r.
Proof.
  intros r db1.
  assert (h1 : NoDup (map DynamicData.id (dynamic_data Examples.store)))
    by (repeat constructor; simpl; intuition discriminate).
  assert (h2 : In r (dynamic_data Examples.store)) by (simpl; auto).
  repeat (split; [assumption|]).
  destruct (soft_delete_then_restore Examples.store r h1 h2)
    as [_ [[Hgone _] Hback]].
  destruct (Hback eq_refl) as [Hdb [Hfound _]].
  split; [exact Hgone|]. split; [exact Hdb|exact Hfound].
Defined.

(** ** Data migration *)

Import SchemaFieldsRouter.

Section Migration.
Context (cv : Conversions) (field_mappings default_values remove_fields : value)
        (schema_def : SchemaDefinition).

Lemma migrate_loop_results (data_items : list DynamicData.row) :
  forall (rows : list DynamicData.row) (results : migration_results),
  let results' :=
    snd (migrate_loop cv field_mappings default_values remove_fields schema_def
                      data_items rows results) in
  total results' = total results
  /\ errors results' = (errors results ++ flat_map (error_entry cv field_mappings default_values remove_fields schema_def) data_items)%list
  /\ failed results' = (failed results + List.length (flat_map (error_entry cv field_mappings default_values remove_fields schema_def) data_items))%nat
  /\ (migrated results' + failed results'
      = migrated results + failed results + List.length data_items)%nat.
Proof.
  induction data_items as [|item rest IH]; intros rows results; simpl.
  - rewrite app_nil_r. repeat split; try reflexivity; lia.
  - destruct (migrate_item cv field_mappings default_values remove_fields schema_def
                           (DynamicData.data item)) as [d|e] eqn:Hmi.
    + assert (Hentry : error_entry cv field_mappings default_values remove_fields
                                   schema_def item = []) by (unfold error_entry; now rewrite Hmi).
      rewrite Hentry. simpl.
      destruct (IH (Crud.update_row (DynamicData.id item) (Crud.set_data d) rows)
                   (mk_results (total results) (S (migrated results)) (failed results)
                               (errors results))) as [Ht [He [Hf Hm]]].
      simpl in *. repeat split; auto; lia.
    + assert (Hentry : error_entry cv field_mappings default_values remove_fields
                                   schema_def item
                       = [(DynamicData.id item, PyOps.str_exn e)])
        by (unfold error_entry; now rewrite Hmi).
      rewrite Hentry. simpl.
      destruct (IH rows
                   (mk_results (total results) (migrated results) (S (failed results))
                               (errors results ++ [(DynamicData.id item, PyOps.str_exn e)])))
        as [Ht [He [Hf Hm]]].
      simpl in *. rewrite <- app_assoc in He. simpl in He.
      repeat split; auto; lia.
Qed.

End Migration.



(** ** Not found *)

Import Http DynamicDataRouter.

(** C10 (the code at the failing input). For a store without the schema,
    [POST /dynamic-data/] stores nothing and answers 400 -- the status of a
    validation failure -- with "Schema with id ... not found" as the detail,
    whereas [POST /dynamic-data/validate] answers 404 for the same missing
    schema. *)
Theorem create_for_missing_schema_answers_400
    (cv : Conversions) (db : Session) (data_create : Crud.DynamicDataCreate) :
  Crud.get_dynamic_schema db (Crud.schema_id data_create) = None ->
  create_dynamic_data_generic cv db data_create
  = (db, HTTPException 400
           ("Schema with id " ++ py_str_of_int (Crud.schema_id data_create) ++ " not found"))
  /\ status_code_of (snd (create_dynamic_data_generic cv db data_create)) = 400%Z
  /\ status_code_of
       (validate_json_data cv db (Crud.schema_id data_create) (Crud.data data_create))
     = 404%Z.
Proof.
  intros H. unfold create_dynamic_data_generic, Crud.create_dynamic_data, validate_json_data.
  rewrite H. simpl. auto.
Qed.

(** The empty store and schema 999. *)
Lemma create_for_missing_schema_answers_400_witness :
  Crud.get_dynamic_schema Examples.empty_store 999 = None
  /\ create_dynamic_data_generic Examples.no_text Examples.empty_store
       (Crud.mk_create 999 [])
     = (Examples.empty_store, HTTPException 400 "Schema with id 999 not found").
Proof.
  assert (h : Crud.get_dynamic_schema Examples.empty_store
                (Crud.schema_id (Crud.mk_create 999 [])) = None) by reflexivity.
  split; [exact h|].
  exact (proj1 (create_for_missing_schema_answers_400 Examples.no_text
                  Examples.empty_store (Crud.mk_create 999 []) h)).
Defined.

(** ** Search criteria *)

(** C3 (the code at the failing input). For every query and every object
    without an [and] key whose [or] key holds at least one predicate -- so
    for [{"or": [A, B]}] with any [A] and [B] -- applying the criteria raises
    [NameError: name 'db' is not defined]: no union is computed. *)
Theorem or_criteria_raise_NameError
    (query : Query) (d : dict) (subs sub : value) (rest : list value) :
  dict_contains "and" d = false ->
  dict_get "or" d = Some subs ->
  PyOps.py_iter subs = Ok (sub :: rest) ->
  apply_search_criteria query (VDict d) = Raise (NameError "db").
Proof.
  intros Hand Hor Hiter.
  unfold apply_search_criteria. generalize (depth (VDict d)). intros fuel.
  cbn [apply_search_criteria_rec]. unfold PyOps.py_in at 1. rewrite Hand. cbn [bind].
  unfold PyOps.py_in at 1.
  assert (Hc : dict_contains "or" d = true) by (apply dict_contains_true; eauto).
  rewrite Hc. cbn [bind]. unfold PyOps.py_getitem. rewrite Hor. cbn [bind].
  rewrite Hiter. reflexivity.
Qed.

(** The disjunction of the endpoint's documentation: name is Hong or Kim. *)
Lemma or_criteria_raise_NameError_witness :
  let A := VDict [("field_path", VStr "name"); ("operator", VStr "eq");
                  ("value", VStr "Hong")] in
  let B := VDict [("field_path", VStr "name"); ("operator", VStr "eq");
                  ("value", VStr "Kim")] in
  let d := [("or", VList [A; B])] in
  dict_contains "and" d = false
  /\ dict_get "or" d = Some (VList [A; B])
  /\ PyOps.py_iter (VList [A; B]) = Ok [A; B]
  /\ apply_search_criteria (query_DynamicData Examples.store) (VDict d)
     = Raise (NameError "db").
Proof.
  intros A B d.
  assert (h1 : dict_contains "and" d = false) by reflexivity.
  assert (h2 : dict_get "or" d = Some (VList [A; B])) by reflexivity.
  assert (h3 : PyOps.py_iter (VList [A; B]) = Ok [A; B]) by reflexivity.
  repeat (split; [assumption|]).
  exact (or_criteria_raise_NameError _ d (VList [A; B]) A [B] h1 h2 h3).
Defined.

Lemma all_in_dict (ks : list string) (d : dict) :
  all_in ks (VDict d) = Ok (forallb (fun k => dict_contains k d) ks).
Proof.
  induction ks as [|k ks IH]; simpl; [reflexivity|].
  destruct (dict_contains k d); simpl; [exact IH|reflexivity].
Qed.

Lemma operator_branch_None (operator : value) :
  value_in operator recognised_operators = false -> operator_branch operator = None.
Proof.
  unfold value_in, value_is, operator_branch, recognised_operators.
  destruct operator; simpl; auto.
  repeat match goal with
         | |- context [String.eqb ?a ?b] => destruct (String.eqb a b); simpl
         end; intros H; try discriminate; reflexivity.
Qed.

(** C7 (amended). For every object node that has neither an [and] nor an
    [or] key: if it lacks one of the keys [field_path], [operator], [value],
    or its [operator] is not one of the nine operators, applying it returns
    the query unchanged -- every record of the corpus still matches -- and
    raises nothing. *)
Theorem unrecognised_leaf_is_a_no_op (query : Query) (d : dict) :
  dict_contains "and" d = false ->
  dict_contains "or" d = false ->
  complete_leaf (VDict d) = false
  \/ (exists operator, dict_get "operator" d = Some operator
                       /\ value_in operator recognised_operators = false) ->
  apply_search_criteria query (VDict d) = Ok query.
Proof.
  intros Hand Hor H.
  unfold apply_search_criteria. generalize (depth (VDict d)). intros fuel.
  cbn [apply_search_criteria_rec]. unfold PyOps.py_in at 1. rewrite Hand.
  cbn [bind]. unfold PyOps.py_in at 1. rewrite Hor. cbn [bind].
  rewrite all_in_dict. cbn [bind forallb].
  destruct (dict_contains "field_path" d) eqn:Hf; [|reflexivity].
  destruct (dict_contains "operator" d) eqn:Ho; [|reflexivity].
  destruct (dict_contains "value" d) eqn:Hv; [|reflexivity].
  cbn [andb].
  destruct H as [H|[operator [Hop Hun]]].
  - unfold complete_leaf in H. rewrite Hf, Ho, Hv in H. discriminate.
  - apply dict_contains_true in Hf. destruct Hf as [fp Hf].
    apply dict_contains_true in Hv. destruct Hv as [v Hv].
    unfold PyOps.py_getitem. rewrite Hf, Hop, Hv. cbn [bind].
    now rewrite (operator_branch_None _ Hun).
Qed.

(** A leaf of the test suite with the operator ["like"]. *)
Lemma unrecognised_leaf_is_a_no_op_witness :
  let d := [("field_path", VStr "age"); ("operator", VStr "like"); ("value", VInt 25)] in
  let query := query_DynamicData Examples.store in
  dict_contains "and" d = false
  /\ dict_contains "or" d = false
  /\ (complete_leaf (VDict d) = false
      \/ (exists operator, dict_get "operator" d = Some operator
                           /\ value_in operator recognised_operators = false))
  /\ apply_search_criteria query (VDict d) = Ok query.
Proof.
  intros d query.
  assert (h1 : dict_contains "and" d = false) by reflexivity.
  assert (h2 : dict_contains "or" d = false) by reflexivity.
  assert (h3 : complete_leaf (VDict d) = false
               \/ (exists operator, dict_get "operator" d = Some operator
                                    /\ value_in operator recognised_operators = false))
    by (right; exists (VStr "like"); split; reflexivity).
  repeat (split; [assumption|]).
  exact (unrecognised_leaf_is_a_no_op query d h1 h2 h3).
Defined.

(** C7, as stated, fails: the node [{"and": 5}] is neither a well-formed
    composite nor a leaf with the three keys, and applying it raises
    [TypeError] instead of returning the query. *)
Lemma malformed_composite_raises :
  let node := VDict [("and", VInt 5)] in
  well_formed_composite node = false
  /\ complete_leaf node = false
  /\ apply_search_criteria (query_DynamicData Examples.store) node
     = Raise (TypeError "object is not iterable").
Proof. repeat split. Qed.

(** ** Conjunction *)

Import PyOps.

Lemma depth_dict_get (k : string) (d : dict) (v : value) :
  dict_get k d = Some v -> (depth v < depth (VDict d))%nat.
Proof.
  intros H. apply dict_get_In in H. simpl. apply Nat.lt_succ_r.
  induction d as [|[k' v'] d IH]; [destruct H|].
  simpl. destruct H as [E|H]; [inv E; lia|].
  specialize (IH H). lia.
Qed.

Lemma depth_py_iter (subs : value) (l : list value) (sub : value) :
  py_iter subs = Ok l -> In sub l -> (depth sub <= depth subs)%nat.
Proof.
  destruct subs; simpl; intros H Hin; try discriminate; inv H.
  - apply in_map_iff in Hin. destruct Hin as [c [<- _]]. simpl. lia.
  - induction l as [|x l IH]; [destruct Hin|].
    simpl in *. destruct Hin as [->|Hin]; [lia|]. specialize (IH Hin). lia.
  - apply in_map_iff in Hin. destruct Hin as [kv [<- _]]. simpl. lia.
Qed.

Lemma depth_sub_criteria (criteria subs : value) (k : string) (l : list value)
    (sub : value) :
  py_getitem criteria k = Ok subs -> py_iter subs = Ok l -> In sub l ->
  (depth sub < depth criteria)%nat.
Proof.
  intros Hg Hi Hin. pose proof (depth_py_iter _ _ _ Hi Hin) as Hle.
  destruct criteria; simpl in Hg; try discriminate.
  destruct (dict_get k d) as [v|] eqn:Hd; [|discriminate]. inv Hg.
  pose proof (depth_dict_get _ _ _ Hd). lia.
Qed.

Lemma for_each_ext {A S : Type} (f g : S -> A -> result S) (l : list A) :
  (forall x s, In x l -> f s x = g s x) ->
  forall s, for_each f l s = for_each g l s.
Proof.
  induction l as [|x l IH]; intros H s; simpl; [reflexivity|].
  rewrite H by (now left). destruct (g s x); simpl; [|reflexivity].
  apply IH. intros y s' Hy. apply H. now right.
Qed.

(** Beyond the depth of the criteria the fuel does not matter. *)
Lemma apply_search_criteria_fuel (fuel1 : nat) :
  forall (fuel2 : nat) (query : Query) (criteria : value),
  (depth criteria < fuel1)%nat -> (depth criteria < fuel2)%nat ->
  apply_search_criteria_rec fuel1 query criteria
  = apply_search_criteria_rec fuel2 query criteria.
Proof.
  induction fuel1 as [|fuel1 IH]; intros fuel2 query criteria H1 H2; [lia|].
  destruct fuel2 as [|fuel2]; [lia|]. cbn [apply_search_criteria_rec].
  destruct (py_in "and" criteria) as [[]|]; cbn [bind]; [|reflexivity|reflexivity].
  destruct (py_getitem criteria "and") as [subs|] eqn:Hg; cbn [bind]; [|reflexivity].
  destruct (py_iter subs) as [l|] eqn:Hi; cbn [bind]; [|reflexivity].
  apply for_each_ext. intros sub q Hin.
  pose proof (depth_sub_criteria _ _ _ _ _ Hg Hi Hin). apply IH; lia.
Qed.

Lemma apply_search_criteria_rec_enough (fuel : nat) (query : Query) (criteria : value) :
  (depth criteria < fuel)%nat ->
  apply_search_criteria_rec fuel query criteria = apply_search_criteria query criteria.
Proof.
  intros H. unfold apply_search_criteria. apply apply_search_criteria_fuel; lia.
Qed.

(** [apply_search_criteria] does not run out of fuel. *)
Lemma apply_search_criteria_total (fuel : nat) :
  forall (query : Query) (criteria : value),
  (depth criteria < fuel)%nat ->
  apply_search_criteria_rec fuel query criteria
  <> Raise (RuntimeError "maximum recursion depth exceeded").
Proof.
  induction fuel as [|fuel IH]; intros query criteria H; [lia|].
  cbn [apply_search_criteria_rec].
  destruct (py_in "and" criteria) as [[]|e] eqn:Hand; cbn [bind].
  - destruct (py_getitem criteria "and") as [subs|e] eqn:Hg; cbn [bind].
    + destruct (py_iter subs) as [l|e] eqn:Hi; cbn [bind].
      * assert (Hl : forall sub, In sub l -> (depth sub < fuel)%nat).
        { intros sub Hin. pose proof (depth_sub_criteria _ _ _ _ _ Hg Hi Hin). lia. }
        clear Hg Hi. revert query. induction l as [|sub l IHl]; intros query; simpl.
        -- discriminate.
        -- destruct (apply_search_criteria_rec fuel query sub) as [q'|e] eqn:Hs; simpl.
           ++ apply IHl. intros x Hx. apply Hl. now right.
           ++ rewrite <- Hs. apply IH. apply Hl. now left.
      * destruct subs; simpl in Hi; inv Hi; discriminate.
    + destruct criteria; simpl in Hg; try (inv Hg; discriminate).
      destruct (dict_get "and" d); inv Hg. discriminate.
  - intros Hx.
    destruct criteria; simpl in Hand, Hx; try discriminate;
      unfold bind in Hx; repeat break_in Hx; try discriminate;
      repeat match goal with
             | H : (if ?x then _ else _) = _ |- _ => destruct x; try discriminate H
             | H : match ?x with _ => _ end = _ |- _ => destruct x; try discriminate H
             | H : py_iter ?a = Raise _ |- _ => destruct a; simpl in H; try discriminate H
             end;
      repeat match goal with
             | H : Raise _ = Raise _ |- _ => inv H
             end; try discriminate.
  - destruct criteria; simpl in Hand; inv Hand; discriminate.
Qed.

Lemma extend_nil (q : Query) : extend q [] = q.
Proof. destruct q. unfold extend. simpl. now rewrite app_nil_r. Qed.

Lemma extend_extend (q : Query) (ws ws' : list clause) :
  extend (extend q ws) ws' = extend q (ws ++ ws')%list.
Proof. unfold extend. simpl. now rewrite app_assoc. Qed.

(** Applying criteria adds conditions that the criteria alone determine. *)
Lemma apply_search_criteria_rec_where (fuel : nat) :
  forall (query query' : Query) (criteria : value),
  apply_search_criteria_rec fuel query criteria = Ok query' ->
  exists ws, forall q, apply_search_criteria_rec fuel q criteria = Ok (extend q ws).
Proof.
  induction fuel as [|fuel IH]; intros query query' criteria H; [discriminate|].
  cbn [apply_search_criteria_rec] in *.
  destruct (py_in "and" criteria) as [[]|]; cbn [bind] in *; [| |discriminate].
  - destruct (py_getitem criteria "and") as [subs|]; cbn [bind] in *; [|discriminate].
    destruct (py_iter subs) as [l|]; cbn [bind] in *; [|discriminate].
    revert query query' H. induction l as [|sub l IHl]; intros query query' H; simpl in *.
    + exists []. intros q. now rewrite extend_nil.
    + destruct (apply_search_criteria_rec fuel query sub) as [q1|] eqn:Hs;
        simpl in H; [|discriminate].
      destruct (IH _ _ _ Hs) as [ws Hws]. destruct (IHl _ _ H) as [ws' Hws'].
      exists (ws ++ ws')%list. intros q. rewrite Hws. simpl. rewrite Hws'.
      now rewrite extend_extend.
  - destruct (py_in "or" criteria) as [[]|]; cbn [bind] in *; [| |discriminate].
    + destruct (py_getitem criteria "or") as [subs|]; cbn [bind] in *; [|discriminate].
      destruct (py_iter subs) as [[|x l]|]; cbn [bind] in *; try discriminate.
      exists [Or_ []]. reflexivity.
    + destruct (all_in _ criteria) as [[]|]; cbn [bind] in *; [| |discriminate].
      * destruct (py_getitem criteria "field_path"); cbn [bind] in *; [|discriminate].
        destruct (py_getitem criteria "operator"); cbn [bind] in *; [|discriminate].
        destruct (py_getitem criteria "value"); cbn [bind] in *; [|discriminate].
        destruct (operator_branch a0).
        -- eexists [_]. reflexivity.
        -- exists []. intros q. now rewrite extend_nil.
      * exists []. intros q. now rewrite extend_nil.
Qed.

Lemma apply_search_criteria_where (query query' : Query) (criteria : value) :
  apply_search_criteria query criteria = Ok query' ->
  exists ws, forall q, apply_search_criteria q criteria = Ok (extend q ws).
Proof. apply apply_search_criteria_rec_where. Qed.

Lemma all_extend (json_compare : value -> sqltype -> sqlop -> value -> dict -> bool)
    (q : Query) (ws : list clause) (r : DynamicData.row) :
  In r (all_ json_compare (extend q ws))
  <-> In r (all_ json_compare q) /\ forallb (fun c => holds json_compare c r) ws = true.
Proof.
  unfold all_, extend. simpl. rewrite !filter_In, forallb_app, andb_true_iff. tauto.
Qed.

(** Conjunction (the [and] half of C3). When [A] and [B] can each be applied
    to a query, so can [{"and": [A, B]}], and the records it selects are
    exactly those selected by [A] that are also selected by [B]. *)
Theorem and_criteria_intersect
    (json_compare : value -> sqltype -> sqlop -> value -> dict -> bool)
    (query qa qb : Query) (A B : value) :
  apply_search_criteria query A = Ok qa ->
  apply_search_criteria query B = Ok qb ->
  exists qab,
    apply_search_criteria query (VDict [("and", VList [A; B])]) = Ok qab
    /\ forall r, In r (all_ json_compare qab)
                 <-> In r (all_ json_compare qa) /\ In r (all_ json_compare qb).
Proof.
  intros HA HB.
  destruct (apply_search_criteria_where _ _ _ HA) as [wa Hwa].
  destruct (apply_search_criteria_where _ _ _ HB) as [wb Hwb].
  rewrite Hwa in HA. inv HA. rewrite Hwb in HB. inv HB.
  exists (extend (extend query wa) wb). split.
  - unfold apply_search_criteria at 1. cbn [apply_search_criteria_rec].
    change (py_in "and" (VDict [("and", VList [A; B])])) with (@Ok bool true).
    cbn [bind]. change (py_getitem (VDict [("and", VList [A; B])]) "and")
      with (Ok (VList [A; B])).
    cbn [bind py_iter for_each].
    rewrite apply_search_criteria_rec_enough by (simpl; lia).
    rewrite Hwa. cbn [bind].
    rewrite apply_search_criteria_rec_enough by (simpl; lia).
    rewrite Hwb. reflexivity.
  - intros r. rewrite !all_extend. tauto.
Qed.

(** The range search of the test suite: ages from 25 to 30. *)
Lemma and_criteria_intersect_witness :
  let A := VDict [("field_path", VStr "age"); ("operator", VStr "gte"); ("value", VInt 25)] in
  let B := VDict [("field_path", VStr "age"); ("operator", VStr "lte"); ("value", VInt 30)] in
  let query := query_DynamicData Examples.store in
  let qa := filter_ query (JsonCompare (VStr "age") Integer Ge (VInt 25)) in
  let qb := filter_ query (JsonCompare (VStr "age") Integer Le (VInt 30)) in
  apply_search_criteria query A = Ok qa
  /\ apply_search_criteria query B = Ok qb
  /\ exists qab,
       apply_search_criteria query (VDict [("and", VList [A; B])]) = Ok qab
       /\ forall r, In r (all_ Examples.integer_engine qab)
                    <-> In r (all_ Examples.integer_engine qa)
                        /\ In r (all_ Examples.integer_engine qb).
Proof.
  intros A B query qa qb.
  assert (h1 : apply_search_criteria query A = Ok qa) by reflexivity.
  assert (h2 : apply_search_criteria query B = Ok qb) by reflexivity.
  repeat (split; [assumption|]).
  exact (and_criteria_intersect Examples.integer_engine query qa qb A B h1 h2).
Defined.



(* ================================================================== *)
(** * Further properties of the validator                              *)
(* ================================================================== *)

(** ** What the schema validator checks *)

Lemma validate_field_definitions_well_described (fs : list (string * dict)) :
  match validate_field_definitions fs with
  | Ok _ => forallb (fun nf => well_described (snd nf)) fs = true
  | Raise e => forallb (fun nf => well_described (snd nf)) fs = false
               /\ exists message, e = ValueError message
  end.
Proof.
  induction fs as [|[field_name field_def] fs IH]; [reflexivity|].
  cbn [validate_field_definitions forallb snd]. unfold well_described at 1 3.
  destruct (dict_get "type" field_def) as [t|]; [|split; eauto].
  destruct (value_in t valid_types); cbn [negb andb]; [|split; eauto].
  destruct (value_is t "array"); cbn [negb andb orb].
  - destruct (dict_contains "items" field_def); cbn [negb andb]; [|split; eauto].
    destruct (value_is t "object"); cbn [negb andb orb].
    + destruct (dict_contains "properties" field_def); cbn [negb andb]; [|split; eauto].
      exact IH.
    + exact IH.
  - destruct (value_is t "object"); cbn [negb andb orb].
    + destruct (dict_contains "properties" field_def); cbn [negb andb]; [|split; eauto].
      exact IH.
    + exact IH.
Qed.

(** A stored definition is valid exactly when every field description has a
    [type] among the eight names, an [items] entry if the type is [array]
    and a [properties] entry if it is [object] -- nothing else of a
    description is looked at.  Constructing a [SchemaDefinition] from a
    valid definition returns it; from any other it raises pydantic's
    [ValidationError]. *)
Theorem valid_schema_iff_well_described (s : SchemaDefinition) :
  valid_schema s = forallb (fun nf => well_described (snd nf)) (fields s)
  /\ match SchemaDefinition_init s with
     | Ok s' => s' = s /\ valid_schema s = true
     | Raise e =>
         valid_schema s = false
         /\ exists errs, e = ValidationError "SchemaDefinition" errs
     end.
Proof.
  pose proof (validate_field_definitions_well_described (fields s)) as H.
  unfold valid_schema, SchemaDefinition_init.
  destruct (validate_field_definitions (fields s)) as [u|e].
  - rewrite H. auto.
  - destruct H as [H [message ->]]. rewrite H. eauto.
Qed.

(** ** Schemas from which no model can be built *)

Lemma get_pydantic_type_Raise (t : value) (e : exn) :
  get_pydantic_type t = Raise e -> is_ValueError e = false.
Proof.
  unfold get_pydantic_type. destruct t; try discriminate.
  - destruct (find _ type_mapping) as [[k ty]|]; discriminate.
  - intros H. now inv H.
  - intros H. now inv H.
Qed.

Lemma field_definition_of_Raise (field_def : dict) (e : exn) :
  field_definition_of field_def = Raise e -> is_ValueError e = false.
Proof.
  unfold field_definition_of.
  destruct (dict_get "type" field_def) as [t|]; [|intros H; now inv H].
  destruct (value_in t _).
  - destruct (get_pydantic_type t) eqn:E; simpl; [discriminate|].
    intros H. inv H. eapply get_pydantic_type_Raise; eauto.
  - destruct (value_is t "array").
    + destruct (dict_get "items" field_def) as [items|]; [|intros H; now inv H].
      destruct items; try (intros H; now inv H).
      destruct (get_pydantic_type _) eqn:E; simpl; [discriminate|].
      intros H. inv H. eapply get_pydantic_type_Raise; eauto.
    + destruct (value_is t "object"); discriminate.
Qed.

Lemma field_definitions_of_Raise (fs : list (string * dict)) (e : exn) :
  field_definitions_of fs = Raise e -> is_ValueError e = false.
Proof.
  induction fs as [|[field_name field_def] fs IH]; simpl; [discriminate|].
  destruct (field_definition_of field_def) as [o|e'] eqn:E; simpl.
  - destruct (field_definitions_of fs) as [defs|e'']; simpl.
    + destruct o; discriminate.
    + intros H. inv H. now apply IH.
  - intros H. inv H. eapply field_definition_of_Raise; eauto.
Qed.

Lemma infer_fields_Raise (defs : list (string * field_definition)) (e : exn) :
  infer_fields defs = Raise e -> is_ValueError e = false.
Proof.
  induction defs as [|[field_name fd] defs IH]; simpl; [discriminate|].
  unfold infer_field at 1.
  destruct (has_validators _); simpl.
  - destruct (infer_fields defs) as [fs|e']; simpl; [discriminate|].
    intros H. inv H. now apply IH.
  - intros H. now inv H.
Qed.

(** Whatever building the model raises, it is not a [ValueError]: no
    [except ValueError] clause of a path operation catches it. *)
Lemma create_model_from_schema_Raise (s : SchemaDefinition) (e : exn) :
  create_model_from_schema s = Raise e -> is_ValueError e = false.
Proof.
  unfold create_model_from_schema, create_model.
  destruct (field_definitions_of (fields s)) as [defs|e'] eqn:E; simpl.
  - destruct (infer_fields defs) as [fs|e''] eqn:E'; simpl; [discriminate|].
    intros H. inv H. eapply infer_fields_Raise; eauto.
  - intros H. inv H. eapply field_definitions_of_Raise; eauto.
Qed.

Lemma field_definitions_of_In (fs : list (string * dict)) :
  forall (defs : list (string * field_definition)) (field_name : string) (field_def : dict),
  field_definitions_of fs = Ok defs ->
  In (field_name, field_def) fs ->
  exists o, field_definition_of field_def = Ok o
            /\ forall fd, o = Some fd -> In (field_name, fd) defs.
Proof.
  induction fs as [|[n d] fs IH]; simpl; intros defs field_name field_def H Hin; [tauto|].
  destruct (field_definition_of d) as [o|] eqn:E; simpl in H; [|discriminate].
  destruct (field_definitions_of fs) as [defs'|] eqn:E'; simpl in H; [|discriminate].
  destruct Hin as [Heq|Hin].
  - inv Heq. exists o. split; [exact E|]. intros fd ->. inv H. now left.
  - destruct (IH defs' _ _ eq_refl Hin) as [o' [Ho' Hd]].
    exists o'. split; [exact Ho'|]. intros fd Hfd.
    destruct o; inv H; [right|]; now apply Hd.
Qed.

Lemma infer_fields_In (defs : list (string * field_definition)) :
  forall (ms : list ModelField) (field_name : string) (fd : field_definition),
  infer_fields defs = Ok ms -> In (field_name, fd) defs ->
  exists m, infer_field field_name fd = Ok m /\ In m ms.
Proof.
  induction defs as [|[n d] defs IH]; simpl; intros ms field_name fd H Hin; [tauto|].
  destruct (infer_field n d) as [m|] eqn:E; simpl in H; [|discriminate].
  destruct (infer_fields defs) as [ms'|] eqn:E'; simpl in H; [|discriminate].
  inv H. destruct Hin as [Heq|Hin].
  - inv Heq. exists m. split; [exact E | now left].
  - destruct (IH ms' _ _ eq_refl Hin) as [m' [Hm' Hin']]. exists m'. split; [exact Hm' | now right].
Qed.

(** A field the model cannot hold keeps the whole model from being built. *)
Lemma unbuildable_field (cv : Conversions) (s : SchemaDefinition) (D : dict)
    (field_name : string) (field_def : dict) :
  In (field_name, field_def) (fields s) ->
  (forall m, model_field_of field_name field_def <> Ok m) ->
  (forall o, field_definition_of field_def = Ok o -> o <> None) ->
  exists e, validate_data cv s D = Raise e /\ is_ValueError e = false.
Proof.
  intros Hin Hno Hsome. unfold validate_data.
  destruct (create_model_from_schema s) as [m|e] eqn:Hc; simpl.
  - exfalso. unfold create_model_from_schema, create_model in Hc.
    destruct (field_definitions_of (fields s)) as [defs|] eqn:Hd; simpl in Hc; [|discriminate].
    destruct (infer_fields defs) as [ms|] eqn:Hi; simpl in Hc; [|discriminate].
    destruct (field_definitions_of_In _ _ _ _ Hd Hin) as [o [Ho Hdefs]].
    destruct o as [fd|]; [|now apply (Hsome None)].
    destruct (infer_fields_In _ _ _ _ Hi (Hdefs fd eq_refl)) as [m' [Hm' _]].
    apply (Hno m'). unfold model_field_of. rewrite Ho. exact Hm'.
  - exists e. split; [reflexivity|]. eapply create_model_from_schema_Raise; eauto.
Qed.



(** An array field whose [items] entry is not an object -- the name of a
    type, say -- passes the schema validator, which only asks for the key;
    [create_model_from_schema] then calls [.get] on it and raises, whatever
    the document, and what is raised is no [ValueError]. *)
Theorem array_items_must_be_an_object
    (cv : Conversions) (s : SchemaDefinition) (D : dict)
    (field_name : string) (field_def : dict) (items : value) :
  In (field_name, field_def) (fields s) ->
  dict_get "type" field_def = Some (VStr "array") ->
  dict_get "items" field_def = Some items ->
  is_object items = false ->
  well_described field_def = true
  /\ exists e, validate_data cv s D = Raise e /\ is_ValueError e = false.
Proof.
  intros Hin Ht Hi Hobj. split.
  - unfold well_described, dict_contains. rewrite Ht, Hi. reflexivity.
  - apply (unbuildable_field cv s D field_name field_def Hin).
    + intros m Hm. model_field_of_type Hm Ht. rewrite Hi in Hm.
      destruct items; try discriminate.
    + intros o Ho. unfold field_definition_of in Ho. rewrite Ht in Ho.
      unfold value_in, value_is in Ho. simpl in Ho. rewrite Hi in Ho.
      destruct items; discriminate.
Qed.

(** An array of strings described with [items] set to ["string"]. *)
Lemma array_items_must_be_an_object_witness :
  let tags := [("type", VStr "array"); ("items", VStr "string")] in
  In ("tags", tags) (fields Examples.tags_schema)
  /\ valid_schema Examples.tags_schema = true
  /\ exists e, validate_data Examples.no_text Examples.tags_schema
                 [("tags", VList [VStr "a"])] = Raise e
               /\ is_ValueError e = false.
Proof.
  intros tags.
  assert (h1 : In ("tags", tags) (fields Examples.tags_schema)) by (simpl; auto).
  assert (h2 : dict_get "type" tags = Some (VStr "array")) by reflexivity.
  assert (h3 : dict_get "items" tags = Some (VStr "string")) by reflexivity.
  assert (h4 : is_object (VStr "string") = false) by reflexivity.
  split; [exact h1|]. split; [reflexivity|].
  exact (proj2 (array_items_must_be_an_object Examples.no_text _ _ _ _ _ h1 h2 h3 h4)).
Defined.

(** ** The types of validated values *)



Section Types.
Context (cv : Conversions).






End Types.





(** ** [null] for a required field *)




(** ** What of a document is read *)






(* ================================================================== *)
(** * Further properties of the record store                           *)
(* ================================================================== *)

(** ** Creating a record *)

Lemma id_below_next_id (rows : list DynamicData.row) (x : Z) :
  In x (map DynamicData.id rows) -> (x < Crud.next_id rows)%Z.
Proof.
  unfold Crud.next_id. induction rows as [|r rows IH]; cbn [map fold_right In]; [tauto|].
  intros [<-|Hin]; [lia|]. specialize (IH Hin). lia.
Qed.

Lemma next_id_fresh (rows : list DynamicData.row) :
  ~ In (Crud.next_id rows) (map DynamicData.id rows).
Proof.
  intros H. apply id_below_next_id in H. lia.
Qed.

Lemma filter_none {A} (p : A -> bool) (l : list A) :
  (forall x, In x l -> p x = false) -> filter p l = [].
Proof.
  induction l as [|a l IH]; simpl; intros H; [reflexivity|].
  rewrite (H a (or_introl eq_refl)). apply IH. intros x Hx. apply H. now right.
Qed.

(** A row with a fresh id, put at the end of the table, is the row its id
    selects. *)
Lemma get_appended (db : Session) (row : DynamicData.row) :
  ~ In (DynamicData.id row) (map DynamicData.id (dynamic_data db)) ->
  DynamicData.is_deleted row = false ->
  Crud.get_dynamic_data
    (Crud.with_dynamic_data db (dynamic_data db ++ [row])%list) (DynamicData.id row) false
  = Some row.
Proof.
  intros Hfresh Hactive.
  unfold Crud.get_dynamic_data, Crud.with_dynamic_data, DynamicData_has_is_deleted.
  cbn [dynamic_data negb]. rewrite filter_app.
  rewrite (filter_none (fun r => Z.eqb (DynamicData.id r) (DynamicData.id row))
                       (dynamic_data db)).
  - cbn [app filter]. rewrite Z.eqb_refl. cbn [filter]. rewrite Hactive. reflexivity.
  - intros x Hx. apply Z.eqb_neq. intros Heq. apply Hfresh. rewrite <- Heq.
    now apply in_map.
Qed.

(** [POST /dynamic-data/] either stores exactly one record or changes
    nothing.  The record it stores is put after the records there were,
    under an id none of them has; it is not deleted, belongs to the schema
    of the request and holds the document [validate_data] returns for the
    stored definition of that schema; and it is what [GET
    /dynamic-data/{id}] then answers for its id. *)
Theorem create_stores_one_validated_record
    (cv : Conversions) (db : Session) (data_create : Crud.DynamicDataCreate) :
  match create_dynamic_data_generic cv db data_create with
  | (db', Returned row) =>
      dynamic_data db' = (dynamic_data db ++ [row])%list
      /\ dynamic_schemas db' = dynamic_schemas db
      /\ ~ In (DynamicData.id row) (map DynamicData.id (dynamic_data db))
      /\ DynamicData.schema_id row = Crud.schema_id data_create
      /\ DynamicData.is_deleted row = false
      /\ (exists schema,
            Crud.get_dynamic_schema db (Crud.schema_id data_create) = Some schema
            /\ validate_data cv (DynamicSchema.schema_definition schema)
                             (Crud.data data_create)
               = Ok (DynamicData.data row))
      /\ get_dynamic_data db' (DynamicData.id row) = Returned row
  | (db', _) => db' = db
  end.
Proof.
  unfold create_dynamic_data_generic, Crud.create_dynamic_data.
  destruct (Crud.get_dynamic_schema db (Crud.schema_id data_create)) as [schema|];
    [|reflexivity].
  unfold SchemaDefinition_init.
  destruct (validate_field_definitions (fields (DynamicSchema.schema_definition schema)))
    as [u|e].
  - destruct (validate_data cv (DynamicSchema.schema_definition schema)
                            (Crud.data data_create)) as [V|e] eqn:Hv.
    + simpl. repeat split; try reflexivity.
      * apply next_id_fresh.
      * exists schema. split; [reflexivity|exact Hv].
      * unfold get_dynamic_data.
        match goal with
        | |- context [Crud.get_dynamic_data ?d ?i false] =>
            assert (Hget : Crud.get_dynamic_data d i false
                           = Some (DynamicData.mk (Crud.next_id (dynamic_data db))
                                     (Crud.schema_id data_create) V false))
        end.
        { apply (get_appended db (DynamicData.mk (Crud.next_id (dynamic_data db))
                                    (Crud.schema_id data_create) V false));
            [apply next_id_fresh | reflexivity]. }
        rewrite Hget. reflexivity.
    + destruct (is_ValueError e); reflexivity.
  - destruct e; simpl; reflexivity.
Qed.


(** ** Looking a record up *)

Lemma first_In {A} (l : list A) (x : A) : Crud.first l = Some x -> In x l.
Proof. destruct l; simpl; intros H; inv H. now left. Qed.

Lemma get_dynamic_data_Some (db : Session) (data_id : Z) (r : DynamicData.row) :
  Crud.get_dynamic_data db data_id false = Some r ->
  In r (dynamic_data db) /\ DynamicData.id r = data_id /\ DynamicData.is_deleted r = false.
Proof.
  unfold Crud.get_dynamic_data, DynamicData_has_is_deleted. cbn [negb].
  intros H. apply first_In in H. apply filter_In in H. destruct H as [H Hd].
  apply filter_In in H. destruct H as [Hin Hid].
  repeat split; [exact Hin | now apply Z.eqb_eq | now apply Bool.eqb_prop].
Qed.

Lemma get_dynamic_data_active (db : Session) (r : DynamicData.row) :
  NoDup (map DynamicData.id (dynamic_data db)) ->
  In r (dynamic_data db) -> DynamicData.is_deleted r = false ->
  Crud.get_dynamic_data db (DynamicData.id r) false = Some r.
Proof.
  intros Hnd Hin Hd. unfold Crud.get_dynamic_data, DynamicData_has_is_deleted. cbn [negb].
  rewrite (filter_by_id _ _ Hnd Hin). cbn [filter]. rewrite Hd. reflexivity.
Qed.

(** The row an update writes is the one row with that id. *)
Lemma filter_updated (i : Z) (f : DynamicData.row -> DynamicData.row)
    (rows : list DynamicData.row) (r : DynamicData.row) :
  NoDup (map DynamicData.id rows) -> In r rows -> DynamicData.id r = i ->
  DynamicData.id (f r) = i ->
  filter (fun x => Z.eqb (DynamicData.id x) i) (Crud.update_row i f rows) = [f r].
Proof.
  intros Hnd Hin Hid Hfid. induction rows as [|x rows IH]; [destruct Hin|].
  cbn [Crud.update_row]. inversion Hnd as [|? ? Hnotin Hnd']; subst.
  destruct (Z.eqb_spec (DynamicData.id x) (DynamicData.id r)) as [Heq|Hne].
  - assert (x = r) as ->.
    { destruct Hin as [->|Hin]; [reflexivity|]. exfalso. apply Hnotin.
      rewrite Heq. now apply in_map. }
    cbn [filter]. rewrite Hfid, Z.eqb_refl. f_equal.
    apply filter_none. intros y Hy. apply Z.eqb_neq. intros Hyr. apply Hnotin.
    rewrite <- Hyr. now apply in_map.
  - cbn [filter]. apply Z.eqb_neq in Hne. rewrite Hne.
    destruct Hin as [->|Hin]; [rewrite Z.eqb_refl in Hne; discriminate|].
    now apply IH.
Qed.

(** A write to the row of one id leaves the rows another id selects as they
    were. *)
Lemma filter_update_other (i j : Z) (f : DynamicData.row -> DynamicData.row)
    (rows : list DynamicData.row) :
  i <> j -> (forall x, DynamicData.id (f x) = DynamicData.id x) ->
  filter (fun x => Z.eqb (DynamicData.id x) i) (Crud.update_row j f rows)
  = filter (fun x => Z.eqb (DynamicData.id x) i) rows.
Proof.
  intros Hij Hf. induction rows as [|x rows IH]; [reflexivity|].
  cbn [Crud.update_row]. destruct (Z.eqb_spec (DynamicData.id x) j) as [Heq|Hne].
  - cbn [filter]. rewrite Hf, Heq.
    destruct (Z.eqb_spec j i); [congruence|reflexivity].
  - cbn [filter]. rewrite IH. reflexivity.
Qed.

Lemma filter_delete_other (i j : Z) (rows : list DynamicData.row) :
  i <> j ->
  filter (fun x => Z.eqb (DynamicData.id x) i) (Crud.delete_row j rows)
  = filter (fun x => Z.eqb (DynamicData.id x) i) rows.
Proof.
  intros Hij. induction rows as [|x rows IH]; [reflexivity|].
  cbn [Crud.delete_row]. destruct (Z.eqb_spec (DynamicData.id x) j) as [Heq|Hne].
  - cbn [filter]. rewrite Heq. destruct (Z.eqb_spec j i); [congruence|reflexivity].
  - cbn [filter]. rewrite IH. reflexivity.
Qed.

Lemma filter_deleted (i : Z) (rows : list DynamicData.row) :
  NoDup (map DynamicData.id rows) ->
  filter (fun x => Z.eqb (DynamicData.id x) i) (Crud.delete_row i rows) = [].
Proof.
  intros Hnd. induction rows as [|x rows IH]; [reflexivity|].
  cbn [Crud.delete_row]. inversion Hnd as [|? ? Hnotin Hnd']; subst.
  destruct (Z.eqb_spec (DynamicData.id x) i) as [Heq|Hne].
  - apply filter_none. intros y Hy. apply Z.eqb_neq. intros Hyi. apply Hnotin.
    rewrite Heq, <- Hyi. now apply in_map.
  - cbn [filter]. apply Z.eqb_neq in Hne. rewrite Hne. now apply IH.
Qed.

(** ** [d.update(new)] *)

Lemma dict_get_set (k k' : string) (v : value) (d : dict) :
  dict_get k (dict_set k' v d) = if String.eqb k k' then Some v else dict_get k d.
Proof.
  induction d as [|[k0 v0] d IH]; simpl.
  - reflexivity.
  - destruct (String.eqb_spec k' k0) as [->|Hne]; simpl.
    + destruct (String.eqb k k0); reflexivity.
    + rewrite IH. destruct (String.eqb_spec k k0) as [->|Hne'].
      * destruct (String.eqb_spec k0 k'); [congruence|reflexivity].
      * reflexivity.
Qed.

Lemma dict_update_contains (k : string) (new : dict) :
  forall d, dict_contains k (dict_update d new) = dict_contains k d || dict_contains k new.
Proof.
  unfold dict_update.
  induction new as [|[k' v'] new IH]; intros d; cbn [fold_left fst snd].
  - unfold dict_contains at 3. simpl. now rewrite orb_false_r.
  - rewrite IH. unfold dict_contains. rewrite dict_get_set. simpl.
    destruct (String.eqb k k'); [now rewrite orb_true_r|reflexivity].
Qed.

Lemma dict_update_nil (d : dict) : dict_update d [] = d.
Proof. reflexivity. Qed.

(** ** Replacing and patching a record *)

Lemma check_required_fields_Ok (fs : list (string * dict)) (data : dict) :
  (forall field_name field_def, In (field_name, field_def) fs ->
     is_required field_def = true -> dict_contains field_name data = true) ->
  check_required_fields fs data = Ok tt.
Proof.
  induction fs as [|[n d] fs IH]; intros H; [reflexivity|].
  cbn [check_required_fields].
  fold (is_required d).
  destruct (is_required d) eqn:Hr; cbn [andb].
  - rewrite (H n d (or_introl eq_refl) Hr). simpl. apply IH.
    intros f fd Hin. apply H. now right.
  - apply IH. intros f fd Hin. apply H. now right.
Qed.


Lemma SchemaDefinition_init_valid (s : SchemaDefinition) :
  valid_schema s = true -> SchemaDefinition_init s = Ok s.
Proof.
  unfold valid_schema, SchemaDefinition_init.
  destruct (validate_field_definitions (fields s)); [reflexivity|discriminate].
Qed.

Lemma SchemaDefinition_init_Ok (s s' : SchemaDefinition) :
  SchemaDefinition_init s = Ok s' -> s' = s /\ valid_schema s = true.
Proof.
  unfold valid_schema, SchemaDefinition_init.
  destruct (validate_field_definitions (fields s)) as [u|[]]; intros H; inv H. auto.
Qed.



(** A patch is the replacement by the merged document: when every required
    field of the schema is a key of the stored document or of the body,
    [PATCH /dynamic-data/{id}/partial] with a body does what [PUT
    /dynamic-data/{id}] does with the stored document overwritten by the
    body -- the same answer and the same store. *)
Theorem patch_is_put_of_the_merged_document
    (cv : Conversions) (db : Session) (data_id : Z) (data : dict) (r : DynamicData.row) :
  Crud.get_dynamic_data db data_id false = Some r ->
  (forall schema field_name field_def,
     Crud.get_dynamic_schema db (DynamicData.schema_id r) = Some schema ->
     In (field_name, field_def) (fields (DynamicSchema.schema_definition schema)) ->
     is_required field_def = true ->
     dict_contains field_name (DynamicData.data r) || dict_contains field_name data = true) ->
  partial_update_dynamic_data cv db data_id data
  = update_dynamic_data cv db data_id (dict_update (DynamicData.data r) data).
Proof.
  intros Hr Hreq. unfold partial_update_dynamic_data, update_dynamic_data. rewrite Hr.
  destruct (Crud.get_dynamic_schema db (DynamicData.schema_id r)) as [schema|] eqn:Hs;
    [|reflexivity].
  f_equal. unfold merged_and_validated, checked_and_validated.
  destruct (SchemaDefinition_init (DynamicSchema.schema_definition schema))
    as [schema_def|e] eqn:Hi; [|reflexivity].
  cbn [bind]. apply SchemaDefinition_init_Ok in Hi. destruct Hi as [-> _].
  rewrite check_required_fields_Ok; [reflexivity|].
  intros f fd Hin Hrf. rewrite dict_update_contains. eapply Hreq; eauto.
Qed.

(** Patching the note of the stored ticket. *)
Lemma patch_is_put_of_the_merged_document_witness :
  partial_update_dynamic_data Examples.no_text Examples.ticket_store 1
    [("note", VStr "done")]
  = update_dynamic_data Examples.no_text Examples.ticket_store 1
      [("status", VStr "open"); ("note", VStr "done")].
Proof.
  apply (patch_is_put_of_the_merged_document Examples.no_text Examples.ticket_store 1
           [("note", VStr "done")]
           (DynamicData.mk 1 1 [("status", VStr "open"); ("note", VStr "call back")] false)).
  - reflexivity.
  - intros schema field_name field_def Hs Hin Hreq. vm_compute in Hs. inv Hs.
    simpl in Hin. destruct Hin as [E|[E|[]]]; inv E; [reflexivity|discriminate].
Defined.

(** A successful update stores the document [validate_data] returns -- for
    a replacement ([PUT]) of the body alone, whatever was stored before,
    for a patch ([PATCH]) of the stored document overwritten by the body --
    in the record of that id and in no other; the record keeps its id, its
    schema and its place, and is what [GET /dynamic-data/{id}] then
    answers. *)
Theorem update_stores_the_validated_document
    (cv : Conversions) (db db' : Session) (data_id : Z) (data : dict) (partial : bool)
    (row : DynamicData.row) :
  NoDup (map DynamicData.id (dynamic_data db)) ->
  (if partial then partial_update_dynamic_data cv db data_id data
   else update_dynamic_data cv db data_id data) = (db', Returned row) ->
  exists r schema,
    Crud.get_dynamic_data db data_id false = Some r
    /\ Crud.get_dynamic_schema db (DynamicData.schema_id r) = Some schema
    /\ validate_data cv (DynamicSchema.schema_definition schema)
                     (if partial then dict_update (DynamicData.data r) data else data)
       = Ok (DynamicData.data row)
    /\ row = Crud.set_data (DynamicData.data row) r
    /\ dynamic_data db'
       = map (fun x => if Z.eqb (DynamicData.id x) data_id
                       then Crud.set_data (DynamicData.data row) x else x)
             (dynamic_data db)
    /\ dynamic_schemas db' = dynamic_schemas db
    /\ get_dynamic_data db' data_id = Returned row.
Proof.
  intros Hnd H.
  assert (Hcommon :
    exists r schema V,
      Crud.get_dynamic_data db data_id false = Some r
      /\ Crud.get_dynamic_schema db (DynamicData.schema_id r) = Some schema
      /\ validate_data cv (DynamicSchema.schema_definition schema)
                       (if partial then dict_update (DynamicData.data r) data else data)
         = Ok V
      /\ store_validated db data_id r (Ok V) = (db', Returned row)).
  { destruct partial; [unfold partial_update_dynamic_data in H
                      | unfold update_dynamic_data in H];
      destruct (Crud.get_dynamic_data db data_id false) as [r|] eqn:Hr; try discriminate;
      destruct (Crud.get_dynamic_schema db (DynamicData.schema_id r)) as [schema|] eqn:Hs;
      try discriminate; exists r, schema.
    - unfold merged_and_validated in H.
      destruct (SchemaDefinition_init (DynamicSchema.schema_definition schema))
        as [sd|e] eqn:Hi; cbn [bind] in H.
      + apply SchemaDefinition_init_Ok in Hi. destruct Hi as [-> _].
        destruct (validate_data cv _ _) as [V|e] eqn:Hv.
        * exists V. repeat split; first [assumption | exact Hv].
        * simpl in H. destruct (is_ValueError e); discriminate.
      + simpl in H. destruct (is_ValueError e); discriminate.
    - unfold checked_and_validated in H.
      destruct (SchemaDefinition_init (DynamicSchema.schema_definition schema))
        as [sd|e] eqn:Hi; cbn [bind] in H.
      + apply SchemaDefinition_init_Ok in Hi. destruct Hi as [-> _].
        destruct (check_required_fields _ data) as [u|e]; cbn [bind] in H.
        * destruct (validate_data cv _ _) as [V|e] eqn:Hv.
          -- exists V. repeat split; first [assumption | exact Hv].
          -- simpl in H. destruct (is_ValueError e); discriminate.
        * simpl in H. destruct (is_ValueError e); discriminate.
      + simpl in H. destruct (is_ValueError e); discriminate. }
  destruct Hcommon as [r [schema [V [Hr [Hs [Hv Hst]]]]]].
  exists r, schema. unfold store_validated in Hst. inv Hst.
  destruct (get_dynamic_data_Some _ _ _ Hr) as [Hin [Hid Hact]]. subst data_id.
  repeat split; auto.
  - cbn [Crud.with_dynamic_data dynamic_data]. now apply update_row_map.
  - unfold get_dynamic_data, Crud.get_dynamic_data, DynamicData_has_is_deleted.
    cbn [Crud.with_dynamic_data dynamic_data negb].
    rewrite (filter_updated (DynamicData.id r) (Crud.set_data V) (dynamic_data db) r
                            Hnd Hin eq_refl eq_refl).
    cbn [filter Crud.set_data DynamicData.is_deleted]. rewrite Hact. reflexivity.
Qed.

(** Replacing the stored ticket: the note the body does not mention is not
    kept. *)
Lemma update_stores_the_validated_document_witness :
  exists db' row,
    update_dynamic_data Examples.no_text Examples.ticket_store 1 [("status", VStr "closed")]
    = (db', Returned row)
    /\ DynamicData.data row = [("status", VStr "closed"); ("note", VNone)]
    /\ get_dynamic_data db' 1 = Returned row.
Proof.
  destruct (update_dynamic_data Examples.no_text Examples.ticket_store 1
              [("status", VStr "closed")]) as [db' [row| |]] eqn:H;
    try (vm_compute in H; discriminate).
  exists db', row. split; [reflexivity|].
  assert (Hnd : NoDup (map DynamicData.id (dynamic_data Examples.ticket_store)))
    by (repeat constructor; simpl; tauto).
  destruct (update_stores_the_validated_document Examples.no_text Examples.ticket_store
              db' 1 [("status", VStr "closed")] false row Hnd H)
    as [r [schema [_ [_ [_ [_ [_ [_ Hget]]]]]]]].
  split; [|exact Hget].
  vm_compute in H. now inv H.
Defined.


(** ** Deleting and restoring through the router *)


Lemma get_dynamic_data_None_404 (cv : Conversions) (db : Session) (data_id : Z) :
  Crud.get_dynamic_data db data_id false = None ->
  get_dynamic_data db data_id = HTTPException 404 "Data not found"
  /\ (forall force, delete_dynamic_data db data_id force
                    = (db, HTTPException 404 "Data not found"))
  /\ (forall data,
        update_dynamic_data cv db data_id data = (db, HTTPException 404 "Data not found")
        /\ partial_update_dynamic_data cv db data_id data
           = (db, HTTPException 404 "Data not found")).
Proof.
  intros H. unfold get_dynamic_data, delete_dynamic_data, update_dynamic_data,
              partial_update_dynamic_data. rewrite H. auto.
Qed.

(** Once [DELETE /dynamic-data/{id}] has answered 200, the record is out of
    reach of the router: reading it, deleting it again, replacing it and
    patching it all answer 404 and change nothing.  After a soft delete,
    the restore endpoint brings the store back to what it was; after a
    forced delete, it answers 404 as well. *)
Theorem deleted_record_is_out_of_reach
    (cv : Conversions) (db db1 : Session) (data_id : Z) (force : bool) (message : string) :
  NoDup (map DynamicData.id (dynamic_data db)) ->
  delete_dynamic_data db data_id force = (db1, Returned message) ->
  get_dynamic_data db1 data_id = HTTPException 404 "Data not found"
  /\ (forall force', delete_dynamic_data db1 data_id force'
                     = (db1, HTTPException 404 "Data not found"))
  /\ (forall data,
        update_dynamic_data cv db1 data_id data = (db1, HTTPException 404 "Data not found")
        /\ partial_update_dynamic_data cv db1 data_id data
           = (db1, HTTPException 404 "Data not found"))
  /\ (if force
      then restore_dynamic_data db1 data_id
           = (db1, HTTPException 404 "Data not found or not deleted")
      else exists r, restore_dynamic_data db1 data_id = (db, Returned r)
                     /\ Crud.get_dynamic_data db data_id false = Some r).
Proof.
  intros Hnd H. unfold delete_dynamic_data in H.
  destruct (Crud.get_dynamic_data db data_id false) as [r|] eqn:Hr; [|discriminate].
  destruct (get_dynamic_data_Some _ _ _ Hr) as [Hin [Hid Hact]]. subst data_id.
  destruct force; inv H.
  - assert (Hgone : forall b,
              Crud.get_dynamic_data
                (Crud.with_dynamic_data db (Crud.delete_row (DynamicData.id r) (dynamic_data db)))
                (DynamicData.id r) b = None).
    { intros b. unfold Crud.get_dynamic_data. cbn [Crud.with_dynamic_data dynamic_data].
      rewrite (filter_deleted _ _ Hnd). now destruct b. }
    destruct (get_dynamic_data_None_404 cv _ _ (Hgone false)) as [H1 [H2 H3]].
    repeat split; try assumption; try apply H3.
    unfold restore_dynamic_data, Crud.restore_dynamic_data. now rewrite (Hgone true).
  - assert (Hf : filter (fun x => Z.eqb (DynamicData.id x) (DynamicData.id r))
                   (Crud.update_row (DynamicData.id r) (Crud.set_is_deleted true)
                                    (dynamic_data db))
                 = [Crud.set_is_deleted true r])
      by (apply filter_updated; auto).
    assert (Hgone :
              Crud.get_dynamic_data
                (Crud.with_dynamic_data db
                   (Crud.update_row (DynamicData.id r) (Crud.set_is_deleted true)
                                    (dynamic_data db)))
                (DynamicData.id r) false = None).
    { unfold Crud.get_dynamic_data, DynamicData_has_is_deleted.
      cbn [Crud.with_dynamic_data dynamic_data negb]. rewrite Hf. reflexivity. }
    destruct (get_dynamic_data_None_404 cv _ _ Hgone) as [H1 [H2 H3]].
    repeat split; try assumption; try apply H3.
    exists r. split; [|reflexivity].
    unfold restore_dynamic_data, Crud.restore_dynamic_data, Crud.get_dynamic_data,
           DynamicData_has_is_deleted.
    cbn [Crud.with_dynamic_data dynamic_data negb]. rewrite Hf.
    cbn [Crud.first hd_error Crud.set_is_deleted DynamicData.is_deleted andb
         dynamic_schemas dynamic_data].
    rewrite (restore_after_delete_rows _ _ Hnd).
    rewrite (update_row_unchanged _ _ Hnd Hin Hact).
    destruct db as [schemas rows]. destruct r as [i sid d del]. simpl in Hact. subst del.
    reflexivity.
Qed.

(** Deleting the first record of the example store, softly. *)
Lemma deleted_record_is_out_of_reach_witness :
  exists db1 message,
    delete_dynamic_data Examples.store 1 false = (db1, Returned message)
    /\ get_dynamic_data db1 1 = HTTPException 404 "Data not found"
    /\ delete_dynamic_data db1 1 true = (db1, HTTPException 404 "Data not found")
    /\ exists r, restore_dynamic_data db1 1 = (Examples.store, Returned r).
Proof.
  destruct (delete_dynamic_data Examples.store 1 false) as [db1 [message| |]] eqn:H;
    try (vm_compute in H; discriminate).
  exists db1, message. split; [reflexivity|].
  assert (Hnd : NoDup (map DynamicData.id (dynamic_data Examples.store)))
    by (repeat constructor; simpl; intuition discriminate).
  destruct (deleted_record_is_out_of_reach Examples.no_text _ _ _ _ _ Hnd H)
    as [H1 [H2 [_ [r [H4 _]]]]].
  split; [exact H1|]. split; [apply H2|]. exists r. exact H4.
Defined.




(** ** Listings *)

Lemma filter_length_le' {A} (p : A -> bool) (l : list A) :
  (List.length (filter p l) <= List.length l)%nat.
Proof.
  induction l as [|a l IH]; simpl; [lia|]. destruct (p a); simpl; lia.
Qed.

Lemma offset_limit_all {A} (limit : nat) (l : list A) :
  (List.length l <= limit)%nat -> Crud.offset_limit 0 limit l = l.
Proof. intros H. unfold Crud.offset_limit. simpl. now apply firstn_all2. Qed.

(** The listing [GET /dynamic-data/] filters the deleted records out only
    when it filters by schema: without a schema id -- or with the schema id
    0, which the path operation takes for none -- every record of the table
    is listed, the soft-deleted ones included; with a schema id it lists
    records of that schema that are not deleted, and no other. *)
Theorem unfiltered_listing_shows_soft_deleted_records
    (db : Session) (r : DynamicData.row) (limit : nat) :
  In r (dynamic_data db) ->
  (List.length (dynamic_data db) <= limit)%nat ->
  In r (get_all_dynamic_data db None 0 limit)
  /\ In r (get_all_dynamic_data db (Some 0%Z) 0 limit)
  /\ forall (schema_id : Z) (skip limit' : nat) (x : DynamicData.row),
       schema_id <> 0%Z ->
       In x (get_all_dynamic_data db (Some schema_id) skip limit') ->
       In x (dynamic_data db)
       /\ DynamicData.is_deleted x = false
       /\ DynamicData.schema_id x = schema_id.
Proof.
  intros Hin Hlen.
  unfold get_all_dynamic_data. cbn [Z.eqb negb].
  rewrite (offset_limit_all _ _ Hlen). split; [exact Hin|]. split; [exact Hin|].
  intros schema_id skip limit' x Hs Hx.
  apply Z.eqb_neq in Hs. rewrite Hs in Hx. cbn [negb] in Hx.
  unfold Crud.get_dynamic_data_by_schema, DynamicData_has_is_deleted in Hx. cbn [negb] in Hx.
  apply offset_limit_In in Hx. apply filter_In in Hx. destruct Hx as [Hx Hd].
  apply filter_In in Hx. destruct Hx as [Hx Hsid].
  repeat split; [exact Hx | now apply Bool.eqb_prop | now apply Z.eqb_eq].
Qed.

(** The soft-deleted second record of the example store. *)
Lemma unfiltered_listing_shows_soft_deleted_records_witness :
  let r := DynamicData.mk 2 1 [("name", VStr "Kim"); ("email", VNone)] true in
  In r (get_all_dynamic_data Examples.store None 0 100)
  /\ ~ In r (get_all_dynamic_data Examples.store (Some 1%Z) 0 100).
Proof.
  intros r.
  assert (h1 : In r (dynamic_data Examples.store)) by (simpl; auto).
  assert (h2 : (List.length (dynamic_data Examples.store) <= 100)%nat) by (simpl; lia).
  destruct (unfiltered_listing_shows_soft_deleted_records Examples.store r 100 h1 h2)
    as [H1 [_ H3]].
  split; [exact H1|]. intros Hin.
  assert (h3 : 1%Z <> 0%Z) by discriminate.
  destruct (H3 1%Z 0%nat 100%nat r h3 Hin) as [_ [Hd _]]. discriminate.
Defined.

(** [get_deleted_data] and the listing by schema split the records of a
    schema between them: read in full, the first lists exactly the deleted
    records of the schema, the second exactly the others. *)
Theorem deleted_listing_complements_schema_listing
    (db : Session) (schema_id : Z) (limit : nat) (r : DynamicData.row) :
  schema_id <> 0%Z ->
  (List.length (dynamic_data db) <= limit)%nat ->
  (In r (get_deleted_data db (Some schema_id) 0 limit)
   <-> In r (dynamic_data db) /\ DynamicData.schema_id r = schema_id
       /\ DynamicData.is_deleted r = true)
  /\ (In r (get_all_dynamic_data db (Some schema_id) 0 limit)
      <-> In r (dynamic_data db) /\ DynamicData.schema_id r = schema_id
          /\ DynamicData.is_deleted r = false).
Proof.
  intros Hs Hlen. apply Z.eqb_neq in Hs.
  unfold get_deleted_data, get_all_dynamic_data, Crud.get_dynamic_data_by_schema,
         DynamicData_has_is_deleted.
  rewrite Hs. cbn [negb].
  rewrite !offset_limit_all
    by (repeat (etransitivity; [apply filter_length_le'|]); exact Hlen).
  rewrite !filter_In, !Z.eqb_eq.
  split; split.
  - intros [[H1 H2] H3]. repeat split; auto. now apply Bool.eqb_prop.
  - intros [H1 [H2 H3]]. repeat split; auto. rewrite H3. reflexivity.
  - intros [[H1 H2] H3]. repeat split; auto. now apply Bool.eqb_prop.
  - intros [H1 [H2 H3]]. repeat split; auto. rewrite H3. reflexivity.
Qed.

(** The two records of the example store under schema 1. *)
Lemma deleted_listing_complements_schema_listing_witness :
  let kim := DynamicData.mk 2 1 [("name", VStr "Kim"); ("email", VNone)] true in
  In kim (get_deleted_data Examples.store (Some 1%Z) 0 100)
  /\ ~ In kim (get_all_dynamic_data Examples.store (Some 1%Z) 0 100).
Proof.
  intros kim.
  assert (h1 : 1%Z <> 0%Z) by discriminate.
  assert (h2 : (List.length (dynamic_data Examples.store) <= 100)%nat) by (simpl; lia).
  destruct (deleted_listing_complements_schema_listing Examples.store 1 100 kim h1 h2)
    as [H1 H2].
  split.
  - apply H1. simpl. auto.
  - intros Hin. apply H2 in Hin. destruct Hin as [_ [_ Hd]]. discriminate.
Defined.

(** ** Bulk delete *)

Section BulkDelete.
Context (autoflush force : bool) (committed : Session).

Lemma bulk_delete_loop_counts (ids : list Z) :
  forall (db : Session) (deleted_count : nat) (not_found : list Z),
  match bulk_delete_loop autoflush force committed ids db deleted_count not_found with
  | (db', deleted_count', not_found') =>
      (deleted_count' + List.length not_found'
       = deleted_count + List.length not_found + List.length ids)%nat
      /\ (exists more, not_found' = (not_found ++ more)%list /\ incl more ids)
      /\ dynamic_schemas db' = dynamic_schemas db
  end.
Proof.
  induction ids as [|i ids IH]; intros db c nf; cbn [bulk_delete_loop].
  - split; [simpl; lia|]. split; [|reflexivity].
    exists []. split; [now rewrite app_nil_r | apply incl_refl].
  - destruct (Crud.get_dynamic_data (if autoflush then db else committed) i false).
    + match goal with
      | |- context [bulk_delete_loop _ _ _ ids ?d ?c' ?nf'] =>
          specialize (IH d c' nf');
          destruct (bulk_delete_loop autoflush force committed ids d c' nf')
            as [[db' c''] nf'']
      end.
      destruct IH as [Hc [[more [Hm Hi]] Hs]].
      split; [simpl; lia|]. split.
      * exists more. split; [exact Hm | now apply incl_tl].
      * rewrite Hs. now destruct force.
    + specialize (IH db c (nf ++ [i])%list).
      destruct (bulk_delete_loop autoflush force committed ids db c (nf ++ [i])%list)
        as [[db' c''] nf''].
      destruct IH as [Hc [[more [Hm Hi]] Hs]].
      split; [rewrite length_app in Hc; simpl in *; lia|]. split; [|exact Hs].
      exists (i :: more). split.
      * rewrite Hm, <- app_assoc. reflexivity.
      * intros x [<-|Hx]; [now left | right; now apply Hi].
Qed.

Lemma delete_row_incl (i : Z) (rows : list DynamicData.row) :
  incl (Crud.delete_row i rows) rows.
Proof.
  induction rows as [|x rows IH]; simpl; [apply incl_refl|].
  destruct (Z.eqb (DynamicData.id x) i).
  - now apply incl_tl.
  - intros y [<-|Hy]; [now left | right; now apply IH].
Qed.

Lemma delete_row_NoDup (i : Z) (rows : list DynamicData.row) :
  NoDup (map DynamicData.id rows) -> NoDup (map DynamicData.id (Crud.delete_row i rows)).
Proof.
  induction rows as [|x rows IH]; simpl; intros H; [constructor|].
  inversion H as [|? ? Hn Hnd]; subst.
  destruct (Z.eqb (DynamicData.id x) i); [exact Hnd|].
  simpl. constructor; [|now apply IH].
  intros Hin. apply Hn. apply in_map_iff in Hin. destruct Hin as [y [Hy Hyin]].
  rewrite <- Hy. apply in_map. now apply (delete_row_incl i rows).
Qed.

Lemma bulk_delete_step_NoDup (data_id : Z) (db : Session) :
  NoDup (map DynamicData.id (dynamic_data db)) ->
  NoDup (map DynamicData.id (dynamic_data (bulk_delete_step force data_id db))).
Proof.
  intros H. unfold bulk_delete_step. destruct force; cbn [Crud.with_dynamic_data dynamic_data].
  - now apply delete_row_NoDup.
  - now rewrite update_row_ids.
Qed.

(** A step on another id does not change what an id selects. *)
Lemma bulk_delete_step_other (data_id i : Z) (db : Session) (b : bool) :
  i <> data_id ->
  Crud.get_dynamic_data (bulk_delete_step force data_id db) i b = Crud.get_dynamic_data db i b.
Proof.
  intros Hne. unfold bulk_delete_step, Crud.get_dynamic_data.
  destruct force; cbn [Crud.with_dynamic_data dynamic_data].
  - now rewrite filter_delete_other.
  - rewrite filter_update_other; [reflexivity | assumption | now intros []].
Qed.

(** After a step, the id selects no record that is not deleted. *)
Lemma bulk_delete_step_gone (data_id : Z) (db : Session) :
  NoDup (map DynamicData.id (dynamic_data db)) ->
  Crud.get_dynamic_data (bulk_delete_step force data_id db) data_id false = None.
Proof.
  intros Hnd. unfold bulk_delete_step, Crud.get_dynamic_data, DynamicData_has_is_deleted.
  destruct force; cbn [Crud.with_dynamic_data dynamic_data negb].
  - now rewrite filter_deleted.
  - rewrite (update_row_map _ _ _ Hnd).
    match goal with
    | |- Crud.first ?l = None => assert (Hl : l = []); [|now rewrite Hl]
    end.
    apply filter_none. intros x Hx. apply filter_In in Hx. destruct Hx as [Hx Hid].
    apply in_map_iff in Hx. destruct Hx as [y [Hy _]]. subst x.
    destruct (Z.eqb_spec (DynamicData.id y) data_id) as [Heq|Hne]; [reflexivity|].
    apply Z.eqb_eq in Hid. contradiction.
Qed.

Lemma bulk_delete_step_inactive (data_id i : Z) (db : Session) :
  NoDup (map DynamicData.id (dynamic_data db)) ->
  Crud.get_dynamic_data db i false = None ->
  Crud.get_dynamic_data (bulk_delete_step force data_id db) i false = None.
Proof.
  intros Hnd H. destruct (Z.eq_dec i data_id) as [->|Hne].
  - now apply bulk_delete_step_gone.
  - now rewrite bulk_delete_step_other.
Qed.

Lemma bulk_delete_loop_inactive (ids : list Z) :
  forall (db : Session) (deleted_count : nat) (not_found : list Z),
  NoDup (map DynamicData.id (dynamic_data db)) ->
  (forall i, Crud.get_dynamic_data committed i false = None ->
             Crud.get_dynamic_data db i false = None) ->
  let db' := fst (fst (bulk_delete_loop autoflush force committed ids db deleted_count
                                        not_found)) in
  (forall i, Crud.get_dynamic_data db i false = None ->
             Crud.get_dynamic_data db' i false = None)
  /\ (forall i, In i ids -> Crud.get_dynamic_data db' i false = None).
Proof.
  induction ids as [|data_id ids IH]; intros db c nf Hnd Hcommitted; cbn [bulk_delete_loop].
  - simpl. split; [auto | intros i []].
  - destruct (Crud.get_dynamic_data (if autoflush then db else committed) data_id false)
      as [db_data|] eqn:Hget.
    + fold (bulk_delete_step force data_id db).
      destruct (IH (bulk_delete_step force data_id db) (S c) nf
                   (bulk_delete_step_NoDup _ _ Hnd)) as [Hmono Hall].
      { intros i Hi. apply bulk_delete_step_inactive; auto. }
      split.
      * intros i Hi. apply Hmono. now apply bulk_delete_step_inactive.
      * intros i [<-|Hi]; [|now apply Hall].
        apply Hmono. now apply bulk_delete_step_gone.
    + destruct (IH db c (nf ++ [data_id])%list Hnd Hcommitted) as [Hmono Hall].
      split; [exact Hmono|].
      intros i [<-|Hi]; [|now apply Hall].
      apply Hmono. destruct autoflush; [exact Hget | now apply Hcommitted].
Qed.

Lemma bulk_delete_loop_not_found (ids : list Z) :
  forall (db : Session) (deleted_count : nat) (not_found : list Z),
  NoDup ids ->
  (forall i, In i ids ->
     Crud.get_dynamic_data db i false = Crud.get_dynamic_data committed i false) ->
  snd (bulk_delete_loop autoflush force committed ids db deleted_count not_found)
  = (not_found
     ++ filter (fun i => negb (is_some (Crud.get_dynamic_data committed i false))) ids)%list.
Proof.
  induction ids as [|data_id ids IH]; intros db c nf Hnd Hagree; cbn [bulk_delete_loop filter].
  - simpl. now rewrite app_nil_r.
  - inversion Hnd as [|? ? Hnotin Hnd']; subst.
    assert (Hlook : Crud.get_dynamic_data (if autoflush then db else committed) data_id false
                    = Crud.get_dynamic_data committed data_id false).
    { destruct autoflush; [|reflexivity]. apply Hagree. now left. }
    rewrite Hlook.
    destruct (Crud.get_dynamic_data committed data_id false) as [db_data|]; cbn [is_some negb].
    + fold (bulk_delete_step force data_id db). apply IH; [exact Hnd'|].
      intros i Hi. rewrite bulk_delete_step_other.
      * apply Hagree. now right.
      * intros ->. contradiction.
    + rewrite (IH db c (nf ++ [data_id])%list Hnd').
      * now rewrite <- app_assoc.
      * intros i Hi. apply Hagree. now right.
Qed.

End BulkDelete.

(** [POST /dynamic-data/bulk-delete] answers 400 for an empty list of ids
    and changes nothing.  Otherwise it answers 200 and accounts for every id
    of the request: the number of deleted records and the number of ids not
    found add up to the number of ids.  If the ids of the request are
    distinct, the ids reported as not found are, in the order of the
    request, those that select no record that is not deleted; and afterwards
    no id of the request selects such a record.  All of this holds with and
    without [autoflush]. *)
Theorem bulk_delete_accounts_for_every_id
    (autoflush : bool) (db : Session) (ids : list Z) (force : bool) :
  match bulk_delete_dynamic_data autoflush db ids force with
  | (db', Returned report) =>
      ids <> []
      /\ success report = true
      /\ (deleted_count report + List.length (not_found report) = List.length ids)%nat
      /\ incl (not_found report) ids
      /\ dynamic_schemas db' = dynamic_schemas db
      /\ (NoDup (map DynamicData.id (dynamic_data db)) ->
          forall i, In i ids -> Crud.get_dynamic_data db' i false = None)
      /\ (NoDup ids ->
          not_found report
          = filter (fun i => negb (is_some (Crud.get_dynamic_data db i false))) ids)
  | (db', HTTPException status_code detail) =>
      ids = [] /\ db' = db /\ status_code = 400%Z
  | (db', Unhandled e) => False
  end.
Proof.
  unfold bulk_delete_dynamic_data. destruct ids as [|i ids]; [auto|].
  pose proof (bulk_delete_loop_counts autoflush force db (i :: ids) db 0 []) as Hc.
  pose proof (bulk_delete_loop_inactive autoflush force db (i :: ids) db 0 []) as Hi.
  pose proof (bulk_delete_loop_not_found autoflush force db (i :: ids) db 0 []) as Hn.
  destruct (bulk_delete_loop autoflush force db (i :: ids) db 0 []) as [[db' c] nf].
  destruct Hc as [Hc [[more [Hm Hincl]] Hs]]. cbn [fst snd] in Hi, Hn.
  cbn [success deleted_count not_found].
  split; [discriminate|]. split; [reflexivity|]. split; [simpl; simpl in Hc; lia|].
  split; [now rewrite Hm|]. split; [exact Hs|]. split.
  - intros Hnd. apply Hi; auto.
  - intros Hnd. rewrite Hn; auto.
Qed.

(* ================================================================== *)
(** * Further properties of the search                                 *)
(* ================================================================== *)

Lemma for_each_applied (F : Query -> value -> result Query) (l : list value) :
  (forall c, In c l -> exists r, forall q, F q c = applied q r) ->
  exists r, forall q, for_each F l q = applied q r.
Proof.
  induction l as [|c l IH]; intros H.
  - exists (Ok []). intros q. simpl. now rewrite extend_nil.
  - destruct (H c (or_introl eq_refl)) as [[ws|e] Hc].
    + destruct IH as [[ws'|e'] Hl].
      { intros c' Hc'. apply H. now right. }
      * exists (Ok (ws ++ ws')%list). intros q. simpl. rewrite Hc. simpl.
        rewrite Hl. simpl. now rewrite extend_extend.
      * exists (Raise e'). intros q. simpl. rewrite Hc. simpl. now rewrite Hl.
    + exists (Raise e). intros q. simpl. now rewrite Hc.
Qed.

(** What criteria do to a query -- the conditions they add, or the
    exception they raise -- does not depend on the query. *)
Lemma apply_search_criteria_rec_applied (fuel : nat) :
  forall criteria : value,
  exists r, forall q, apply_search_criteria_rec fuel q criteria = applied q r.
Proof.
  induction fuel as [|fuel IH]; intros criteria.
  - exists (Raise (RuntimeError "maximum recursion depth exceeded")). reflexivity.
  - cbn [apply_search_criteria_rec].
    destruct (py_in "and" criteria) as [[]|e]; cbn [bind]; [| |exists (Raise e); reflexivity].
    + destruct (py_getitem criteria "and") as [subs|e]; cbn [bind];
        [|exists (Raise e); reflexivity].
      destruct (py_iter subs) as [l|e]; cbn [bind]; [|exists (Raise e); reflexivity].
      apply for_each_applied. intros c _. apply IH.
    + destruct (py_in "or" criteria) as [[]|e]; cbn [bind];
        [| |exists (Raise e); reflexivity].
      * destruct (py_getitem criteria "or") as [subs|e]; cbn [bind];
          [|exists (Raise e); reflexivity].
        destruct (py_iter subs) as [[|c l]|e]; cbn [bind].
        -- exists (Ok [Or_ []]). reflexivity.
        -- exists (Raise (NameError "db")). reflexivity.
        -- exists (Raise e). reflexivity.
      * destruct (all_in ["field_path"; "operator"; "value"] criteria) as [[]|e];
          cbn [bind]; [| |exists (Raise e); reflexivity].
        -- destruct (py_getitem criteria "field_path") as [field_path|e]; cbn [bind];
             [|exists (Raise e); reflexivity].
           destruct (py_getitem criteria "operator") as [operator|e]; cbn [bind];
             [|exists (Raise e); reflexivity].
           destruct (py_getitem criteria "value") as [v|e]; cbn [bind];
             [|exists (Raise e); reflexivity].
           destruct (operator_branch operator) as [op|].
           ++ exists (Ok [JsonCompare field_path (cast_for v) op v]). reflexivity.
           ++ exists (Ok []). intros q. simpl. now rewrite extend_nil.
        -- exists (Ok []). intros q. simpl. now rewrite extend_nil.
Qed.

Section Flags.
Context (json_compare : value -> sqltype -> sqlop -> value -> dict -> bool).

(** No condition of a query reads the deletion flag of a record. *)
Lemma holds_set_is_deleted (b : bool) (r : DynamicData.row) :
  forall c, holds json_compare c (Crud.set_is_deleted b r) = holds json_compare c r.
Proof.
  fix IH 1. intros [sid|field_path t op operand|conditions]; [reflexivity|reflexivity|].
  cbn [holds]. destruct conditions as [|c0 conditions]; [reflexivity|].
  rewrite (IH c0). f_equal.
  induction conditions as [|c1 conditions IHl]; [reflexivity|].
  rewrite (IH c1). f_equal. exact IHl.
Qed.

Lemma filter_map_swap {A B} (p : B -> bool) (f : A -> B) (l : list A) :
  filter p (map f l) = map f (filter (fun x => p (f x)) l).
Proof.
  induction l as [|a l IH]; simpl; [reflexivity|].
  destruct (p (f a)); simpl; now rewrite IH.
Qed.

Lemma forallb_pointwise {A} (p p' : A -> bool) (l : list A) :
  (forall x, p x = p' x) -> forallb p l = forallb p' l.
Proof. intros H. induction l as [|a l IH]; simpl; [reflexivity|]. now rewrite H, IH. Qed.

Lemma all_with_flags (flag : DynamicData.row -> bool) (rows : list DynamicData.row)
    (ws : list clause) :
  all_ json_compare (mk_query (map (fun r => Crud.set_is_deleted (flag r) r) rows) ws)
  = map (fun r => Crud.set_is_deleted (flag r) r) (all_ json_compare (mk_query rows ws)).
Proof.
  unfold all_. cbn [q_rows q_where]. rewrite filter_map_swap. f_equal.
  apply filter_ext. intros r. apply forallb_pointwise. intros c. apply holds_set_is_deleted.
Qed.

Lemma offset_limit_map {A B} (f : A -> B) (skip limit : nat) (l : list A) :
  Crud.offset_limit skip limit (map f l) = map f (Crud.offset_limit skip limit l).
Proof. unfold Crud.offset_limit. now rewrite skipn_map, firstn_map. Qed.

(** [POST /dynamic-data/search] does not look at the deletion flag: on a
    store whose records carry other flags it answers the same records, in
    the same order, with those flags -- or raises the same exception.  In
    particular a soft-deleted record that matches the criteria is among the
    records the search returns. *)
Theorem search_does_not_read_the_deletion_flag
    (db : Session) (search_criteria : value) (schema_id : option Z) (skip limit : nat)
    (flag : DynamicData.row -> bool) :
  search_dynamic_data json_compare (with_flags flag db) search_criteria schema_id skip limit
  = match search_dynamic_data json_compare db search_criteria schema_id skip limit with
    | Returned rows => Returned (map (fun r => Crud.set_is_deleted (flag r) r) rows)
    | HTTPException status_code detail => HTTPException status_code detail
    | Unhandled e => Unhandled e
    end.
Proof.
  unfold search_dynamic_data, apply_search_criteria.
  destruct (apply_search_criteria_rec_applied (S (depth search_criteria)) search_criteria)
    as [r Hr].
  rewrite !Hr.
  destruct r as [ws|e]; [|reflexivity]. cbn [applied]. f_equal.
  rewrite <- offset_limit_map. f_equal.
  unfold with_flags, query_DynamicData, Crud.with_dynamic_data.
  cbn [dynamic_data].
  destruct schema_id as [sid|]; [destruct (negb (Z.eqb sid 0))|];
    unfold extend, filter_; cbn [q_rows q_where]; apply all_with_flags.
Qed.

End Flags.

(* ================================================================== *)
(** * Further properties of the migration                              *)
(* ================================================================== *)

(** What of a record a migration cannot change. *)
Lemma update_row_set_data (i : Z) (d : dict) (rows : list DynamicData.row) :
  map (fun x => (DynamicData.id x, DynamicData.schema_id x, DynamicData.is_deleted x))
      (Crud.update_row i (Crud.set_data d) rows)
  = map (fun x => (DynamicData.id x, DynamicData.schema_id x, DynamicData.is_deleted x)) rows.
Proof.
  induction rows as [|x rows IH]; [reflexivity|].
  cbn [Crud.update_row]. destruct (Z.eqb (DynamicData.id x) i); cbn [map].
  - reflexivity.
  - now rewrite IH.
Qed.

Lemma update_row_set_data_ids (i : Z) (d : dict) (rows : list DynamicData.row) :
  map DynamicData.id (Crud.update_row i (Crud.set_data d) rows) = map DynamicData.id rows.
Proof.
  induction rows as [|x rows IH]; [reflexivity|].
  cbn [Crud.update_row]. destruct (Z.eqb (DynamicData.id x) i); cbn [map].
  - reflexivity.
  - now rewrite IH.
Qed.

Lemma update_row_other_In (i : Z) (f : DynamicData.row -> DynamicData.row)
    (rows : list DynamicData.row) (x : DynamicData.row) :
  In x rows -> DynamicData.id x <> i -> In x (Crud.update_row i f rows).
Proof.
  intros Hin Hne. induction rows as [|y rows IH]; [destruct Hin|].
  cbn [Crud.update_row]. destruct (Z.eqb_spec (DynamicData.id y) i) as [Heq|Hneq].
  - destruct Hin as [->|Hin]; [contradiction | now right].
  - destruct Hin as [->|Hin]; [now left | right; now apply IH].
Qed.

(** A selection of the rows of a table with distinct ids has distinct
    ids. *)
Lemma selected_rows_distinct (keep : DynamicData.row -> bool)
    (rows : list DynamicData.row) :
  NoDup (map DynamicData.id rows) -> NoDup (map DynamicData.id (filter keep rows)).
Proof.
  induction rows as [|x rows IH]; simpl; intros H; [constructor|].
  inversion H as [|? ? Hn Hnd]; subst. destruct (keep x); [|now apply IH].
  simpl. constructor; [|now apply IH].
  intros Hin. apply Hn. apply in_map_iff in Hin. destruct Hin as [y [Hy Hyin]].
  rewrite <- Hy. apply in_map. apply filter_In in Hyin. tauto.
Qed.

(** So has a page of them. *)
Lemma first_rows_distinct (limit : nat) (rows : list DynamicData.row) :
  NoDup (map DynamicData.id rows) -> NoDup (map DynamicData.id (firstn limit rows)).
Proof.
  revert rows. induction limit as [|limit IH]; intros [|x rows] H; simpl; try constructor.
  - inversion H as [|? ? Hn Hnd]; subst. intros Hin. apply Hn.
    apply in_map_iff in Hin. destruct Hin as [y [Hy Hyin]].
    rewrite <- Hy. apply in_map. eapply In_firstn; eauto.
  - inversion H; subst. now apply IH.
Qed.

(** Two rows of a table with distinct ids that have the same id are the
    same row. *)
Lemma same_id_same_row (rows : list DynamicData.row) (x y : DynamicData.row) :
  NoDup (map DynamicData.id rows) -> In x rows -> In y rows ->
  DynamicData.id x = DynamicData.id y -> x = y.
Proof.
  induction rows as [|a rows IH]; simpl; intros Hnd Hx Hy Heq; [destruct Hx|].
  inversion Hnd as [|? ? Hn Hnd']; subst.
  destruct Hx as [->|Hx]; destruct Hy as [->|Hy]; auto.
  - exfalso. apply Hn. rewrite Heq. now apply in_map.
  - exfalso. apply Hn. rewrite <- Heq. now apply in_map.
Qed.

Section MigrationRows.
Context (cv : Conversions) (field_mappings default_values remove_fields : value)
        (schema_def : SchemaDefinition).

Lemma migrate_loop_identity (data_items : list DynamicData.row) :
  forall (rows : list DynamicData.row) (results : migration_results),
  map (fun x => (DynamicData.id x, DynamicData.schema_id x, DynamicData.is_deleted x))
      (fst (migrate_loop cv field_mappings default_values remove_fields schema_def
                         data_items rows results))
  = map (fun x => (DynamicData.id x, DynamicData.schema_id x, DynamicData.is_deleted x)) rows.
Proof.
  induction data_items as [|item rest IH]; intros rows results; [reflexivity|].
  cbn [migrate_loop].
  destruct (migrate_item cv field_mappings default_values remove_fields schema_def
                         (DynamicData.data item)) as [d|e].
  - rewrite IH. apply update_row_set_data.
  - apply IH.
Qed.

(** The rows after the loop: a record of the list holds the migrated
    document if there is one and is as it was if there is none; a record
    outside the list is as it was. *)
Lemma migrate_loop_rows (data_items : list DynamicData.row) :
  forall (rows : list DynamicData.row) (results : migration_results),
  NoDup (map DynamicData.id rows) ->
  NoDup (map DynamicData.id data_items) ->
  (forall x, In x data_items -> In x rows) ->
  let rows' :=
    fst (migrate_loop cv field_mappings default_values remove_fields schema_def
                      data_items rows results) in
  (forall x, In x rows -> ~ In (DynamicData.id x) (map DynamicData.id data_items) ->
             In x rows')
  /\ (forall x, In x data_items ->
        In (match migrate_item cv field_mappings default_values remove_fields schema_def
                               (DynamicData.data x) with
            | Ok validated_data => Crud.set_data validated_data x
            | Raise _ => x
            end) rows').
Proof.
  induction data_items as [|item rest IH]; intros rows results Hnd Hndi Hsub.
  - cbn [migrate_loop fst]. split; [auto | intros x []].
  - cbn [migrate_loop]. cbn [map] in Hndi. inversion Hndi as [|? ? Hfresh Hndr]; subst.
    destruct (migrate_item cv field_mappings default_values remove_fields schema_def
                           (DynamicData.data item)) as [d|e] eqn:Hmi.
    + match goal with
      | |- context [migrate_loop _ _ _ _ _ rest ?rows1 ?res1] =>
          destruct (IH rows1 res1) as [Hout Hin]
      end.
      * now rewrite update_row_set_data_ids.
      * exact Hndr.
      * intros x Hx. apply update_row_other_In; [apply Hsub; now right|].
        intros Heq. apply Hfresh. rewrite <- Heq. now apply in_map.
      * split.
        -- intros x Hx Hnot. apply Hout.
           ++ apply update_row_other_In; [exact Hx|].
              intros Heq. apply Hnot. cbn [map]. now left.
           ++ intros Hi. apply Hnot. cbn [map]. now right.
        -- intros x [<-|Hx]; [|now apply Hin].
           rewrite Hmi. apply Hout.
           ++ apply update_row_In; [apply Hsub; now left | reflexivity | exact Hnd].
           ++ exact Hfresh.
    + destruct (IH rows
                   (mk_results (total results) (migrated results) (S (failed results))
                               (errors results ++ [(DynamicData.id item, str_exn e)])%list))
        as [Hout Hin]; auto.
      { intros x Hx. apply Hsub. now right. }
      split.
      * intros x Hx Hnot. apply Hout; [exact Hx|].
        intros Hi. apply Hnot. cbn [map]. now right.
      * intros x [<-|Hx]; [|now apply Hin].
        rewrite Hmi. apply Hout; [apply Hsub; now left | exact Hfresh].
Qed.


End MigrationRows.

(** [POST /schema-fields/{id}/migrate-data] rewrites documents and nothing
    else: it adds, removes and moves no record, changes no id, no schema id
    and no deletion flag, and leaves the schemas alone; when it does not
    answer 200 the store is as it was.  It reaches the first 100 records of
    the schema only -- the default page of [get_dynamic_data_by_schema] --
    deleted ones included: [total] is the number of records of the schema
    when that is at most 100, and 100 otherwise. *)
Theorem migration_rewrites_documents_of_the_first_100_records
    (cv : Conversions) (db : Session) (schema_id : Z) (migration_config : dict) :
  match migrate_existing_data cv db schema_id migration_config with
  | (db', Returned results) =>
      map (fun x => (DynamicData.id x, DynamicData.schema_id x, DynamicData.is_deleted x))
          (dynamic_data db')
      = map (fun x => (DynamicData.id x, DynamicData.schema_id x, DynamicData.is_deleted x))
            (dynamic_data db)
      /\ dynamic_schemas db' = dynamic_schemas db
      /\ total results
         = Nat.min 100 (List.length
                          (filter (fun r => Z.eqb (DynamicData.schema_id r) schema_id)
                                  (dynamic_data db)))
  | (db', _) => db' = db
  end.
Proof.
  unfold migrate_existing_data.
  destruct (Crud.get_dynamic_schema db schema_id) as [schema|]; [|reflexivity].
  destruct (SchemaDefinition_init (DynamicSchema.schema_definition schema))
    as [schema_def|e]; [|reflexivity].
  match goal with
  | |- context [migrate_loop ?c ?fm ?dv ?rf ?sd ?items ?rows ?res] =>
      pose proof (migrate_loop_identity c fm dv rf sd items rows res) as Hid;
      pose proof (migrate_loop_results c fm dv rf sd items rows res) as Hres;
      destruct (migrate_loop c fm dv rf sd items rows res) as [rows' results']
  end.
  cbn [fst snd] in Hid, Hres. destruct Hres as [Ht _].
  cbn [Crud.with_dynamic_data dynamic_data dynamic_schemas].
  split; [exact Hid|]. split; [reflexivity|].
  rewrite Ht. cbn [total].
  unfold Crud.get_dynamic_data_by_schema, Crud.offset_limit, Crud.default_skip,
         Crud.default_limit.
  cbn [negb skipn]. apply length_firstn.
Qed.

(** What a migration does to each record, in a table with distinct ids.  A
    record among the first 100 of the schema holds afterwards the document
    the migration steps and [validate_data] give for its document; if these
    raise, the record is as it was and the error list has an entry with its
    id.  Every other record -- of another schema, or of this schema beyond
    the first 100 -- is as it was. *)
Theorem migration_rewrites_the_records_it_migrates
    (cv : Conversions) (db db' : Session) (schema_id : Z) (migration_config : dict)
    (results : migration_results) :
  NoDup (map DynamicData.id (dynamic_data db)) ->
  migrate_existing_data cv db schema_id migration_config = (db', Returned results) ->
  exists schema,
    Crud.get_dynamic_schema db schema_id = Some schema /\
    let data_items := Crud.get_dynamic_data_by_schema db schema_id 0 100 true in
    let migrate :=
      migrate_item cv (config_get migration_config "field_mappings" (VDict []))
                   (config_get migration_config "default_values" (VDict []))
                   (config_get migration_config "remove_fields" (VList []))
                   (DynamicSchema.schema_definition schema) in
    (forall x, In x data_items ->
       match migrate (DynamicData.data x) with
       | Ok validated_data => In (Crud.set_data validated_data x) (dynamic_data db')
       | Raise e =>
           In x (dynamic_data db') /\ In (DynamicData.id x, str_exn e) (errors results)
       end)
    /\ (forall x, In x (dynamic_data db) -> ~ In x data_items -> In x (dynamic_data db')).
Proof.
  intros Hnd H. unfold migrate_existing_data in H.
  destruct (Crud.get_dynamic_schema db schema_id) as [schema|]; [|discriminate].
  exists schema. split; [reflexivity|].
  destruct (SchemaDefinition_init (DynamicSchema.schema_definition schema))
    as [schema_def|e] eqn:Hi; [|discriminate].
  apply SchemaDefinition_init_Ok in Hi. destruct Hi as [-> _].
  fold Crud.default_skip Crud.default_limit in H |- *.
  change 0%nat with Crud.default_skip. change 100%nat with Crud.default_limit.
  set (data_items := Crud.get_dynamic_data_by_schema db schema_id Crud.default_skip
                                                     Crud.default_limit true) in *.
  assert (Hsub : forall x, In x data_items -> In x (dynamic_data db)).
  { intros x Hx. subst data_items. unfold Crud.get_dynamic_data_by_schema in Hx.
    cbn [negb] in Hx. apply offset_limit_In in Hx. apply filter_In in Hx. tauto. }
  assert (Hndi : NoDup (map DynamicData.id data_items)).
  { subst data_items. unfold Crud.get_dynamic_data_by_schema, Crud.offset_limit,
                             Crud.default_skip.
    cbn [negb skipn]. apply first_rows_distinct. now apply selected_rows_distinct. }
  match type of H with
  | context [migrate_loop ?c ?fm ?dv ?rf ?sd ?items ?rows ?res] =>
      pose proof (migrate_loop_rows c fm dv rf sd items rows res Hnd Hndi Hsub) as Hrows;
      pose proof (migrate_loop_results c fm dv rf sd items rows res) as Hres;
      destruct (migrate_loop c fm dv rf sd items rows res) as [rows' results']
  end.
  cbn [fst snd] in Hrows, Hres. inv H. destruct Hrows as [Hout Hin].
  destruct Hres as [_ [He _]]. cbn [errors app] in He.
  cbn [Crud.with_dynamic_data dynamic_data]. cbv zeta. split.
  - intros x Hx. specialize (Hin x Hx).
    match goal with
    | |- match ?m with _ => _ end => destruct m as [d|e] eqn:Hmi
    end; [exact Hin|].
    split; [exact Hin|]. rewrite He. apply in_flat_map. exists x. split; [exact Hx|].
    unfold error_entry. rewrite Hmi. now left.
  - intros x Hx Hnot. apply Hout; [exact Hx|].
    intros Hi. apply Hnot. apply in_map_iff in Hi. destruct Hi as [y [Hy Hyin]].
    rewrite (same_id_same_row _ x y Hnd Hx (Hsub y Hyin) (eq_sym Hy)). exact Hyin.
Qed.

(** The example store: the first record is migrated, the second, which
    lacks the required [age], fails, the third is of another schema. *)
Lemma migration_rewrites_the_records_it_migrates_witness :
  exists db' results,
    migrate_existing_data Examples.no_text Examples.store 1 [] = (db', Returned results)
    /\ In (DynamicData.mk 3 7 [] false) (dynamic_data db')
    /\ In (DynamicData.mk 2 1 [("name", VStr "Kim"); ("email", VNone)] true)
          (dynamic_data db').
Proof.
  destruct (migrate_existing_data Examples.no_text Examples.store 1 [])
    as [db' [results| |]] eqn:H; try (vm_compute in H; discriminate).
  exists db', results. split; [reflexivity|].
  assert (Hnd : NoDup (map DynamicData.id (dynamic_data Examples.store)))
    by (repeat constructor; simpl; intuition discriminate).
  destruct (migration_rewrites_the_records_it_migrates _ _ _ _ _ _ Hnd H)
    as [schema [Hs [Hin Hout]]].
  vm_compute in Hs. inv Hs. split.
  - apply Hout; [simpl; auto|]. vm_compute. intuition discriminate.
  - assert (Hkim : In (DynamicData.mk 2 1 [("name", VStr "Kim"); ("email", VNone)] true)
                      (Crud.get_dynamic_data_by_schema Examples.store 1 0 100 true))
      by (vm_compute; auto).
    specialize (Hin _ Hkim). vm_compute in Hin. tauto.
Defined.



(* ================================================================== *)
(** * Properties of the schema endpoints                               *)
(* ================================================================== *)

Lemma schema_id_below_next (rows : list DynamicSchema.row) (x : Z) :
  In x (map DynamicSchema.id rows) -> (x < Crud.next_schema_id rows)%Z.
Proof.
  unfold Crud.next_schema_id.
  induction rows as [|r rows IH]; cbn [map fold_right In]; [tauto|].
  intros [<-|Hin]; [lia|]. specialize (IH Hin). lia.
Qed.

Lemma get_dynamic_schema_app (db : Session) (row : DynamicSchema.row) (schema_id : Z) :
  Crud.get_dynamic_schema
    (mk_session (dynamic_schemas db ++ [row])%list (dynamic_data db)) schema_id
  = match Crud.get_dynamic_schema db schema_id with
    | Some found => Some found
    | None => if Z.eqb (DynamicSchema.id row) schema_id then Some row else None
    end.
Proof.
  unfold Crud.get_dynamic_schema. cbn [dynamic_schemas]. rewrite filter_app.
  destruct (filter _ (dynamic_schemas db)) as [|x l]; cbn [app Crud.first hd_error filter].
  - destruct (Z.eqb (DynamicSchema.id row) schema_id); reflexivity.
  - reflexivity.
Qed.

(** [POST /dynamic-schemas/] stores the schema of the request as it is,
    after the schemas there were and under an id none of them has, and
    touches no record; [GET /dynamic-schemas/{id}] then answers it for its
    id, every schema that could be read before can still be read, and, the
    definition being valid, [GET /dynamic-schemas/{id}/validate] reports it
    valid. *)
Theorem created_schema_can_be_read_back
    (db : Session) (schema : DynamicSchemaCreate.t) :
  exists row,
    let db' := fst (DynamicSchemasRouter.create_schema db schema) in
    snd (DynamicSchemasRouter.create_schema db schema)
    = DynamicSchemasRouter.Answer (Returned row)
    /\ DynamicSchema.name row = DynamicSchemaCreate.name schema
    /\ DynamicSchema.description row = DynamicSchemaCreate.description schema
    /\ DynamicSchema.schema_definition row = DynamicSchemaCreate.schema_definition schema
    /\ ~ In (DynamicSchema.id row) (map DynamicSchema.id (dynamic_schemas db))
    /\ dynamic_schemas db' = (dynamic_schemas db ++ [row])%list
    /\ dynamic_data db' = dynamic_data db
    /\ DynamicSchemasRouter.read_schema db' (DynamicSchema.id row)
       = DynamicSchemasRouter.Answer (Returned row)
    /\ (forall schema_id found,
          Crud.get_dynamic_schema db schema_id = Some found ->
          DynamicSchemasRouter.read_schema db' schema_id
          = DynamicSchemasRouter.Answer (Returned found))
    /\ (valid_schema (DynamicSchemaCreate.schema_definition schema) = true ->
        DynamicSchemasRouter.validate_schema db' (DynamicSchema.id row)
        = DynamicSchemasRouter.Answer (Returned [("valid", VBool true)])).
Proof.
  unfold DynamicSchemasRouter.create_schema, Crud.create_dynamic_schema. cbn [fst snd].
  eexists. cbv zeta. split; [reflexivity|].
  cbn [DynamicSchema.name DynamicSchema.description DynamicSchema.schema_definition
       DynamicSchema.id dynamic_schemas dynamic_data].
  assert (Hfresh : ~ In (Crud.next_schema_id (dynamic_schemas db))
                        (map DynamicSchema.id (dynamic_schemas db))).
  { intros H. apply schema_id_below_next in H. lia. }
  assert (Hnone : Crud.get_dynamic_schema db (Crud.next_schema_id (dynamic_schemas db))
                  = None).
  { unfold Crud.get_dynamic_schema.
    rewrite filter_none; [reflexivity|]. intros x Hx. apply Z.eqb_neq. intros Heq.
    apply Hfresh. rewrite <- Heq. now apply in_map. }
  repeat split; try reflexivity; try exact Hfresh.
  - unfold DynamicSchemasRouter.read_schema. rewrite get_dynamic_schema_app, Hnone.
    cbn [DynamicSchema.id]. now rewrite Z.eqb_refl.
  - intros schema_id found Hfound.
    unfold DynamicSchemasRouter.read_schema. now rewrite get_dynamic_schema_app, Hfound.
  - intros Hvalid.
    unfold DynamicSchemasRouter.validate_schema. rewrite get_dynamic_schema_app, Hnone.
    cbn [DynamicSchema.id]. rewrite Z.eqb_refl. cbn [DynamicSchema.schema_definition].
    now rewrite (SchemaDefinition_init_valid _ Hvalid).
Qed.

(** [PUT /dynamic-schemas/{id}] and [DELETE /dynamic-schemas/{id}] never
    succeed.  For an id without a schema they answer 404; for a schema that
    exists they call [crud.update_dynamic_schema] and
    [crud.delete_dynamic_schema], which src/app/crud.py does not define, so
    the request ends in an exception that is answered 500.  Either way the
    store is as it was: no schema is ever updated or deleted, and no record
    is deleted with its schema. *)
Theorem no_schema_is_ever_updated_or_deleted
    (db : Session) (schema_id : Z) (schema : DynamicSchemaCreate.t) :
  fst (DynamicSchemasRouter.update_schema db schema_id schema) = db
  /\ fst (DynamicSchemasRouter.delete_schema db schema_id) = db
  /\ DynamicSchemasRouter.status_of (snd (DynamicSchemasRouter.update_schema db schema_id schema))
     = (if is_some (Crud.get_dynamic_schema db schema_id) then 500 else 404)%Z
  /\ DynamicSchemasRouter.status_of (snd (DynamicSchemasRouter.delete_schema db schema_id))
     = (if is_some (Crud.get_dynamic_schema db schema_id) then 500 else 404)%Z
  /\ (forall row, snd (DynamicSchemasRouter.update_schema db schema_id schema)
                  <> DynamicSchemasRouter.Answer (Returned row))
  /\ (forall body, snd (DynamicSchemasRouter.delete_schema db schema_id)
                   <> DynamicSchemasRouter.Answer (Returned body)).
Proof.
  unfold DynamicSchemasRouter.update_schema, DynamicSchemasRouter.delete_schema.
  destruct (Crud.get_dynamic_schema db schema_id); cbn [fst snd is_some];
    repeat split; try reflexivity; intros x H; discriminate.
Qed.

(* ================================================================== *)
(** * A float for an integer field; pages; conjunctions                *)
(* ================================================================== *)



(** ** Pages *)

Lemma firstn_add {A} (n m : nat) (l : list A) :
  firstn (n + m) l = (firstn n l ++ firstn m (skipn n l))%list.
Proof.
  revert l. induction n as [|n IH]; intros l; [reflexivity|].
  destruct l as [|a l]; simpl.
  - now rewrite firstn_nil.
  - now rewrite IH.
Qed.

Lemma offset_limit_add {A} (skip n m : nat) (l : list A) :
  Crud.offset_limit skip (n + m) l
  = (Crud.offset_limit skip n l ++ Crud.offset_limit (skip + n) m l)%list.
Proof.
  unfold Crud.offset_limit. rewrite firstn_add, skipn_skipn.
  now rewrite (Nat.add_comm n skip).
Qed.

(** Pages join up: in each listing, the page of [n + m] records from
    [skip] on is the page of [n] records from [skip] on followed by the page
    of [m] records from [skip + n] on; and no page holds more records than
    its limit. *)
Theorem consecutive_pages_make_up_the_listing
    (db : Session) (schema_id : option Z) (sid : Z) (skip n m : nat) :
  get_all_dynamic_data db schema_id skip (n + m)
  = (get_all_dynamic_data db schema_id skip n
     ++ get_all_dynamic_data db schema_id (skip + n) m)%list
  /\ DynamicSchemasRouter.read_data_by_schema db sid skip (n + m)
     = (DynamicSchemasRouter.read_data_by_schema db sid skip n
        ++ DynamicSchemasRouter.read_data_by_schema db sid (skip + n) m)%list
  /\ get_deleted_data db schema_id skip (n + m)
     = (get_deleted_data db schema_id skip n
        ++ get_deleted_data db schema_id (skip + n) m)%list
  /\ Crud.get_dynamic_schemas db skip (n + m)
     = (Crud.get_dynamic_schemas db skip n ++ Crud.get_dynamic_schemas db (skip + n) m)%list
  /\ (List.length (get_all_dynamic_data db schema_id skip n) <= n)%nat
  /\ (List.length (DynamicSchemasRouter.read_data_by_schema db sid skip n) <= n)%nat.
Proof.
  unfold get_all_dynamic_data, DynamicSchemasRouter.read_data_by_schema, get_deleted_data,
         Crud.get_dynamic_schemas, Crud.get_dynamic_data_by_schema,
         DynamicData_has_is_deleted.
  cbn [negb].
  repeat split;
    try (destruct schema_id as [i|]; [destruct (negb (Z.eqb i 0))|]);
    try apply offset_limit_add;
    unfold Crud.offset_limit; apply firstn_le_length.
Qed.

(** ** Conjunctions of any length *)

Lemma apply_search_criteria_applied (criteria : value) :
  exists r, forall q, apply_search_criteria q criteria = applied q r.
Proof. apply apply_search_criteria_rec_applied. Qed.

Lemma for_each_apply_search_criteria
    (json_compare : value -> sqltype -> sqlop -> value -> dict -> bool) (l : list value) :
  forall query : Query,
  (forall c, In c l -> exists qc, apply_search_criteria query c = Ok qc) ->
  exists ws,
    (forall q, for_each apply_search_criteria l q = Ok (extend q ws))
    /\ forall r, In r (all_ json_compare query) ->
         (forallb (fun c => holds json_compare c r) ws = true
          <-> forall c qc, In c l -> apply_search_criteria query c = Ok qc ->
                           In r (all_ json_compare qc)).
Proof.
  induction l as [|c l IH]; intros query Hall.
  - exists []. split.
    + intros q. simpl. now rewrite extend_nil.
    + intros r Hr. split; [intros _ c qc [] | reflexivity].
  - destruct (apply_search_criteria_applied c) as [rc Hc].
    destruct (Hall c (or_introl eq_refl)) as [qc0 Hqc0].
    rewrite Hc in Hqc0. destruct rc as [wc|e]; [|discriminate]. cbn [applied] in Hqc0.
    destruct (IH query) as [ws [Hws Hiff]].
    { intros c' Hc'. apply Hall. now right. }
    exists (wc ++ ws)%list. split.
    + intros q. simpl. rewrite Hc. cbn [applied bind]. rewrite Hws.
      now rewrite extend_extend.
    + intros r Hr. rewrite forallb_app, andb_true_iff, (Hiff r Hr). split.
      * intros [Hwc Hrest] c' qc' [<-|Hin] Hq.
        -- rewrite Hc in Hq. inv Hq. apply all_extend. auto.
        -- eapply Hrest; eauto.
      * intros H. split.
        -- specialize (H c (extend query wc) (or_introl eq_refl)).
           rewrite Hc in H. specialize (H eq_refl). apply all_extend in H. tauto.
        -- intros c' qc' Hin Hq. apply (H c' qc'); [now right | exact Hq].
Qed.

(** An [and] of any number of predicates that can each be applied to a
    query can be applied to it, and selects exactly the records of the query
    that every one of them selects; the [and] of no predicate selects them
    all. *)
Theorem and_selects_what_every_member_selects
    (json_compare : value -> sqltype -> sqlop -> value -> dict -> bool)
    (query : Query) (l : list value) :
  (forall c, In c l -> exists qc, apply_search_criteria query c = Ok qc) ->
  exists qand,
    apply_search_criteria query (VDict [("and", VList l)]) = Ok qand
    /\ forall r, In r (all_ json_compare qand)
                 <-> In r (all_ json_compare query)
                     /\ forall c qc, In c l -> apply_search_criteria query c = Ok qc ->
                                     In r (all_ json_compare qc).
Proof.
  intros Hall.
  destruct (for_each_apply_search_criteria json_compare l query Hall) as [ws [Hws Hiff]].
  exists (extend query ws). split.
  - unfold apply_search_criteria at 1. cbn [apply_search_criteria_rec].
    change (py_in "and" (VDict [("and", VList l)])) with (@Ok bool true).
    cbn [bind]. change (py_getitem (VDict [("and", VList l)]) "and") with (Ok (VList l)).
    cbn [bind py_iter].
    rewrite <- Hws. apply for_each_ext. intros c q Hc.
    apply apply_search_criteria_rec_enough.
    assert (Hd : (depth c <= depth (VList l))%nat).
    { apply (depth_py_iter (VList l) l c); [reflexivity | exact Hc]. }
    simpl in Hd |- *. lia.
  - intros r. rewrite all_extend. split.
    + intros [Hr Hf]. split; [exact Hr|]. now apply Hiff.
    + intros [Hr Hf]. split; [exact Hr|]. now apply Hiff.
Qed.

(** Three bounds on the age, and no predicate at all. *)
Lemma and_selects_what_every_member_selects_witness :
  let leaf op n :=
    VDict [("field_path", VStr "age"); ("operator", VStr op); ("value", VInt n)] in
  let query := query_DynamicData Examples.store in
  (exists qand,
     apply_search_criteria query
       (VDict [("and", VList [leaf "gte" 25%Z; leaf "lte" 30%Z; leaf "ne" 27%Z])]) = Ok qand
     /\ map DynamicData.id (all_ Examples.integer_engine qand) = [1%Z])
  /\ apply_search_criteria query (VDict [("and", VList [])]) = Ok query.
Proof.
  intros leaf query. split.
  - assert (Hall : forall c, In c [leaf "gte" 25%Z; leaf "lte" 30%Z; leaf "ne" 27%Z] ->
                             exists qc, apply_search_criteria query c = Ok qc).
    { intros c [<-|[<-|[<-|[]]]]; eexists; reflexivity. }
    destruct (and_selects_what_every_member_selects Examples.integer_engine query _ Hall)
      as [qand [Hq _]].
    exists qand. split; [exact Hq|]. vm_compute in Hq. inv Hq. reflexivity.
  - reflexivity.
Defined.

(** ** The type of the items of an array *)




(** ** Renaming a field in a migration *)

Lemma gdict_get_of_dict (k : string) (d : dict) :
  gdict_get (HStr k) (gdict_of_dict d) = dict_get k d.
Proof.
  induction d as [|[k' v'] d IH]; [reflexivity|].
  cbn [gdict_of_dict map gdict_get dict_get fst snd hkey_eqb].
  destruct (String.eqb k k'); [reflexivity|exact IH].
Qed.

Lemma gdict_set_of_dict (k : string) (v : value) (d : dict) :
  gdict_set (HStr k) (VStr k) v (gdict_of_dict d) = gdict_of_dict (dict_set k v d).
Proof.
  induction d as [|[k' v'] d IH]; [reflexivity|].
  cbn [gdict_of_dict map gdict_set dict_set fst snd hkey_eqb].
  destruct (String.eqb k k'); [reflexivity|].
  cbn [map fst snd]. f_equal. exact IH.
Qed.

Lemma gdict_del_of_dict (k : string) (d : dict) :
  gdict_del (HStr k) (gdict_of_dict d) = gdict_of_dict (dict_remove k d).
Proof.
  induction d as [|[k' v'] d IH]; [reflexivity|].
  cbn [gdict_of_dict map gdict_del dict_remove fst snd hkey_eqb].
  destruct (String.eqb k k'); [reflexivity|].
  cbn [map fst snd]. f_equal. exact IH.
Qed.

Lemma kwargs_of_dict (d : dict) : kwargs_of_gdict (gdict_of_dict d) = Ok d.
Proof.
  induction d as [|[k v] d IH]; [reflexivity|].
  cbn [gdict_of_dict map kwargs_of_gdict fst snd]. unfold gdict_of_dict in IH.
  rewrite IH. reflexivity.
Qed.

Lemma dict_get_remove_other (k k' : string) (d : dict) :
  k <> k' -> dict_get k (dict_remove k' d) = dict_get k d.
Proof.
  intros Hne. induction d as [|[k0 v0] d IH]; [reflexivity|].
  cbn [dict_remove dict_get]. destruct (String.eqb_spec k' k0) as [->|Hne'].
  - destruct (String.eqb_spec k k0); [contradiction|reflexivity].
  - cbn [dict_get]. now rewrite IH.
Qed.

Lemma dict_get_remove (k : string) (d : dict) :
  NoDup (dict_keys d) -> dict_get k (dict_remove k d) = None.
Proof.
  induction d as [|[k0 v0] d IH]; [reflexivity|].
  cbn [dict_keys map fst dict_remove]. intros Hnd. inversion Hnd as [|? ? Hn Hnd']; subst.
  destruct (String.eqb_spec k k0) as [->|Hne].
  - now apply dict_get_None.
  - cbn [dict_get]. apply String.eqb_neq in Hne. rewrite Hne. now apply IH.
Qed.

(** A migration whose configuration maps the field [old] to the new name
    [new] validates, for a record that has [old], the document in which
    [new] holds what [old] held, [old] is gone, and every other field is as
    it was: the value moves to the new name. *)
Theorem migration_moves_a_renamed_field
    (cv : Conversions) (schema_def : SchemaDefinition) (data : dict)
    (old new : string) (v : value) :
  dict_get old data = Some v ->
  new <> old ->
  NoDup (dict_keys data) ->
  exists migrated_data,
    migrate_item cv (VDict [(old, VStr new)]) (VDict []) (VList []) schema_def data
    = validate_data cv schema_def migrated_data
    /\ dict_get new migrated_data = Some v
    /\ dict_get old migrated_data = None
    /\ forall k, k <> old -> k <> new -> dict_get k migrated_data = dict_get k data.
Proof.
  intros Hold Hne Hnd. exists (dict_remove old (dict_set new v data)).
  split; [|split; [|split]].
  - unfold migrate_item. cbn [py_items bind for_each apply_mapping].
    rewrite gdict_get_of_dict, Hold. cbn [hash_key bind].
    assert (Hv : value_is (VStr new) old = false).
    { unfold value_is. now apply String.eqb_neq. }
    rewrite Hv. cbn [negb bind py_iter for_each].
    rewrite gdict_set_of_dict, gdict_del_of_dict, kwargs_of_dict. reflexivity.
  - rewrite dict_get_remove_other by exact Hne.
    rewrite dict_get_set, String.eqb_refl. reflexivity.
  - apply dict_get_remove. now apply dict_set_NoDup.
  - intros k Hko Hkn. rewrite dict_get_remove_other by exact Hko.
    rewrite dict_get_set. apply String.eqb_neq in Hkn. now rewrite Hkn.
Qed.

(** Renaming [name] to [full_name] in the document of the test suite. *)
Lemma migration_moves_a_renamed_field_witness :
  exists migrated_data,
    migrate_item Examples.no_text (VDict [("name", VStr "full_name")]) (VDict [])
                 (VList []) Examples.user_schema Examples.hong
    = validate_data Examples.no_text Examples.user_schema migrated_data
    /\ dict_get "full_name" migrated_data = Some (VStr "Hong")
    /\ dict_get "name" migrated_data = None.
Proof.
  assert (h1 : dict_get "name" Examples.hong = Some (VStr "Hong")) by reflexivity.
  assert (h2 : "full_name" <> "name") by discriminate.
  assert (h3 : NoDup (dict_keys Examples.hong))
    by (repeat constructor; simpl; intuition discriminate).
  destruct (migration_moves_a_renamed_field Examples.no_text Examples.user_schema
              Examples.hong "name" "full_name" (VStr "Hong") h1 h2 h3)
    as [migrated_data [H1 [H2 [H3 _]]]].
  exists migrated_data. auto.
Defined.
